(** * Studio inventory: scan-to-commit flow and equipment registration

    A shallow embedding of the two screens of the mobile application that
    write inventory state:

    - [Checkout]: [src/app/(home)/checkout.tsx], the scan / confirm /
      photo / submit flow ([handleBarCodeScanned], [handleTakePhoto],
      [confirmAndSubmit], [resetScanner]);
    - [AddEquipment]: [src/unnamed/part_000], the registration form
      ([handleSubmit], [handleMergeConfirm]);

    together with what surrounds them: the other handlers of the
    registration form ([Registration]: the search for similar equipment,
    the photo pickers, the merge dialog) and the QR payload the detail
    screen of [src/unnamed/part_002] shows for a unit ([Detail]).

    The handlers are asynchronous React callbacks that talk to a remote
    record store.  A handler is embedded as a function on the component
    state it closes over, and the body of each [try] block as a computation
    in a small state-and-exception monad over the remote store.

    Conventions of the embedding:
    - a handler runs to its end before the next event is taken: what other
      devices, or other events of the same screen, do between two [await]s
      of one handler is not part of the model;
    - an awaited request is served, refused (the promise resolves to an
      object carrying [error]) or rejects (the [await] throws), as the
      platform's [network] decides; a request that is not served leaves the
      store untouched;
    - built-ins whose result is not fixed by the source ([JSON.parse], the
      clock, the random generator, the public URL of a blob, the ids the
      store assigns) are fields of the [Platform] record;
    - numbers held by the store are integers; strings are sequences of
      8-bit characters, each read as the code unit of its number (U+0000 to
      U+00FF): text with a character above U+00FF is outside the model. *)

From Stdlib Require Import String Ascii List ZArith Bool Lia DecimalString.
From Stdlib Require DecimalPos.
Import ListNotations.
Local Open Scope string_scope.

(** ** JavaScript built-ins used by the handlers *)

Module JS.

(** [ToBoolean] on a string: only the empty string is falsy. *)
Definition truthy (s : string) : bool := negb (s =? "").

(** [ToBoolean] on a value of type [string | null | undefined]. *)
Definition truthy_opt (o : option string) : bool :=
  match o with
  | Some s => truthy s
  | None => false
  end.

(** A nullable string inside a template literal. *)
Definition template (o : option string) : string :=
  match o with
  | Some s => s
  | None => "undefined"
  end.

(** [a || b] where [a] is a nullable string. *)
Definition or_else (o : option string) (d : string) : string :=
  match o with
  | Some s => if truthy s then s else d
  | None => d
  end.

(** A number produced by [JSON.parse]: a binary64 value, kept as
    [m * 2^e], or an infinity (a literal such as 1e999). *)
Inductive number :=
| Finite (m e : Z)
| PosInfinity
| NegInfinity.

Definition number_truthy (n : number) : bool :=
  match n with
  | Finite m _ => negb (m =? 0)%Z
  | PosInfinity | NegInfinity => true
  end.

(** The values [JSON.parse] can return.  Members of an object are kept in
    source order; a later duplicate key overrides an earlier one. *)
#[local] Unset Elimination Schemes.
Inductive json :=
| JNull
| JBool (b : bool)
| JNumber (n : number)
| JString (s : string)
| JArray (elems : list json)
| JObject (members : list (string * json)).
#[local] Set Elimination Schemes.

Definition toBoolean (v : json) : bool :=
  match v with
  | JNull => false
  | JBool b => b
  | JNumber n => number_truthy n
  | JString s => truthy s
  | JArray _ | JObject _ => true
  end.

Fixpoint last_member (k : string) (ms : list (string * json)) : option json :=
  match ms with
  | [] => None
  | (k', v) :: rest =>
      match last_member k rest with
      | Some w => Some w
      | None => if k' =? k then Some v else None
      end
  end.

(** Outcome of the property read [parsed.item]. *)
Inductive property :=
| ThrowsTypeError
| IsUndefined
| Has (v : json).

(** [parsed.item]: reading a property of [null] throws; primitives and
    arrays have no such property; an object yields its own member. *)
Definition get_item (parsed : json) : property :=
  match parsed with
  | JNull => ThrowsTypeError
  | JObject ms =>
      match last_member "item" ms with
      | Some v => Has v
      | None => IsUndefined
      end
  | JBool _ | JNumber _ | JString _ | JArray _ => IsUndefined
  end.

Section ToString.
(** [Number::toString], the shortest round-trip decimal rendering. *)
Variable Number_toString : number -> string.

(** [ToString], as applied by a template literal. *)
Fixpoint toString (v : json) : string :=
  match v with
  | JNull => "null"
  | JBool b => if b then "true" else "false"
  | JNumber n => Number_toString n
  | JString s => s
  | JArray elems =>
      (fix join (l : list json) : string :=
         match l with
         | [] => ""
         | x :: rest =>
             let sx := match x with JNull => "" | _ => toString x end in
             match rest with
             | [] => sx
             | _ :: _ => sx ++ "," ++ join rest
             end
         end) elems
  | JObject _ => "[object Object]"
  end.
End ToString.

(** A character is the code unit of its number, U+0000 to U+00FF.  The
    white space of [trim] and [parseInt] (WhiteSpace and LineTerminator) has
    seven members in that range: tab, line feed, vertical tab, form feed,
    carriage return, space and the no-break space U+00A0. *)
Definition is_space (c : ascii) : bool :=
  let n := nat_of_ascii c in
  Nat.eqb n 32 || (Nat.leb 9 n && Nat.leb n 13) || Nat.eqb n 160.

Fixpoint trimStart (s : string) : string :=
  match s with
  | EmptyString => EmptyString
  | String c rest => if is_space c then trimStart rest else s
  end.

Definition reverse (s : string) : string :=
  string_of_list_ascii (rev (list_ascii_of_string s)).

Definition trim (s : string) : string :=
  reverse (trimStart (reverse (trimStart s))).

(** [s.substring(i, j)] for [i <= j]. *)
Definition substring (i j : nat) (s : string) : string :=
  String.substring i (j - i) s.

(** The capital of one character: the letters a-z and U+00E0-U+00FE (the
    division sign U+00F7 apart) have theirs 32 below; the sharp s U+00DF
    becomes SS.  The micro sign U+00B5 and U+00FF have capitals above
    U+00FF, which no string here can hold: they are left as they are, and
    nothing below depends on what becomes of them. *)
Definition upper (c : ascii) : string :=
  let n := nat_of_ascii c in
  if (Nat.leb 97 n && Nat.leb n 122)
     || (Nat.leb 224 n && Nat.leb n 254 && negb (Nat.eqb n 247))
  then String (ascii_of_nat (n - 32)) EmptyString
  else if Nat.eqb n 223 then "SS"
  else String c EmptyString.

Fixpoint toUpperCase (s : string) : string :=
  match s with
  | EmptyString => EmptyString
  | String c rest => upper c ++ toUpperCase rest
  end.

(** [n.toString()] for an integer-valued number. *)
Definition int_toString (n : Z) : string :=
  NilZero.string_of_int (Z.to_int n).

Fixpoint repeat0 (n : nat) : string :=
  match n with
  | O => EmptyString
  | S k => String "0" (repeat0 k)
  end.

(** [s.padStart(w, '0')]. *)
Definition padStart0 (w : nat) (s : string) : string :=
  repeat0 (w - String.length s) ++ s.

(** Value of a digit in radix [r] ([r] is 10 or 16), if it is one. *)
Definition digit (r : Z) (c : ascii) : option Z :=
  let n := Z.of_nat (nat_of_ascii c) in
  let d :=
    if (48 <=? n)%Z && (n <=? 57)%Z then Some (n - 48)%Z
    else if (97 <=? n)%Z && (n <=? 122)%Z then Some (n - 87)%Z
    else if (65 <=? n)%Z && (n <=? 90)%Z then Some (n - 55)%Z
    else None in
  match d with
  | Some v => if (v <? r)%Z then Some v else None
  | None => None
  end.

(** Value of the longest prefix of radix-[r] digits; [None] when that
    prefix is empty. *)
Fixpoint digits (r : Z) (acc : option Z) (s : string) : option Z :=
  match s with
  | EmptyString => acc
  | String c rest =>
      match digit r c with
      | Some d =>
          digits r (Some (match acc with Some a => a * r + d | None => d end)%Z) rest
      | None => acc
      end
  end.

(** [parseInt(s)] with no radix argument; [None] is NaN.  The result is
    exact below 2^53, where a Number holds every integer. *)
Definition parseInt (s : string) : option Z :=
  let s1 := trimStart s in
  let '(sign, s2) :=
    match s1 with
    | String "-" rest => ((-1)%Z, rest)
    | String "+" rest => (1%Z, rest)
    | _ => (1%Z, s1)
    end in
  let '(radix, s3) :=
    match s2 with
    | String "0" (String "x" rest) => (16%Z, rest)
    | String "0" (String "X" rest) => (16%Z, rest)
    | _ => (10%Z, s2)
    end in
  match digits radix None s3 with
  | Some v => Some (sign * v)%Z
  | None => None
  end.

(** [parseInt(s) || 1]: NaN and zero are falsy. *)
Definition parseInt_or_1 (s : string) : Z :=
  match parseInt s with
  | Some v => if (v =? 0)%Z then 1%Z else v
  | None => 1%Z
  end.

(** Largest length [Array.from({ length })] accepts before it throws a
    RangeError. *)
Definition max_array_length : Z := (2 ^ 32 - 1)%Z.

(** [Number.MAX_SAFE_INTEGER]: up to it the sum of two integers held by
    Numbers is the integer sum. *)
Definition max_safe_integer : Z := (2 ^ 53 - 1)%Z.

End JS.

(** ** The remote record store *)

Module Remote.

(** Rows carry the columns the two screens read or write.  Identifiers and
    codes are strings.  A table is a list of rows: nothing in the client
    code enforces uniqueness of a column. *)

Inductive Mode := checkout | checkin.

Module Equipment.
Record t := mk {
  id : string;
  studio_id : option string;
  name : string;
  category : string;
  total_quantity : Z;
  available_quantity : Z;
  sku : option string;
  photo_url : option string;
  notes : option string
}.
End Equipment.

Module EquipmentItem.
Record t := mk {
  id : string;
  equipment_id : string;
  studio_id : option string;
  code : string;
  code_type : string;
  status : string
}.
End EquipmentItem.

Module Transaction.
Record t := mk {
  studio_id : option string;
  equipment_id : string;
  equipment_item_id : string;
  user_id : string;
  type : Mode;
  quantity : Z;
  photo_url : option string;
  approval_status : option string
}.
End Transaction.

(** An object of the blob storage: bucket, path, and the local file the
    blob was read from. *)
Record StorageObject := mkStorageObject {
  bucket : string;
  path : string;
  source_uri : string
}.

Record Store := mkStore {
  equipment : list Equipment.t;
  equipment_items : list EquipmentItem.t;
  transactions : list Transaction.t;
  objects : list StorageObject;
  serial : nat   (* number of identifiers the store has handed out *)
}.

Definition with_equipment (l : list Equipment.t) (db : Store) : Store :=
  mkStore l (equipment_items db) (transactions db) (objects db) (serial db).

Definition with_equipment_items (l : list EquipmentItem.t) (db : Store) : Store :=
  mkStore (equipment db) l (transactions db) (objects db) (serial db).

Definition with_transactions (l : list Transaction.t) (db : Store) : Store :=
  mkStore (equipment db) (equipment_items db) l (objects db) (serial db).

Definition with_objects (l : list StorageObject) (db : Store) : Store :=
  mkStore (equipment db) (equipment_items db) (transactions db) l (serial db).

Definition with_serial (n : nat) (db : Store) : Store :=
  mkStore (equipment db) (equipment_items db) (transactions db) (objects db) n.

Definition set_status (s : string) (u : EquipmentItem.t) : EquipmentItem.t :=
  EquipmentItem.mk (EquipmentItem.id u) (EquipmentItem.equipment_id u)
                   (EquipmentItem.studio_id u)
                  (EquipmentItem.code u) (EquipmentItem.code_type u) s.

Definition set_available_quantity (q : Z) (e : Equipment.t) : Equipment.t :=
  Equipment.mk (Equipment.id e) (Equipment.studio_id e) (Equipment.name e)
              (Equipment.category e) (Equipment.total_quantity e) q (Equipment.sku e)
              (Equipment.photo_url e) (Equipment.notes e).

Definition set_quantities (t a : Z) (e : Equipment.t) : Equipment.t :=
  Equipment.mk (Equipment.id e) (Equipment.studio_id e) (Equipment.name e)
              (Equipment.category e) t a (Equipment.sku e)
              (Equipment.photo_url e) (Equipment.notes e).

(** ** Requests, their fate, and the platform *)

(** The calls a handler awaits. *)
Inductive request :=
| FetchFile (uri : string)
| StorageUpload (bkt : string)
| TableSelect (table : string)
| TableInsert (table : string)
| TableUpdate (table : string).

(** What becomes of a call.  The client library resolves a failed request to
    an object whose [error] field is set (the handlers read it as
    [{ data, error }]); a promise can also reject, which throws at the
    [await]. *)
Inductive fate :=
| Served
| Refused (message : string)
| Rejects (message : string).

(** Everything a handler obtains from outside the component. *)
Record Platform := mkPlatform {
  JSON_parse : string -> option JS.json;       (* [None]: SyntaxError *)
  Number_toString : JS.number -> string;
  getPublicUrl : string -> string -> string;   (* bucket, path *)
  Date_now : Z;                                (* the clock, in ms *)
  Math_random_base36 : nat -> string;          (* i-th [Math.random().toString(36)] *)
  new_id : nat -> string;                      (* identifier the store assigns *)
  network : request -> fate
}.

(** ** Asynchronous computations over the store *)

Inductive exn := Error (message : string).

Definition message_of (e : exn) : string :=
  match e with Error m => m end.

Inductive result (A : Type) :=
| Return (a : A)
| Throw (e : exn).
Arguments Return {A} a.
Arguments Throw {A} e.

Definition Async (A : Type) : Type := Store -> result A * Store.

Definition ret {A} (a : A) : Async A := fun db => (Return a, db).

Definition throw {A} (e : exn) : Async A := fun db => (Throw e, db).

Definition bind {A B} (c : Async A) (k : A -> Async B) : Async B :=
  fun db =>
    match c db with
    | (Return a, db') => k a db'
    | (Throw e, db') => (Throw e, db')
    end.

Declare Scope async_scope.
Delimit Scope async_scope with async.
Notation "x <- c ;; k" := (bind c (fun x => k))
  (at level 61, c at next level, right associativity) : async_scope.
Notation "c ;; k" := (bind c (fun _ => k))
  (at level 61, right associativity) : async_scope.

(** The object a resolved request yields: [{ data, error }]. *)
Record Response (A : Type) := mkResponse {
  data : option A;
  error : option string
}.
Arguments mkResponse {A} data error.
Arguments data {A} r.
Arguments error {A} r.

Definition ok {A} (a : A) : Response A := mkResponse (Some a) None.
Definition failed {A} (m : string) : Response A := mkResponse None (Some m).

(** [.single()]: the result must be exactly one row. *)
Definition single {A} (rows : list A) : Response A :=
  match rows with
  | [r] => ok r
  | _ => failed "JSON object requested, multiple (or no) rows returned"
  end.

Section WithPlatform.
Context (P : Platform).

(** [await] of a request: when it is served the store runs [serve]; when it
    is refused or rejects the store is left as it was. *)
Definition await {A} (rq : request) (serve : Store -> Response A * Store)
  : Async (Response A) :=
  fun db =>
    match network P rq with
    | Served => let (r, db') := serve db in (Return r, db')
    | Refused m => (Return (failed m), db)
    | Rejects m => (Throw (Error m), db)
    end.

(** [fetch(uri)] followed by [response.blob()]. *)
Definition fetch_blob (uri : string) : Async string :=
  fun db =>
    match network P (FetchFile uri) with
    | Served => (Return uri, db)
    | Refused m | Rejects m => (Throw (Error m), db)   (* no error field here *)
    end.

(** [storage.from(bucket).upload(path, blob)]: an existing path is not
    overwritten. *)
Definition upload (bkt pth blob : string) : Async (Response unit) :=
  await (StorageUpload bkt) (fun db =>
    if existsb (fun o => (bucket o =? bkt) && (path o =? pth)) (objects db)
    then (failed "The resource already exists", db)
    else (ok tt, with_objects (objects db ++ [mkStorageObject bkt pth blob]) db)).

(** [from('transactions').insert(row)]; without [.select()] a served insert
    resolves with [data: null]. *)
Definition insert_transaction (row : Transaction.t) : Async (Response unit) :=
  await (TableInsert "transactions") (fun db =>
    (mkResponse None None, with_transactions (transactions db ++ [row]) db)).

(** [from('equipment_items').update({ status }).eq('id', id)]: every row
    whose id matches is patched; no match is not an error. *)
Definition update_item_status (id st : string) : Async (Response unit) :=
  await (TableUpdate "equipment_items") (fun db =>
    (mkResponse None None,
     with_equipment_items
       (map (fun u => if EquipmentItem.id u =? id then set_status st u else u)
            (equipment_items db)) db)).

(** [from('equipment').select('available_quantity').eq('id', id).single()]. *)
Definition select_available_quantity (id : string) : Async (Response Z) :=
  await (TableSelect "equipment") (fun db =>
    (single (map Equipment.available_quantity
                 (filter (fun e => Equipment.id e =? id) (equipment db))),
     db)).

(** [from('equipment').update({ available_quantity }).eq('id', id)]. *)
Definition update_available_quantity (id : string) (q : Z) : Async (Response unit) :=
  await (TableUpdate "equipment") (fun db =>
    (mkResponse None None,
     with_equipment
       (map (fun e => if Equipment.id e =? id then set_available_quantity q e else e)
            (equipment db)) db)).

(** The columns the client sends for a new unit; the store adds the id. *)
Record NewItem := mkNewItem {
  row_equipment_id : string;
  row_studio_id : option string;
  row_code : string;
  row_code_type : string;
  row_status : string
}.

Fixpoint assign_ids (n : nat) (rows : list NewItem) : list EquipmentItem.t :=
  match rows with
  | [] => []
  | r :: rest =>
      EquipmentItem.mk (new_id P n) (row_equipment_id r) (row_studio_id r)
                      (row_code r) (row_code_type r) (row_status r)
        :: assign_ids (S n) rest
  end.

(** [from('equipment_items').insert(items)]. *)
Definition insert_items (rows : list NewItem) : Async (Response unit) :=
  await (TableInsert "equipment_items") (fun db =>
    (mkResponse None None,
     with_serial (serial db + length rows)
       (with_equipment_items
          (equipment_items db ++ assign_ids (serial db) rows) db))).

(** [from('equipment').insert(row).select().single()]: the store assigns the
    id and hands the stored row back. *)
Definition insert_equipment (row : string -> Equipment.t) : Async (Response Equipment.t) :=
  await (TableInsert "equipment") (fun db =>
    let e := row (new_id P (serial db)) in
    (ok e, with_serial (S (serial db)) (with_equipment (equipment db ++ [e]) db))).

(** [from('equipment').update({ total_quantity, available_quantity }).eq('id', id)]. *)
Definition update_quantities (id : string) (t a : Z) : Async (Response unit) :=
  await (TableUpdate "equipment") (fun db =>
    (mkResponse None None,
     with_equipment
       (map (fun e => if Equipment.id e =? id then set_quantities t a e else e)
            (equipment db)) db)).

End WithPlatform.

End Remote.

Import Remote.
Local Open Scope async_scope.

(** ** The scan screen ([CheckoutScreen]) *)

Module Checkout.

Record CartItem := mkCartItem {
  unitId : string;
  equipmentId : string;
  code : string;
  equipmentName : string;
  photoUri : option string
}.

Inductive FlowStep := scan | confirm | photo | success.

(** The component state, one field per [useState]. *)
Record Screen := mkScreen {
  mode : Mode;
  step : FlowStep;
  cart : list CartItem;
  currentItem : option CartItem;
  processing : bool;
  error : option string;
  scanned : bool
}.

(** State on mount. *)
Definition initial : Screen := mkScreen checkout scan [] None false None false.

(** The state setters the component calls.  The setter of [cart] is never
    called by the component and has no counterpart here. *)
Definition setMode (m : Mode) (s : Screen) : Screen :=
  mkScreen m (step s) (cart s) (currentItem s) (processing s) (error s) (scanned s).

Definition setStep (x : FlowStep) (s : Screen) : Screen :=
  mkScreen (mode s) x (cart s) (currentItem s) (processing s) (error s) (scanned s).

Definition setCurrentItem (x : option CartItem) (s : Screen) : Screen :=
  mkScreen (mode s) (step s) (cart s) x (processing s) (error s) (scanned s).

Definition setProcessing (b : bool) (s : Screen) : Screen :=
  mkScreen (mode s) (step s) (cart s) (currentItem s) b (error s) (scanned s).

Definition setError (e : option string) (s : Screen) : Screen :=
  mkScreen (mode s) (step s) (cart s) (currentItem s) (processing s) e (scanned s).

Definition setScanned (b : bool) (s : Screen) : Screen :=
  mkScreen (mode s) (step s) (cart s) (currentItem s) (processing s) (error s) b.

(** An [Alert.alert(title, message)]. *)
Definition Alert : Type := (string * string)%type.

(** The screen together with what it acts on. *)
Record World := mkWorld {
  ui : Screen;
  remote : Store;
  alerts : list Alert
}.

(** The messages shown for a rejected scan. *)
Definition NotFound : string := "Item not found".
Definition WrongStudio : string := "Item belongs to different studio".
Definition AlreadyStaged : string := "Item already in cart".
Definition NotAvailable : string := "Item is already checked out".
Definition NotCheckedOut : string := "Item is not checked out".

(** A row of [equipment_items] selected with
    ['*, equipment(id, name, studio_id)']: the unit and the equipment its
    [equipment_id] refers to, [null] when there is none. *)
Record ScannedUnit := mkScannedUnit {
  unit_row : EquipmentItem.t;
  unit_equipment : option Equipment.t
}.

Definition embed (db : Store) (u : EquipmentItem.t) : ScannedUnit :=
  mkScannedUnit u
    (find (fun e => Equipment.id e =? EquipmentItem.equipment_id u) (equipment db)).

(** The filter [or(id.eq.<unitId>, code.eq.<data>)].  The two values are
    spliced into the filter text by the client; the model takes the filter
    as the disjunction it is meant to be. *)
Definition matches (unitId data : string) (u : EquipmentItem.t) : bool :=
  (EquipmentItem.id u =? unitId) || (EquipmentItem.code u =? data).

(** [a !== b] on nullable strings, used with a non-null [b]. *)
Definition strict_neq (a b : option string) : bool :=
  match a, b with
  | Some x, Some y => negb (x =? y)
  | _, _ => true
  end.

Definition mode_eqb (a b : Mode) : bool :=
  match a, b with
  | checkout, checkout | checkin, checkin => true
  | _, _ => false
  end.

(** Outcome of the validation of a scan. *)
Inductive verdict :=
| Reject (reason : string)
| Stage (item : CartItem).

(** Outcome of the camera dialog of [handleTakePhoto]. *)
Inductive camera :=
| PermissionDenied
| CameraFailed
| Canceled
| Captured (uri : string).

Section Handlers.
Context (P : Platform).
(** Route parameter and signed-in user (its id), both may be missing. *)
Context (studioId : option string) (user : option string).

(** Lines 63-69: the unit id a scan payload designates. *)
Definition resolveUnitId (data : string) : string :=
  match JSON_parse P data with
  | None => data
  | Some parsed =>
      match JS.get_item parsed with
      | JS.Has v =>
          if JS.toBoolean v then JS.toString (Number_toString P) v else data
      | JS.IsUndefined => data
      | JS.ThrowsTypeError => data
      end
  end.

(** Lines 71-75: the lookup, a read that leaves the store as it is. *)
Definition select_unit (unit_id data : string) : Async (Response ScannedUnit) :=
  await P (TableSelect "equipment_items") (fun db =>
    (single (map (embed db) (filter (matches unit_id data) (equipment_items db))),
     db)).

Definition null_equipment : exn :=
  Error "Cannot read property of null (unit.equipment)".

(** Lines 84-119: the checks on a resolved unit, in source order. *)
Definition validate (s : Screen) (u : ScannedUnit) : Async verdict :=
  wrong <- (if JS.truthy_opt studioId then
              match unit_equipment u with
              | Some e => ret (strict_neq (Equipment.studio_id e) studioId)
              | None => throw null_equipment
              end
            else ret false) ;;
  if wrong : bool then ret (Reject WrongStudio)
  else if existsb (fun c => unitId c =? EquipmentItem.id (unit_row u)) (cart s)
  then ret (Reject AlreadyStaged)
  else if mode_eqb (mode s) checkout
          && negb (EquipmentItem.status (unit_row u) =? "available")
  then ret (Reject NotAvailable)
  else if mode_eqb (mode s) checkin && (EquipmentItem.status (unit_row u) =? "available")
  then ret (Reject NotCheckedOut)
  else
    match unit_equipment u with
    | Some e =>
        ret (Stage (mkCartItem (EquipmentItem.id (unit_row u)) (Equipment.id e)
                               (EquipmentItem.code (unit_row u)) (Equipment.name e) None))
    | None => throw null_equipment
    end.

(** Lines 62-120: the body of the [try] block. *)
Definition scan_try (data : string) (s : Screen) : Async verdict :=
  let unit_id := resolveUnitId data in
  r <- select_unit unit_id data ;;
  match Remote.error r, Remote.data r with
  | None, Some u => validate s u
  | _, _ => ret (Reject NotFound)
  end.

(** Lines 56-127.  The handler reads the state it closed over ([s]) and
    queues updates; the result is the state once they are applied. *)
Definition handleBarCodeScanned (data : string) (w : World) : World :=
  let s := ui w in
  if scanned s || processing s then w
  else
    let s1 := setProcessing true (setError None (setScanned true s)) in
    match scan_try data s (remote w) with
    | (Return (Reject reason), db) =>
        mkWorld (setProcessing false
                   (setProcessing false (setScanned false (setError (Some reason) s1))))
                db (alerts w)
    | (Return (Stage item), db) =>
        mkWorld (setProcessing false (setStep confirm (setCurrentItem (Some item) s1)))
                db (alerts w)
    | (Throw e, db) =>
        mkWorld (setProcessing false
                   (setScanned false
                      (setError (Some (JS.or_else (Some (message_of e)) "Scan failed")) s1)))
                db (alerts w)
    end.

(** Lines 129-156. *)
Definition handleTakePhoto (c : camera) (w : World) : World :=
  match c with
  | PermissionDenied =>
      mkWorld (ui w) (remote w)
        (alerts w ++ [("Camera Permission Required",
                       "Please allow camera access in your device settings to take photos.")])
  | CameraFailed =>
      mkWorld (ui w) (remote w)
        (alerts w ++ [("Error", "Failed to open camera. Please try again.")])
  | Canceled => w
  | Captured uri =>
      match currentItem (ui w) with
      | Some it =>
          mkWorld (setStep photo
                     (setCurrentItem
                        (Some (mkCartItem (unitId it) (equipmentId it) (code it)
                                          (equipmentName it) (Some uri)))
                        (ui w)))
                  (remote w) (alerts w)
      | None => w
      end
  end.

(** Lines 163-178: the optional upload, yielding [photoUrl]. *)
Definition photo_path (it : CartItem) : string :=
  JS.template studioId ++ "/" ++ unitId it ++ "/"
    ++ JS.int_toString (Date_now P) ++ ".jpg".

Definition upload_photo (it : CartItem) : Async (option string) :=
  match photoUri it with
  | Some uri =>
      if JS.truthy uri then
        blob <- fetch_blob P uri ;;
        let fileName := photo_path it in
        upload P "transaction-photos" fileName blob ;;
        ret (Some (getPublicUrl P "transaction-photos" fileName))
      else ret None
  | None => ret None
  end.

(** Lines 181-190: the row handed to [insert]. *)
Definition transaction_row (m : Mode) (it : CartItem) (uid : string)
    (photoUrl : option string) : Transaction.t :=
  Transaction.mk studioId (equipmentId it) (unitId it) uid m 1 photoUrl
    (match m with checkout => Some "pending" | checkin => None end).

Definition new_status (m : Mode) : string :=
  match m with
  | checkout => "checked_out"
  | checkin => "available"
  end.

Definition new_quantity (m : Mode) (q : Z) : Z :=
  match m with
  | checkout => (q - 1)%Z
  | checkin => (q + 1)%Z
  end.

(** Lines 162-215: the body of the [try] block, up to [setStep]. *)
Definition commit_try (m : Mode) (it : CartItem) (uid : string) : Async unit :=
  photoUrl <- upload_photo it ;;
  insert_transaction P (transaction_row m it uid photoUrl) ;;
  update_item_status P (unitId it) (new_status m) ;;
  equip <- select_available_quantity P (equipmentId it) ;;
  match Remote.data equip with
  | Some q =>
      update_available_quantity P (equipmentId it) (new_quantity m q) ;;
      ret tt
  | None => ret tt
  end.

(** Lines 158-221. *)
Definition confirmAndSubmit (w : World) : World :=
  let s := ui w in
  match currentItem s, user with
  | Some it, Some uid =>
      let s1 := setProcessing true s in
      match commit_try (mode s) it uid (remote w) with
      | (Return _, db) =>
          mkWorld (setProcessing false (setStep success s1)) db (alerts w)
      | (Throw e, db) =>
          mkWorld (setProcessing false s1) db
                  (alerts w ++ [("Error", message_of e)])
      end
  | _, _ => w
  end.

Definition skipPhotoAndSubmit (w : World) : World := confirmAndSubmit w.

(** Lines 227-232. *)
Definition resetScanner (w : World) : World :=
  mkWorld (setError None (setStep scan (setScanned false (setCurrentItem None (ui w)))))
          (remote w) (alerts w).

End Handlers.

(** *** Sessions

    What the user and the camera can do to the screen.  Each event carries
    the platform its handler runs on (clock, network, decoder). *)

Inductive event :=
| Scan (data : string)            (* the camera view reports a code *)
| PressMode (m : Mode)            (* header toggle *)
| DismissError                    (* the cross of the error banner *)
| PressTakePhoto (c : camera)     (* Take Photo / Retake *)
| PressSkipPhoto                  (* Skip Photo and Submit *)
| PressSubmit                     (* Submit on the photo preview *)
| PressReset.                     (* Cancel / Scan Another *)

Definition is_step (x : FlowStep) (s : Screen) : bool :=
  match x, step s with
  | scan, scan | confirm, confirm | photo, photo | success, success => true
  | _, _ => false
  end.

Definition has_item (s : Screen) : bool :=
  match currentItem s with Some _ => true | None => false end.

Definition has_photo (s : Screen) : bool :=
  match currentItem s with
  | Some it => JS.truthy_opt (photoUri it)
  | None => false
  end.

(** Which controls the rendered screen offers (lines 275-413). *)
Definition enabled (e : event) (s : Screen) : bool :=
  if is_step success s then
    match e with PressReset => true | _ => false end
  else
    match e with
    | Scan _ => is_step scan s && negb (scanned s)
    | PressMode _ => true
    | DismissError => is_step scan s && JS.truthy_opt (error s)
    | PressTakePhoto _ =>
        (is_step confirm s && has_item s) || (is_step photo s && has_photo s)
    | PressSkipPhoto => is_step confirm s && has_item s
    | PressSubmit => is_step photo s && has_photo s && negb (processing s)
    | PressReset => is_step confirm s && has_item s
    end.

Section Sessions.
Context (studioId : option string) (user : option string).

Definition handle (P : Platform) (e : event) (w : World) : World :=
  match e with
  | Scan d => handleBarCodeScanned P studioId d w
  | PressMode m => mkWorld (setMode m (ui w)) (remote w) (alerts w)
  | DismissError => mkWorld (setError None (ui w)) (remote w) (alerts w)
  | PressTakePhoto c => handleTakePhoto c w
  | PressSkipPhoto => skipPhotoAndSubmit P studioId user w
  | PressSubmit => confirmAndSubmit P studioId user w
  | PressReset => resetScanner w
  end.

Definition dispatch (P : Platform) (e : event) (w : World) : World :=
  if enabled e (ui w) then handle P e w else w.

(** Sessions are sequential: an event is taken once the handler of the
    one before it has run to its end.  The screen itself does not enforce
    this (Cancel, the mode toggle, Take Photo and Skip Photo and Submit stay
    enabled while a handler awaits a request, and the camera can report a
    second code before the first report has been rendered); events that
    arrive during the awaits of a handler are not sessions in this sense.

    The worlds such a session goes through, the starting one excluded. *)
Fixpoint trace (es : list (Platform * event)) (w : World) : list World :=
  match es with
  | [] => []
  | (P, e) :: rest => let w' := dispatch P e w in w' :: trace rest w'
  end.

Definition run (es : list (Platform * event)) (w : World) : World :=
  fold_left (fun w pe => dispatch (fst pe) (snd pe) w) es w.

End Sessions.

End Checkout.

(** ** The registration screen ([AddEquipmentScreen]) *)

Module AddEquipment.

Module SimilarEquipment.
Record t := mk {
  id : string;
  name : string;
  category : string;
  total_quantity : Z;
  available_quantity : Z;
  photo_url : option string
}.
End SimilarEquipment.

Module Form.
Record t := mk {
  name : string;
  category : string;
  quantity : string;
  sku : string;
  notes : string
}.
End Form.

Record Screen := mkScreen {
  loading : bool;
  photoUri : option string;
  similarEquipment : list SimilarEquipment.t;
  showMergeModal : bool;
  selectedMergeTarget : option SimilarEquipment.t;
  form : Form.t
}.

Definition setLoading (b : bool) (s : Screen) : Screen :=
  mkScreen b (photoUri s) (similarEquipment s) (showMergeModal s)
           (selectedMergeTarget s) (form s).

Definition setShowMergeModal (b : bool) (s : Screen) : Screen :=
  mkScreen (loading s) (photoUri s) (similarEquipment s) b
           (selectedMergeTarget s) (form s).

Definition setSelectedMergeTarget (x : option SimilarEquipment.t) (s : Screen) : Screen :=
  mkScreen (loading s) (photoUri s) (similarEquipment s) (showMergeModal s)
           x (form s).

Definition Alert : Type := (string * string)%type.

Record World := mkWorld {
  ui : Screen;
  remote : Store;
  alerts : list Alert
}.

(** [a || null] on a string. *)
Definition or_null (s : string) : option string :=
  if JS.truthy s then Some s else None.

(** Plural suffix of the confirmation messages. *)
Definition plural (q : Z) : string := if (1 <? q)%Z then "s" else "".

Section Handlers.
Context (P : Platform).
Context (studioId : option string).

(** [Array.from({ length: q }).map((_, i) => mk i)]: a negative length
    yields the empty array, one beyond the array limit throws. *)
Definition array_from_length {A} (q : Z) (mk : nat -> A) : Async (list A) :=
  if (JS.max_array_length <? q)%Z then throw (Error "Invalid array length")
  else ret (map mk (seq 0 (Z.to_nat q))).

(** The code of the unit numbered [number], with the [i]-th random draw. *)
Definition unit_code (base : string) (number : Z) (i : nat) : string :=
  base ++ "-" ++ JS.padStart0 3 (JS.int_toString number) ++ "-"
    ++ JS.toUpperCase (JS.substring 2 6 (Math_random_base36 P i)).

(** [form.sku || fallback.substring(0, 3).toUpperCase()]. *)
Definition code_base (f : Form.t) (fallback : string) : string :=
  if JS.truthy (Form.sku f) then Form.sku f
  else JS.toUpperCase (JS.substring 0 3 fallback).

Definition null_equipment : exn :=
  Error "Cannot read property of null (equipment.id)".

(** Line 143: the path of the uploaded photo. *)
Definition photo_path : string :=
  JS.template studioId ++ "/" ++ JS.int_toString (Date_now P) ++ "." ++ "jpg".

(** Lines 138-193 of the registration screen: the [try] block of
    [handleSubmit]; it returns the quantity for the confirmation. *)
Definition submit_try (f : Form.t) (uri : string) : Async Z :=
  blob <- fetch_blob P uri ;;
  let fileName := photo_path in
  up <- upload P "equipment-photos" fileName blob ;;
  match Remote.error up with
  | Some uploadError => throw (Error uploadError)
  | None =>
      let photoUrl := getPublicUrl P "equipment-photos" fileName in
      let q := JS.parseInt_or_1 (Form.quantity f) in
      ins <- insert_equipment P (fun new =>
               Equipment.mk new studioId (JS.trim (Form.name f)) (Form.category f) q q
                           (or_null (JS.trim (Form.sku f))) (Some photoUrl)
                           (or_null (JS.trim (Form.notes f)))) ;;
      match Remote.error ins with
      | Some equipError => throw (Error equipError)
      | None =>
          match Remote.data ins with
          | Some equipment =>
              items <- array_from_length q (fun i =>
                         mkNewItem (Equipment.id equipment) studioId
                           (unit_code (code_base f (Form.name f)) (Z.of_nat i + 1) i)
                           "qr" "available") ;;
              insert_items P items ;;
              ret q
          | None =>
              (* [equipment] is null: the callback throws if it runs at all *)
              slots <- array_from_length q (fun i => i) ;;
              match slots with
              | [] => insert_items P [] ;; ret q
              | _ :: _ => throw null_equipment
              end
          end
      end
  end.

(** [handleSubmit], lines 125-199. *)
Definition handleSubmit (w : World) : World :=
  let s := ui w in
  if negb (JS.truthy (JS.trim (Form.name (form s)))) then
    mkWorld s (remote w) (alerts w ++ [("Error", "Please enter equipment name")])
  else
    match photoUri s with
    | Some uri =>
        if JS.truthy uri then
          let s1 := setLoading true s in
          match submit_try (form s) uri (remote w) with
          | (Return q, db) =>
              mkWorld (setLoading false s1) db
                (alerts w ++ [("Success",
                   "Created " ++ Form.name (form s) ++ " with " ++ JS.int_toString q
                     ++ " trackable unit" ++ plural q ++ "!")])
          | (Throw e, db) =>
              mkWorld (setLoading false s1) db (alerts w ++ [("Error", message_of e)])
          end
        else mkWorld s (remote w) (alerts w ++ [("Error", "Please add a photo")])
    | None => mkWorld s (remote w) (alerts w ++ [("Error", "Please add a photo")])
    end.

(** Lines 207-240: the [try] block of [handleMergeConfirm]. *)
Definition merge_try (f : Form.t) (target : SimilarEquipment.t) : Async Z :=
  let q := JS.parseInt_or_1 (Form.quantity f) in
  let existingTotal := SimilarEquipment.total_quantity target in
  let existingAvailable := SimilarEquipment.available_quantity target in
  items <- array_from_length q (fun i =>
             mkNewItem (SimilarEquipment.id target) studioId
               (unit_code (code_base f (SimilarEquipment.name target))
                          (existingTotal + Z.of_nat i + 1) i)
               "qr" "available") ;;
  insert_items P items ;;
  update_quantities P (SimilarEquipment.id target)
                    (existingTotal + q) (existingAvailable + q) ;;
  ret q.

(** [handleMergeConfirm], lines 201-247. *)
Definition handleMergeConfirm (w : World) : World :=
  let s := ui w in
  match selectedMergeTarget s with
  | None => w
  | Some target =>
      let s1 := setShowMergeModal false (setLoading true s) in
      match merge_try (form s) target (remote w) with
      | (Return q, db) =>
          mkWorld (setSelectedMergeTarget None (setLoading false s1)) db
            (alerts w ++ [("Merged Successfully",
               "Added " ++ JS.int_toString q ++ " unit" ++ plural q ++ " to "
                 ++ String "034" (SimilarEquipment.name target
                                   ++ String "034" ". New total: ")
                 ++ JS.int_toString (SimilarEquipment.total_quantity target + q))])
      | (Throw e, db) =>
          mkWorld (setSelectedMergeTarget None (setLoading false s1)) db
                  (alerts w ++ [("Error", message_of e)])
      end
  end.

End Handlers.

End AddEquipment.

(** ** Fixtures: a platform and a store to evaluate the handlers on *)

Module Fixture.

Definition dq : string := String "034" EmptyString.

(** The payload the unit's QR code carries (JSON, members studio and item). *)
Definition qr_payload : string :=
  "{" ++ dq ++ "studio" ++ dq ++ ":" ++ dq ++ "studio-1" ++ dq ++ ","
      ++ dq ++ "item" ++ dq ++ ":" ++ dq ++ "unit-1" ++ dq ++ "}".

(** A payload whose item member is the empty string. *)
Definition empty_item_payload : string :=
  "{" ++ dq ++ "item" ++ dq ++ ":" ++ dq ++ dq ++ "}".

(** A decoder that agrees with [JSON.parse] on the payloads used below: the
    two JSON payloads decode to their objects, a bare unit code is a syntax
    error. *)
Definition decode (s : string) : option JS.json :=
  if s =? qr_payload
  then Some (JS.JObject [("studio", JS.JString "studio-1");
                         ("item", JS.JString "unit-1")])
  else if s =? empty_item_payload
  then Some (JS.JObject [("item", JS.JString "")])
  else None.

Definition public_url (bkt pth : string) : string :=
  "https://btadhbltkgjsgkfsgrjj.supabase.co/storage/v1/object/public/"
    ++ bkt ++ "/" ++ pth.

Definition platform (net : request -> fate) : Platform :=
  mkPlatform decode (fun _ => "0") public_url 1767948290000
             (fun _ => "0.4fzyo82mvyr") (fun n => "id-" ++ JS.int_toString (Z.of_nat n))
             net.

Definition online : Platform := platform (fun _ => Served).

(** One equipment of studio-1 with five units, two of them out. *)
Definition canon : Equipment.t :=
  Equipment.mk "equip-1" (Some "studio-1") "Canon R6" "Camera" 5 3 None None None.

Definition unit_ (n : string) (st : string) : EquipmentItem.t :=
  EquipmentItem.mk ("unit-" ++ n) "equip-1" (Some "studio-1")
                  ("CAN-00" ++ n ++ "-AB12") "qr" st.

Definition store : Store :=
  mkStore [canon]
          [unit_ "1" "available"; unit_ "2" "checked_out"; unit_ "3" "checked_out";
           unit_ "4" "available"; unit_ "5" "available"]
          [] [] 6.

End Fixture.

(** ** The specification's wording of the properties *)

Module Spec.

Inductive RejectionReason :=
| WrongStudio
| AlreadyStaged
| NotAvailable
| NotCheckedOut.

(** The banner text the screen shows for each reason. *)
Definition banner (r : RejectionReason) : string :=
  match r with
  | WrongStudio => Checkout.WrongStudio
  | AlreadyStaged => Checkout.AlreadyStaged
  | NotAvailable => Checkout.NotAvailable
  | NotCheckedOut => Checkout.NotCheckedOut
  end.

Definition same_studio (owner : option string) (studioContext : string) : bool :=
  match owner with
  | Some s => s =? studioContext
  | None => false
  end.

(** [validateTransition] as the specification words it: (a) studio match,
    (b) duplicate in session, (c) status legality; [None] is acceptance. *)
Definition validateTransition (owner : option string) (unit_id unit_status : string)
    (staged : list string) (m : Mode) (studioContext : string)
  : option RejectionReason :=
  if negb (same_studio owner studioContext) then Some WrongStudio
  else if existsb (String.eqb unit_id) staged then Some AlreadyStaged
  else
    match m with
    | checkout => if unit_status =? "available" then None else Some NotAvailable
    | checkin => if unit_status =? "available" then Some NotCheckedOut else None
    end.

(** Status legality on its own. *)
Definition legal (m : Mode) (unit_status : string) : Prop :=
  match m with
  | checkout => unit_status = "available"
  | checkin => unit_status <> "available"
  end.

(** Units of equipment [id] that are out. *)
Definition checked_out_units (db : Store) (id : string) : Z :=
  Z.of_nat (length (filter (fun u => (EquipmentItem.equipment_id u =? id)
                                       && (EquipmentItem.status u =? "checked_out"))
                           (equipment_items db))).

(** The data-model invariant for one equipment row. *)
Definition consistent_row (db : Store) (e : Equipment.t) : Prop :=
  checked_out_units db (Equipment.id e)
  = (Equipment.total_quantity e - Equipment.available_quantity e)%Z
  /\ (0 <= Equipment.available_quantity e <= Equipment.total_quantity e)%Z.

Definition consistent (db : Store) : Prop :=
  forall e, In e (equipment db) -> consistent_row db e.

End Spec.

(** ** Vocabulary for the statements *)

Section Vocabulary.
Import Checkout.

(** The scanner accepts a code: no scan is under way. *)
Definition ready (s : Screen) : Prop :=
  scanned s = false /\ processing s = false.

(** The lookup of a scan resolves to unit [u], whose equipment is [e]. *)
Definition resolves (P : Platform) (data : string) (db : Store)
    (u : EquipmentItem.t) (e : Equipment.t) : Prop :=
  network P (TableSelect "equipment_items") = Served
  /\ filter (matches (resolveUnitId P data) data) (equipment_items db) = [u]
  /\ find (fun x => Equipment.id x =? EquipmentItem.equipment_id u) (equipment db) = Some e.

(** The world after a scan is turned down with [reason]. *)
Definition turned_down (reason : string) (w : World) : World :=
  let s := ui w in
  mkWorld (mkScreen (mode s) (step s) (cart s) (currentItem s) false (Some reason) false)
          (remote w) (alerts w).

(** The world after a scan stages [item] for confirmation. *)
Definition staged (item : CartItem) (w : World) : World :=
  let s := ui w in
  mkWorld (mkScreen (mode s) confirm (cart s) (Some item) false None true)
          (remote w) (alerts w).

(** The cart entry made of unit [u] of equipment [e]. *)
Definition entry (u : EquipmentItem.t) (e : Equipment.t) : CartItem :=
  mkCartItem (EquipmentItem.id u) (Equipment.id e) (EquipmentItem.code u)
             (Equipment.name e) None.

(** Every request is served. *)
Definition all_served (P : Platform) : Prop :=
  forall rq, network P rq = Served.

(** The public URL a commit records for the photo of item [it], if the item
    carries one. *)
Definition recorded_photo_url (P : Platform) (studioId : option string)
    (it : CartItem) : option string :=
  match photoUri it with
  | Some uri =>
      if JS.truthy uri
      then Some (getPublicUrl P "transaction-photos" (photo_path P studioId it))
      else None
  | None => None
  end.

(** Two stores hold the same records (the blob storage aside). *)
Definition same_records (a b : Store) : Prop :=
  equipment a = equipment b
  /\ equipment_items a = equipment_items b
  /\ transactions a = transactions b
  /\ serial a = serial b.

End Vocabulary.

(** ** Further handlers of the registration screen

    The callbacks of [src/unnamed/part_000] around the two submit handlers:
    the photo pickers, the search for similar equipment and the choice of a
    merge target. *)

Module Registration.
Import AddEquipment.

Definition setPhotoUri (x : option string) (s : Screen) : Screen :=
  mkScreen (loading s) x (similarEquipment s) (showMergeModal s)
           (selectedMergeTarget s) (form s).

Definition setSimilarEquipment (l : list SimilarEquipment.t) (s : Screen) : Screen :=
  mkScreen (loading s) (photoUri s) l (showMergeModal s)
           (selectedMergeTarget s) (form s).

Definition setForm (f : Form.t) (s : Screen) : Screen :=
  mkScreen (loading s) (photoUri s) (similarEquipment s) (showMergeModal s)
           (selectedMergeTarget s) f.

(** Outcome of a permission request followed by the camera or the gallery. *)
Inductive picker :=
| PermissionDenied
| PickerFailed
| Canceled
| Picked (uri : string).

(** Lines 69-95. *)
Definition handlePickImage (r : picker) (w : World) : World :=
  match r with
  | PermissionDenied =>
      mkWorld (ui w) (remote w)
        (alerts w ++ [("Permission Required",
                       "Please allow photo library access in your device settings.")])
  | PickerFailed =>
      mkWorld (ui w) (remote w)
        (alerts w ++ [("Error", "Failed to open gallery. Please try again.")])
  | Canceled => w
  | Picked uri => mkWorld (setPhotoUri (Some uri) (ui w)) (remote w) (alerts w)
  end.

(** Lines 97-123. *)
Definition handleTakePhoto (r : picker) (w : World) : World :=
  match r with
  | PermissionDenied =>
      mkWorld (ui w) (remote w)
        (alerts w ++ [("Camera Permission Required",
                       "Please allow camera access in your device settings to take photos.")])
  | PickerFailed =>
      mkWorld (ui w) (remote w)
        (alerts w ++ [("Error", "Failed to open camera. Please try again.")])
  | Canceled => w
  | Picked uri => mkWorld (setPhotoUri (Some uri) (ui w)) (remote w) (alerts w)
  end.

(** Lines 321-324: a suggestion is pressed. *)
Definition pressSimilar (item : SimilarEquipment.t) (w : World) : World :=
  mkWorld (setShowMergeModal true (setSelectedMergeTarget (Some item) (ui w)))
          (remote w) (alerts w).

(** The columns the search selects from a stored row. *)
Definition snapshot (e : Equipment.t) : SimilarEquipment.t :=
  SimilarEquipment.mk (Equipment.id e) (Equipment.name e) (Equipment.category e)
                      (Equipment.total_quantity e) (Equipment.available_quantity e)
                      (Equipment.photo_url e).

Section Search.
Context (P : Platform) (studioId : option string).
(** The server's [ILIKE]: pattern, then value. *)
Variable ilike : string -> string -> bool.

(** [.eq('studio_id', studioId)]; a null column equals nothing. *)
Definition in_studio (e : Equipment.t) : bool :=
  match Equipment.studio_id e with
  | Some s => s =? JS.template studioId
  | None => false
  end.

(** Lines 48-53.  The rows are taken in the order of the table, of which
    [.limit(5)] keeps the first five. *)
Definition select_similar (term : string) : Async (Response (list SimilarEquipment.t)) :=
  await P (TableSelect "equipment") (fun db =>
    (ok (firstn 5
           (map snapshot
                (filter (fun e => in_studio e
                                  && ilike ("%" ++ term ++ "%") (Equipment.name e))
                        (equipment db)))),
     db)).

(** [searchSimilarEquipment], lines 41-59. *)
Definition searchSimilarEquipment (searchName : string) (w : World) : World :=
  if Nat.ltb (String.length (JS.trim searchName)) 3 then
    mkWorld (setSimilarEquipment [] (ui w)) (remote w) (alerts w)
  else
    match select_similar (JS.trim searchName) (remote w) with
    | (Return r, db) =>
        mkWorld (setSimilarEquipment
                   (match Remote.data r with Some l => l | None => [] end) (ui w))
                db (alerts w)
    | (Throw _, db) => mkWorld (ui w) db (alerts w)
    end.

(** Line 280: the photo is removed. *)
Definition removePhoto (w : World) : World :=
  mkWorld (setPhotoUri None (ui w)) (remote w) (alerts w).

(** Lines 426-428 and 457-459: the merge dialog is closed or cancelled. *)
Definition closeModal (w : World) : World :=
  mkWorld (setSelectedMergeTarget None (setShowMergeModal false (ui w)))
          (remote w) (alerts w).

(** What can happen on the screen: a field is edited, the debounced search
    of lines 61-67 fires on the name typed, a photo is taken, picked or
    removed, the [i]-th suggestion is pressed, the merge dialog is closed or
    confirmed, the form is submitted. *)
Inductive event :=
| EditForm (f : Form.t)
| SearchFires
| TakePhoto (r : picker)
| PickImage (r : picker)
| RemovePhoto
| PressSuggestion (i : nat)
| CloseModal
| ConfirmMerge
| Submit.

Definition handle (e : event) (w : World) : World :=
  match e with
  | EditForm f => mkWorld (setForm f (ui w)) (remote w) (alerts w)
  | SearchFires => searchSimilarEquipment (Form.name (form (ui w))) w
  | TakePhoto r => handleTakePhoto r w
  | PickImage r => handlePickImage r w
  | RemovePhoto => removePhoto w
  | PressSuggestion i =>
      match nth_error (similarEquipment (ui w)) i with
      | Some item => pressSimilar item w
      | None => w
      end
  | CloseModal => closeModal w
  | ConfirmMerge => handleMergeConfirm P studioId w
  | Submit => handleSubmit P studioId w
  end.

End Search.

(** A session: the events are handled one after the other, each on the
    platform as it is at that moment. *)
Definition run (studioId : option string) (ilike : string -> string -> bool)
    (es : list (Platform * event)) (w : World) : World :=
  fold_left (fun w pe => handle (fst pe) studioId ilike (snd pe) w) es w.

End Registration.

(** ** The payload of a unit's QR code

    [src/unnamed/part_002], lines 86-89 and 485-488: the detail screen shows
    and shares [JSON.stringify({ studio: studioId, item: unit.id })]. *)

Module Detail.

Definition dq : string := String "034" EmptyString.
Definition backslash : string := String "092" EmptyString.

Definition hex (n : nat) : ascii :=
  if Nat.ltb n 10 then ascii_of_nat (48 + n) else ascii_of_nat (87 + n).

(** [QuoteJSONString] on one character. *)
Definition quote_char (c : ascii) : string :=
  let n := nat_of_ascii c in
  if Nat.eqb n 34 then backslash ++ dq
  else if Nat.eqb n 92 then backslash ++ backslash
  else if Nat.eqb n 8 then backslash ++ "b"
  else if Nat.eqb n 12 then backslash ++ "f"
  else if Nat.eqb n 10 then backslash ++ "n"
  else if Nat.eqb n 13 then backslash ++ "r"
  else if Nat.eqb n 9 then backslash ++ "t"
  else if Nat.ltb n 32
       then backslash ++ "u00" ++ String (hex (n / 16)) (String (hex (n mod 16)) "")
  else String c "".

Fixpoint quote_body (s : string) : string :=
  match s with
  | EmptyString => EmptyString
  | String c rest => quote_char c ++ quote_body rest
  end.

Definition quote (s : string) : string := dq ++ quote_body s ++ dq.

(** The object handed to [JSON.stringify]; a member whose value is
    [undefined] is left out by it. *)
Definition qr_object (studioId : option string) (unit_id : string) : JS.json :=
  JS.JObject (match studioId with
              | Some s => [("studio", JS.JString s)]
              | None => []
              end ++ [("item", JS.JString unit_id)]).

Definition qr_value (studioId : option string) (unit_id : string) : string :=
  "{" ++ match studioId with
         | Some s => quote "studio" ++ ":" ++ quote s ++ ","
         | None => ""
         end
      ++ quote "item" ++ ":" ++ quote unit_id ++ "}".

(** *** Reading such a payload back

    [JSON.parse] on the texts of one shape: an object whose members are
    strings, written without white space.  On every other text the reader
    gives [None], which says nothing of what [JSON.parse] makes of it. *)

Definition hex_value (c : ascii) : option nat :=
  let n := nat_of_ascii c in
  if Nat.leb 48 n && Nat.leb n 57 then Some (n - 48)
  else if Nat.leb 97 n && Nat.leb n 102 then Some (n - 87)
  else if Nat.leb 65 n && Nat.leb n 70 then Some (n - 55)
  else None.

(** The character a two-character escape stands for. *)
Definition escaped (c : ascii) : option ascii :=
  let n := nat_of_ascii c in
  if Nat.eqb n 34 then Some c
  else if Nat.eqb n 92 then Some c
  else if Nat.eqb n 47 then Some c
  else if Nat.eqb n 98 then Some (ascii_of_nat 8)
  else if Nat.eqb n 102 then Some (ascii_of_nat 12)
  else if Nat.eqb n 110 then Some (ascii_of_nat 10)
  else if Nat.eqb n 114 then Some (ascii_of_nat 13)
  else if Nat.eqb n 116 then Some (ascii_of_nat 9)
  else None.

Definition prepend (c : ascii) (r : option (string * string)) : option (string * string) :=
  match r with
  | Some (body, rest) => Some (String c body, rest)
  | None => None
  end.

(** The characters of a JSON string up to its closing quote, and the text
    after that quote.  A raw control character, an unknown escape and an
    escape for a character above U+00FF are not read. *)
Fixpoint string_chars (s : string) : option (string * string) :=
  match s with
  | EmptyString => None
  | String c rest =>
      let n := nat_of_ascii c in
      if Nat.eqb n 34 then Some (EmptyString, rest)
      else if Nat.eqb n 92 then
        match rest with
        | String x rest1 =>
            match escaped x with
            | Some d => prepend d (string_chars rest1)
            | None =>
                if Nat.eqb (nat_of_ascii x) 117 then
                  match rest1 with
                  | String h1 (String h2 (String h3 (String h4 rest2))) =>
                      match hex_value h1, hex_value h2, hex_value h3, hex_value h4 with
                      | Some a, Some b, Some c', Some d =>
                          if Nat.eqb a 0 && Nat.eqb b 0
                          then prepend (ascii_of_nat (16 * c' + d)) (string_chars rest2)
                          else None
                      | _, _, _, _ => None
                      end
                  | _ => None
                  end
                else None
            end
        | EmptyString => None
        end
      else if Nat.ltb n 32 then None
      else prepend c (string_chars rest)
  end.

Definition read_string (s : string) : option (string * string) :=
  match s with
  | String c rest => if Nat.eqb (nat_of_ascii c) 34 then string_chars rest else None
  | EmptyString => None
  end.

(** One member, [key:value], and the text after it. *)
Definition read_member (s : string) : option ((string * JS.json) * string) :=
  match read_string s with
  | Some (k, String ":" after_colon) =>
      match read_string after_colon with
      | Some (v, rest) => Some ((k, JS.JString v), rest)
      | None => None
      end
  | _ => None
  end.

(** The members up to the closing brace, which ends the text. *)
Fixpoint read_members (fuel : nat) (s : string) : option (list (string * JS.json)) :=
  match fuel with
  | O => None
  | S fuel' =>
      match read_member s with
      | Some (m, String "," rest) =>
          match read_members fuel' rest with
          | Some ms => Some (m :: ms)
          | None => None
          end
      | Some (m, String "}" EmptyString) => Some [m]
      | _ => None
      end
  end.

Definition parse_flat (s : string) : option JS.json :=
  match s with
  | String "{" (String "}" EmptyString) => Some (JS.JObject [])
  | String "{" rest =>
      match read_members (String.length rest) rest with
      | Some ms => Some (JS.JObject ms)
      | None => None
      end
  | _ => None
  end.

End Detail.

(** ** Further vocabulary *)

Section MoreVocabulary.
Import Checkout.

(** The events that run a commit. *)
Definition commits (e : event) : bool :=
  match e with
  | PressSkipPhoto | PressSubmit => true
  | _ => false
  end.

Definition captured (s : Screen) : Prop :=
  exists it uri, currentItem s = Some it /\ photoUri it = Some uri.

(** The shape the screen has between two events of a session. *)
Definition settled (s : Screen) : Prop :=
  processing s = false
  /\ scanned s = negb (is_step scan s)
  /\ (is_step scan s = false -> has_item s = true)
  /\ (is_step photo s = true -> captured s).

(** The studio check lets equipment [e] through. *)
Definition studio_passes (studioId : option string) (e : Equipment.t) : Prop :=
  JS.truthy_opt studioId = false \/ Equipment.studio_id e = studioId.

(** The platform's [JSON.parse] reads a flat object of strings as
    [Detail.parse_flat] does. *)
Definition reads_flat_objects (P : Platform) : Prop :=
  forall data v, Detail.parse_flat data = Some v -> JSON_parse P data = Some v.

(** A string made of white space only, in the sense of [JS.is_space]: the
    strings [trim] leaves empty. *)
Fixpoint blank (s : string) : bool :=
  match s with
  | EmptyString => true
  | String c rest => JS.is_space c && blank rest
  end.

End MoreVocabulary.

Section RegistrationVocabulary.
Import AddEquipment.







End RegistrationVocabulary.

(** ** Properties of the scan screen *)

Section ScanFacts.
Import Checkout.
Context (P : Platform) (studioId : option string).

Lemma await_served {A} rq (serve : Store -> Response A * Store) db :
  network P rq = Served ->
  await P rq serve db = (Return (fst (serve db)), snd (serve db)).
Proof.
  intros H. unfold await. rewrite H. destruct (serve db); reflexivity.
Qed.

Lemma validate_keeps_store s u db :
  snd (validate studioId s u db) = db.
Proof.
  unfold validate, bind, ret, throw.
  destruct (JS.truthy_opt studioId); simpl.
  - destruct (unit_equipment u) as [e|]; simpl; [|reflexivity].
    destruct (strict_neq _ _); simpl; [reflexivity|].
    repeat (match goal with |- context [if ?b then _ else _] => destruct b end;
            simpl; try reflexivity).
  - repeat (match goal with |- context [if ?b then _ else _] => destruct b end;
            simpl; try reflexivity);
    destruct (unit_equipment u); reflexivity.
Qed.

Lemma scan_try_keeps_store data s db :
  snd (scan_try P studioId data s db) = db.
Proof.
  unfold scan_try, bind, select_unit, await.
  destruct (network P _); simpl; try reflexivity.
  destruct (single _) as [d e]; simpl.
  destruct e; simpl; [reflexivity|].
  destruct d; simpl; [|reflexivity].
  apply validate_keeps_store.
Qed.

(** A scan never writes to the store. *)
Lemma handleBarCodeScanned_keeps_store data w :
  remote (handleBarCodeScanned P studioId data w) = remote w.
Proof.
  unfold handleBarCodeScanned.
  destruct (scanned (ui w) || processing (ui w)); [reflexivity|].
  pose proof (scan_try_keeps_store data (ui w) (remote w)) as H.
  destruct (scan_try P studioId data (ui w) (remote w)) as [[v|e] db]; simpl in H; subst.
  - destruct v; reflexivity.
  - reflexivity.
Qed.

Lemma scan_try_resolved data s db u e :
  resolves P data db u e ->
  scan_try P studioId data s db = validate studioId s (mkScannedUnit u (Some e)) db.
Proof.
  intros (Hnet & Hrows & Hjoin).
  unfold scan_try, bind, select_unit.
  rewrite await_served by assumption. simpl.
  rewrite Hrows. simpl. unfold embed. rewrite Hjoin. reflexivity.
Qed.

Lemma ready_gate s : ready s -> scanned s || processing s = false.
Proof. intros [-> ->]. reflexivity. Qed.

Lemma in_cart_map id (l : list CartItem) :
  existsb (fun c => unitId c =? id) l = existsb (String.eqb id) (map unitId l).
Proof.
  induction l as [|c l IH]; simpl; [reflexivity|].
  rewrite IH, (String.eqb_sym (unitId c) id). reflexivity.
Qed.

End ScanFacts.

Section ScanTheorems.
Import Checkout.

Lemma truthy_nonempty s : s <> "" -> JS.truthy s = true.
Proof.
  intros H. unfold JS.truthy. destruct (String.eqb_spec s ""); [contradiction|reflexivity].
Qed.

Lemma strict_neq_same_studio owner ctx :
  strict_neq owner (Some ctx) = negb (Spec.same_studio owner ctx).
Proof. destruct owner; reflexivity. Qed.

(** The checks of the handler, against the specification's wording. *)
Lemma validate_as_specified (ctx : string) (s : Screen) (u : EquipmentItem.t)
    (e : Equipment.t) (db : Store) :
  ctx <> "" ->
  validate (Some ctx) s (mkScannedUnit u (Some e)) db
  = (Return match Spec.validateTransition (Equipment.studio_id e) (EquipmentItem.id u)
                    (EquipmentItem.status u) (map unitId (cart s)) (mode s) ctx
            with
            | Some r => Reject (Spec.banner r)
            | None => Stage (entry u e)
            end,
     db).
Proof.
  intros Hctx.
  unfold validate, bind, ret, Spec.validateTransition. simpl.
  rewrite (truthy_nonempty _ Hctx). simpl.
  rewrite strict_neq_same_studio, in_cart_map.
  destruct (Spec.same_studio (Equipment.studio_id e) ctx); simpl; [|reflexivity].
  destruct (existsb (String.eqb (EquipmentItem.id u)) (map unitId (cart s))); simpl;
    [reflexivity|].
  destruct (mode s); simpl;
    destruct (EquipmentItem.status u =? "available"); simpl; reflexivity.
Qed.

(** C4.  For a resolved unit and an active studio context, the scan handler
    answers exactly as the specification's [validateTransition]: studio
    match first (WrongStudio), then the duplicate check against the units
    staged in the cart (AlreadyStaged), then status legality (NotAvailable
    in checkout mode, NotCheckedOut in checkin mode); the first failing
    check decides, and a unit that passes all three is staged for
    confirmation. *)
Theorem scan_validation_order (P : Platform) (ctx data : string) (w : World)
    (u : EquipmentItem.t) (e : Equipment.t) :
  ctx <> "" ->
  ready (ui w) ->
  resolves P data (remote w) u e ->
  handleBarCodeScanned P (Some ctx) data w =
    match Spec.validateTransition (Equipment.studio_id e) (EquipmentItem.id u)
            (EquipmentItem.status u) (map unitId (cart (ui w))) (mode (ui w)) ctx
    with
    | Some r => turned_down (Spec.banner r) w
    | None => staged (entry u e) w
    end.
Proof.
  intros Hctx Hready Hres.
  unfold handleBarCodeScanned.
  rewrite (ready_gate _ Hready).
  rewrite (scan_try_resolved P (Some ctx) data (ui w) (remote w) u e Hres).
  rewrite (validate_as_specified ctx (ui w) u e (remote w) Hctx).
  destruct (Spec.validateTransition (Equipment.studio_id e) (EquipmentItem.id u)
              (EquipmentItem.status u) (map unitId (cart (ui w))) (mode (ui w)) ctx);
    reflexivity.
Qed.

Lemma scan_validation_order_witness :
  handleBarCodeScanned Fixture.online (Some "studio-1") "CAN-002-AB12"
      (mkWorld initial Fixture.store [])
    = turned_down NotAvailable (mkWorld initial Fixture.store []).
Proof.
  refine (scan_validation_order Fixture.online "studio-1" "CAN-002-AB12"
            (mkWorld initial Fixture.store [])
            (Fixture.unit_ "2" "checked_out") Fixture.canon _ _ _).
  - discriminate.
  - split; reflexivity.
  - repeat split; reflexivity.
Defined.

(** C5.  A scan that resolves to a unit whose owning equipment belongs to
    another studio than the active one is turned down with WrongStudio; the
    screen keeps its step and staged item, and the remote store is left
    exactly as it was: no write is performed. *)
Theorem wrong_studio_rejected_without_write (P : Platform) (ctx data : string)
    (w : World) (u : EquipmentItem.t) (e : Equipment.t) :
  ctx <> "" ->
  ready (ui w) ->
  resolves P data (remote w) u e ->
  Equipment.studio_id e <> Some ctx ->
  handleBarCodeScanned P (Some ctx) data w = turned_down WrongStudio w
  /\ remote (handleBarCodeScanned P (Some ctx) data w) = remote w
  /\ step (ui (handleBarCodeScanned P (Some ctx) data w)) = step (ui w)
  /\ currentItem (ui (handleBarCodeScanned P (Some ctx) data w)) = currentItem (ui w).
Proof.
  intros Hctx Hready Hres Hother.
  assert (Hout : handleBarCodeScanned P (Some ctx) data w = turned_down WrongStudio w).
  { unfold handleBarCodeScanned.
    rewrite (ready_gate _ Hready).
    rewrite (scan_try_resolved P (Some ctx) data (ui w) (remote w) u e Hres).
    rewrite (validate_as_specified ctx (ui w) u e (remote w) Hctx).
    unfold Spec.validateTransition.
    replace (Spec.same_studio (Equipment.studio_id e) ctx) with false; [reflexivity|].
    destruct (Equipment.studio_id e) as [s|]; simpl; [|reflexivity].
    destruct (String.eqb_spec s ctx); [subst; contradiction|reflexivity]. }
  rewrite Hout. repeat split; reflexivity.
Qed.

Lemma wrong_studio_rejected_without_write_witness :
  handleBarCodeScanned Fixture.online (Some "studio-2") "CAN-001-AB12"
      (mkWorld initial Fixture.store [])
    = turned_down WrongStudio (mkWorld initial Fixture.store []).
Proof.
  refine (proj1 (wrong_studio_rejected_without_write Fixture.online "studio-2"
                   "CAN-001-AB12" (mkWorld initial Fixture.store [])
                   (Fixture.unit_ "1" "available") Fixture.canon _ _ _ _)).
  - discriminate.
  - split; reflexivity.
  - repeat split; reflexivity.
  - discriminate.
Defined.

Lemma single_not_one {A} (rows : list A) :
  length rows <> 1%nat ->
  single rows = failed "JSON object requested, multiple (or no) rows returned".
Proof.
  destruct rows as [|a [|b rows]]; simpl; intros H; try reflexivity.
  contradiction H; reflexivity.
Qed.

Lemma validate_not_NotFound studioId s u db :
  fst (validate studioId s u db) <> Return (Reject NotFound)
  /\ fst (validate studioId s u db) <> Throw (Error NotFound).
Proof.
  unfold validate, bind, ret, throw.
  destruct (JS.truthy_opt studioId); simpl.
  - destruct (unit_equipment u) as [e|]; simpl; [|split; discriminate].
    destruct (strict_neq _ _); simpl; [split; discriminate|].
    repeat (match goal with |- context [if ?b then _ else _] => destruct b end;
            simpl; try (split; discriminate)).
  - repeat (match goal with |- context [if ?b then _ else _] => destruct b end;
            simpl; try (split; discriminate));
    destruct (unit_equipment u); simpl; split; discriminate.
Qed.

(** What the banner shows after a scan whose lookup was served. *)
Lemma scan_served_not_found P studioId data w :
  ready (ui w) ->
  network P (TableSelect "equipment_items") = Served ->
  (error (ui (handleBarCodeScanned P studioId data w)) = Some NotFound
   <-> length (filter (matches (resolveUnitId P data) data)
                      (equipment_items (remote w))) <> 1%nat).
Proof.
  intros Hready Hnet.
  unfold handleBarCodeScanned. rewrite (ready_gate _ Hready).
  unfold scan_try, bind, select_unit. rewrite await_served by assumption. simpl.
  set (rows := filter _ _).
  split.
  - intros Herr Hone.
    destruct rows as [|u [|u' rows]]; simpl in Hone; try discriminate. simpl in Herr.
    pose proof (validate_not_NotFound studioId (ui w) (embed (remote w) u) (remote w))
      as [Hr Ht].
    destruct (validate studioId (ui w) (embed (remote w) u) (remote w)) as [[v|x] db];
      simpl in *.
    + destruct v as [reason|item]; simpl in Herr; [|discriminate].
      apply Hr. congruence.
    + destruct x as [m]. simpl in Herr.
      unfold JS.or_else in Herr. destruct (JS.truthy m) eqn:Hm.
      * apply Ht. congruence.
      * discriminate.
  - intros Hlen.
    assert (Hl : length (map (embed (remote w)) rows) <> 1%nat)
      by (rewrite length_map; exact Hlen).
    rewrite (single_not_one _ Hl). reflexivity.
Qed.

Lemma scan_refused_not_found P studioId data w m :
  ready (ui w) ->
  network P (TableSelect "equipment_items") = Refused m ->
  handleBarCodeScanned P studioId data w = turned_down NotFound w.
Proof.
  intros Hready Hnet.
  unfold handleBarCodeScanned. rewrite (ready_gate _ Hready).
  unfold scan_try, bind, select_unit, await. rewrite Hnet. reflexivity.
Qed.

(** C6 (as amended).  Code resolution first attempts the JSON decode and
    takes the payload's item member as the unit id when that member is
    present and truthy; when the decode fails, or yields no such member, it
    falls back, without any error, to the whole payload as a literal code.
    The scan is turned down with NotFound exactly when the lookup does not
    hand back exactly one unit: when it is served, that is when the number
    of units matching by id or by code is not one (none, or several); when
    it is refused, always. *)
Theorem code_resolution_and_not_found (P : Platform) (studioId : option string)
    (data : string) (w : World) :
  ready (ui w) ->
  (forall parsed v,
      JSON_parse P data = Some parsed ->
      JS.get_item parsed = JS.Has v ->
      JS.toBoolean v = true ->
      resolveUnitId P data = JS.toString (Number_toString P) v)
  /\ (forall parsed s,
      JSON_parse P data = Some parsed ->
      JS.get_item parsed = JS.Has (JS.JString s) ->
      s <> "" ->
      resolveUnitId P data = s)
  /\ (forall parsed,
      JSON_parse P data = Some parsed ->
      (forall v, JS.get_item parsed = JS.Has v -> JS.toBoolean v = false) ->
      resolveUnitId P data = data)
  /\ (JSON_parse P data = None -> resolveUnitId P data = data)
  /\ (network P (TableSelect "equipment_items") = Served ->
      (error (ui (handleBarCodeScanned P studioId data w)) = Some NotFound
       <-> length (filter (matches (resolveUnitId P data) data)
                          (equipment_items (remote w))) <> 1%nat))
  /\ (forall m,
      network P (TableSelect "equipment_items") = Refused m ->
      error (ui (handleBarCodeScanned P studioId data w)) = Some NotFound).
Proof.
  intros Hready. repeat split.
  - intros parsed v Hp Hi Hv. unfold resolveUnitId. rewrite Hp, Hi, Hv. reflexivity.
  - intros parsed s Hp Hi Hs. unfold resolveUnitId. rewrite Hp, Hi. simpl.
    rewrite (truthy_nonempty _ Hs). reflexivity.
  - intros parsed Hp Hfalsy. unfold resolveUnitId. rewrite Hp.
    destruct (JS.get_item parsed) as [| |v] eqn:Hi; try reflexivity.
    rewrite (Hfalsy v eq_refl). reflexivity.
  - intros Hp. unfold resolveUnitId. rewrite Hp. reflexivity.
  - apply scan_served_not_found; assumption.
  - apply scan_served_not_found; assumption.
  - intros m Hnet. rewrite (scan_refused_not_found P studioId data w m Hready Hnet).
    reflexivity.
Qed.

Lemma code_resolution_and_not_found_witness :
  resolveUnitId Fixture.online Fixture.qr_payload = "unit-1"
  /\ resolveUnitId Fixture.online "CAN-001-AB12" = "CAN-001-AB12".
Proof.
  split.
  - refine (proj1 (proj2 (code_resolution_and_not_found Fixture.online (Some "studio-1")
                     Fixture.qr_payload (mkWorld initial Fixture.store []) _))
                  _ "unit-1" eq_refl eq_refl _).
    + split; reflexivity.
    + discriminate.
  - refine (proj1 (proj2 (proj2 (proj2
              (code_resolution_and_not_found Fixture.online (Some "studio-1")
                 "CAN-001-AB12" (mkWorld initial Fixture.store []) _)))) eq_refl).
    split; reflexivity.
Defined.

(** C6 as stated fails.  A unit matches the scanned code, and the scan is
    nevertheless turned down with NotFound, (1) when the lookup request is
    refused, and (2) when a second unit carries the same code; and (3) an
    item member that is present but empty is not taken as the unit id. *)
Lemma not_found_although_a_unit_matches :
  let w0 := mkWorld initial Fixture.store [] in
  let offline := Fixture.platform (fun _ => Refused "Network request failed") in
  let twin := EquipmentItem.mk "unit-9" "equip-1" (Some "studio-1")
                              "CAN-001-AB12" "qr" "available" in
  let w1 := mkWorld initial
              (with_equipment_items (equipment_items Fixture.store ++ [twin])
                                    Fixture.store) [] in
  (filter (matches (resolveUnitId offline "CAN-001-AB12") "CAN-001-AB12")
          (equipment_items (remote w0)) = [Fixture.unit_ "1" "available"]
   /\ error (ui (handleBarCodeScanned offline (Some "studio-1") "CAN-001-AB12" w0))
      = Some NotFound)
  /\ (filter (matches (resolveUnitId Fixture.online "CAN-001-AB12") "CAN-001-AB12")
             (equipment_items (remote w1)) = [Fixture.unit_ "1" "available"; twin]
      /\ error (ui (handleBarCodeScanned Fixture.online (Some "studio-1")
                      "CAN-001-AB12" w1))
         = Some NotFound)
  /\ (JSON_parse Fixture.online Fixture.empty_item_payload
      = Some (JS.JObject [("item", JS.JString "")])
      /\ resolveUnitId Fixture.online Fixture.empty_item_payload
         = Fixture.empty_item_payload).
Proof. cbv zeta. repeat split; vm_compute; reflexivity. Qed.

(** *** Sessions: the cart *)

Lemma handleBarCodeScanned_keeps_cart P studioId data w :
  cart (ui (handleBarCodeScanned P studioId data w)) = cart (ui w).
Proof.
  unfold handleBarCodeScanned.
  destruct (scanned (ui w) || processing (ui w)); [reflexivity|].
  destruct (scan_try P studioId data (ui w) (remote w)) as [[[reason|item]|x] db];
    reflexivity.
Qed.

Lemma confirmAndSubmit_keeps_cart P studioId user w :
  cart (ui (confirmAndSubmit P studioId user w)) = cart (ui w).
Proof.
  unfold confirmAndSubmit.
  destruct (currentItem (ui w)) as [it|]; [|reflexivity].
  destruct user as [uid|]; [|reflexivity].
  destruct (commit_try P studioId (mode (ui w)) it uid (remote w)) as [[[]|x] db];
    reflexivity.
Qed.

Lemma handle_keeps_cart studioId user P e w :
  cart (ui (handle studioId user P e w)) = cart (ui w).
Proof.
  destruct e as [d|m| |c| | |]; simpl; try reflexivity.
  - apply handleBarCodeScanned_keeps_cart.
  - destruct c; simpl; try reflexivity.
    destruct (currentItem (ui w)); reflexivity.
  - apply confirmAndSubmit_keeps_cart.
  - apply confirmAndSubmit_keeps_cart.
Qed.

Lemma dispatch_keeps_cart studioId user P e w :
  cart (ui (dispatch studioId user P e w)) = cart (ui w).
Proof.
  unfold dispatch. destruct (enabled e (ui w)); [apply handle_keeps_cart|reflexivity].
Qed.

Lemma trace_keeps_cart studioId user es :
  forall w, Forall (fun w' => cart (ui w') = cart (ui w)) (trace studioId user es w).
Proof.
  induction es as [|[P e] es IH]; intros w; simpl; constructor.
  - apply dispatch_keeps_cart.
  - specialize (IH (dispatch studioId user P e w)).
    rewrite dispatch_keeps_cart in IH. exact IH.
Qed.

Lemma empty_cart_never_AlreadyStaged P studioId data s db :
  cart s = [] ->
  fst (scan_try P studioId data s db) <> Return (Reject AlreadyStaged).
Proof.
  intros Hcart.
  unfold scan_try, bind, select_unit, await.
  destruct (network P _); simpl; try discriminate.
  destruct (single _) as [d e]; simpl.
  destruct e; simpl; [discriminate|].
  destruct d as [u|]; simpl; [|discriminate].
  unfold validate, bind, ret, throw. rewrite Hcart. simpl.
  destruct (JS.truthy_opt studioId); simpl.
  - destruct (unit_equipment u) as [e|]; simpl; [|discriminate].
    destruct (strict_neq _ _); simpl; [discriminate|].
    repeat (match goal with |- context [if ?b then _ else _] => destruct b end;
            simpl; try discriminate).
  - repeat (match goal with |- context [if ?b then _ else _] => destruct b end;
            simpl; try discriminate);
    destruct (unit_equipment u); simpl; discriminate.
Qed.

(** The AlreadyStaged check consults the screen's cart, and no action of
    the screen ever adds to the cart.  So in every session that starts from
    the mounted screen, whatever the store, the platform and the events,
    the cart is empty at every point and no scan, of any payload, is turned
    down with AlreadyStaged; and a scan that arrives while a unit is staged
    (the scanned flag is up) changes nothing. *)
Lemma no_scan_is_already_staged (studioId user : option string)
    (es : list (Platform * event)) (db : Store) (al : list Alert) :
  Forall (fun w =>
            cart (ui w) = []
            /\ (forall P data,
                   fst (scan_try P studioId data (ui w) (remote w))
                   <> Return (Reject AlreadyStaged))
            /\ (forall P data,
                   scanned (ui w) = true ->
                   handleBarCodeScanned P studioId data w = w))
         (mkWorld initial db al :: trace studioId user es (mkWorld initial db al)).
Proof.
  assert (Hinv : forall w, cart (ui w) = [] ->
            cart (ui w) = []
            /\ (forall P data,
                   fst (scan_try P studioId data (ui w) (remote w))
                   <> Return (Reject AlreadyStaged))
            /\ (forall P data,
                   scanned (ui w) = true ->
                   handleBarCodeScanned P studioId data w = w)).
  { intros w Hc. split; [exact Hc|]. split.
    - intros P data. apply empty_cart_never_AlreadyStaged. exact Hc.
    - intros P data Hs. unfold handleBarCodeScanned. rewrite Hs. reflexivity. }
  constructor.
  - apply Hinv. reflexivity.
  - pose proof (trace_keeps_cart studioId user es (mkWorld initial db al)) as H.
    eapply Forall_impl; [|exact H].
    intros w Hw. apply Hinv. exact Hw.
Qed.

(** C3 (evaluation at the failing input).  The unit is scanned and staged.
    Scanned again at once, the second scan is ignored: no banner.  Scanned
    again after Cancel, with no commit in between, it is staged a second
    time.  Neither second scan is turned down with AlreadyStaged. *)
Theorem second_scan_is_not_turned_down :
  let c := "CAN-001-AB12" in
  let item := entry (Fixture.unit_ "1" "available") Fixture.canon in
  let w0 := mkWorld initial Fixture.store [] in
  let go := run (Some "studio-1") (Some "user-1") in
  let on := Fixture.online in
  go [(on, Scan c)] w0 = staged item w0
  /\ go [(on, Scan c); (on, Scan c)] w0 = staged item w0
  /\ handleBarCodeScanned on (Some "studio-1") c (staged item w0) = staged item w0
  /\ go [(on, Scan c); (on, PressReset); (on, Scan c)] w0 = staged item w0
  /\ error (ui (staged item w0)) <> Some AlreadyStaged.
Proof. cbv zeta. repeat split; try (vm_compute; reflexivity). discriminate. Qed.

End ScanTheorems.

(** ** Properties of the commit *)

Section CommitTheorems.
Import Checkout.

Lemma upload_photo_served P studioId it db :
  all_served P ->
  exists db1,
    upload_photo P studioId it db = (Return (recorded_photo_url P studioId it), db1)
    /\ same_records db1 db
    /\ (forall uri, photoUri it = Some uri -> uri <> "" ->
        (exists o, In o (objects db1)
                   /\ bucket o = "transaction-photos"
                   /\ path o = photo_path P studioId it)
        /\ (existsb (fun o => (bucket o =? "transaction-photos")
                                && (path o =? photo_path P studioId it))
                    (objects db) = false ->
            In (mkStorageObject "transaction-photos" (photo_path P studioId it) uri)
               (objects db1))).
Proof.
  intros Hnet. unfold upload_photo, recorded_photo_url.
  destruct (photoUri it) as [uri|].
  2:{ exists db. repeat split; intros; discriminate. }
  destruct (JS.truthy uri) eqn:Huri.
  2:{ exists db. split; [reflexivity|]. split; [repeat split|].
      intros uri' H Hne. injection H as ->.
      rewrite (truthy_nonempty _ Hne) in Huri. discriminate. }
  unfold bind, fetch_blob, upload, await. rewrite !Hnet.
  destruct (existsb _ (objects db)) eqn:Hex.
  - exists db. split; [reflexivity|]. split; [repeat split|].
    intros uri' _ _. split; [|discriminate].
    apply existsb_exists in Hex. destruct Hex as (o & Hin & Ho).
    apply andb_true_iff in Ho. destruct Ho as [Hb Hp].
    apply String.eqb_eq in Hb, Hp.
    exists o. auto.
  - eexists. split; [reflexivity|]. split; [repeat split|].
    intros uri' Heq _. injection Heq as <-.
    assert (Hin : In (mkStorageObject "transaction-photos" (photo_path P studioId it) uri)
                     (objects db
                        ++ [mkStorageObject "transaction-photos"
                                            (photo_path P studioId it) uri]))
      by (apply in_or_app; right; left; reflexivity).
    split; [|intros _; exact Hin].
    eexists. split; [exact Hin|]. split; reflexivity.
Qed.

(** The stores before and after a commit all of whose requests are served. *)
Lemma commit_try_served P studioId m it uid db :
  all_served P ->
  exists db',
    commit_try P studioId m it uid db = (Return tt, db')
    /\ transactions db'
       = (transactions db
            ++ [transaction_row studioId m it uid (recorded_photo_url P studioId it)])%list
    /\ equipment_items db'
       = map (fun u => if EquipmentItem.id u =? unitId it
                       then set_status (new_status m) u else u)
             (equipment_items db)
    /\ equipment db'
       = match map Equipment.available_quantity
                   (filter (fun e => Equipment.id e =? equipmentId it) (equipment db)) with
         | [q] => map (fun e => if Equipment.id e =? equipmentId it
                                then set_available_quantity (new_quantity m q) e else e)
                      (equipment db)
         | _ => equipment db
         end
    /\ (forall uri, photoUri it = Some uri -> uri <> "" ->
        (exists o, In o (objects db')
                   /\ bucket o = "transaction-photos"
                   /\ path o = photo_path P studioId it)
        /\ (existsb (fun o => (bucket o =? "transaction-photos")
                                && (path o =? photo_path P studioId it))
                    (objects db) = false ->
            In (mkStorageObject "transaction-photos" (photo_path P studioId it) uri)
               (objects db'))).
Proof.
  intros Hnet.
  destruct (upload_photo_served P studioId it db Hnet)
    as (db1 & Hup & (He & Hi & Ht & Hs) & Hobj).
  unfold commit_try, bind. rewrite Hup.
  unfold insert_transaction, update_item_status, select_available_quantity,
    update_available_quantity, await.
  rewrite !Hnet. simpl. rewrite He, Hi, Ht.
  destruct (map Equipment.available_quantity
              (filter (fun e => Equipment.id e =? equipmentId it) (equipment db)))
    as [|q [|q' qs]]; simpl; eexists; (split; [reflexivity|]); simpl.
  all: split; [reflexivity|].
  all: split; [reflexivity|].
  all: split; [try rewrite He; reflexivity|].
  all: exact Hobj.
Qed.

(** C1.  A commit of a staged unit, with every request served and the read
    of the parent equipment returning the value [q]: in checkout mode the
    unit's status is set to checked_out and available_quantity is written
    as [q - 1]; in checkin mode the status is set to available and
    available_quantity is written as [q + 1]; the screen reaches the
    success step.  (From available_quantity 3 of 5, one checkout commit
    leaves 2: see the witness.) *)
Theorem commit_flips_status_and_adjusts_quantity (P : Platform)
    (studioId : option string) (uid : string) (w : World) (it : CartItem) (q : Z) :
  all_served P ->
  currentItem (ui w) = Some it ->
  map Equipment.available_quantity
      (filter (fun e => Equipment.id e =? equipmentId it) (equipment (remote w))) = [q] ->
  let w' := confirmAndSubmit P studioId (Some uid) w in
  step (ui w') = success
  /\ (mode (ui w) = checkout ->
      equipment_items (remote w')
      = map (fun u => if EquipmentItem.id u =? unitId it
                      then set_status "checked_out" u else u)
            (equipment_items (remote w))
      /\ equipment (remote w')
         = map (fun e => if Equipment.id e =? equipmentId it
                         then set_available_quantity (q - 1) e else e)
               (equipment (remote w)))
  /\ (mode (ui w) = checkin ->
      equipment_items (remote w')
      = map (fun u => if EquipmentItem.id u =? unitId it
                      then set_status "available" u else u)
            (equipment_items (remote w))
      /\ equipment (remote w')
         = map (fun e => if Equipment.id e =? equipmentId it
                         then set_available_quantity (q + 1) e else e)
               (equipment (remote w))).
Proof.
  intros Hnet Hcur Hread w'. subst w'.
  unfold confirmAndSubmit. rewrite Hcur.
  destruct (commit_try_served P studioId (mode (ui w)) it uid (remote w) Hnet)
    as (db' & Hrun & _ & Hi & He & _).
  rewrite Hrun. simpl. rewrite Hread in He.
  split; [reflexivity|].
  split; intros Hm; rewrite Hm in Hi, He; split; assumption.
Qed.

Lemma commit_flips_status_and_adjusts_quantity_witness :
  let item := entry (Fixture.unit_ "1" "available") Fixture.canon in
  let w := staged item (mkWorld initial Fixture.store []) in
  let w' := confirmAndSubmit Fixture.online (Some "studio-1") (Some "user-1") w in
  map Equipment.total_quantity (equipment (remote w)) = [5%Z]
  /\ map Equipment.available_quantity (equipment (remote w)) = [3%Z]
  /\ map Equipment.available_quantity (equipment (remote w')) = [2%Z]
  /\ map EquipmentItem.status (equipment_items (remote w'))
     = ["checked_out"; "checked_out"; "checked_out"; "available"; "available"].
Proof.
  cbv zeta.
  destruct (commit_flips_status_and_adjusts_quantity Fixture.online (Some "studio-1")
              "user-1"
              (staged (entry (Fixture.unit_ "1" "available") Fixture.canon)
                      (mkWorld initial Fixture.store []))
              (entry (Fixture.unit_ "1" "available") Fixture.canon) 3%Z
              (fun _ => eq_refl) eq_refl eq_refl) as (_ & Hout & _).
  destruct (Hout eq_refl) as [Hi He].
  rewrite Hi, He. repeat split; reflexivity.
Defined.

(** C7.  A commit with every request served appends exactly one row to the
    transactions: its type is the active mode, its quantity 1, its
    approval_status pending in checkout mode and null in checkin mode.
    Without a photo its photo_url is null.  With a captured photo its
    photo_url is non-null and is the public URL of the path the photo was
    uploaded to, a path the transaction-photos bucket then holds; when that
    path was free before the commit, the object there is the blob read from
    the captured file. *)
Theorem commit_inserts_one_transaction (P : Platform) (studioId : option string)
    (uid : string) (w : World) (it : CartItem) :
  all_served P ->
  currentItem (ui w) = Some it ->
  let w' := confirmAndSubmit P studioId (Some uid) w in
  exists row,
    transactions (remote w') = (transactions (remote w) ++ [row])%list
    /\ Transaction.type row = mode (ui w)
    /\ Transaction.quantity row = 1%Z
    /\ Transaction.equipment_item_id row = unitId it
    /\ Transaction.user_id row = uid
    /\ (mode (ui w) = checkout -> Transaction.approval_status row = Some "pending")
    /\ (mode (ui w) = checkin -> Transaction.approval_status row = None)
    /\ (photoUri it = None -> Transaction.photo_url row = None)
    /\ (forall uri, photoUri it = Some uri -> uri <> "" ->
        Transaction.photo_url row
        = Some (getPublicUrl P "transaction-photos" (photo_path P studioId it))
        /\ (exists o, In o (objects (remote w'))
                      /\ bucket o = "transaction-photos"
                      /\ path o = photo_path P studioId it)
        /\ (existsb (fun o => (bucket o =? "transaction-photos")
                                && (path o =? photo_path P studioId it))
                    (objects (remote w)) = false ->
            In (mkStorageObject "transaction-photos" (photo_path P studioId it) uri)
               (objects (remote w')))).
Proof.
  intros Hnet Hcur w'. subst w'.
  unfold confirmAndSubmit. rewrite Hcur.
  destruct (commit_try_served P studioId (mode (ui w)) it uid (remote w) Hnet)
    as (db' & Hrun & Ht & _ & _ & Hobj).
  rewrite Hrun. simpl.
  exists (transaction_row studioId (mode (ui w)) it uid (recorded_photo_url P studioId it)).
  split; [exact Ht|].
  split; [reflexivity|]. split; [reflexivity|]. split; [reflexivity|].
  split; [reflexivity|].
  split; [intros ->; reflexivity|]. split; [intros ->; reflexivity|].
  split.
  - intros Hno. simpl. unfold recorded_photo_url. rewrite Hno. reflexivity.
  - intros uri Huri Hne.
    destruct (Hobj uri Huri Hne) as [Hheld Hblob].
    split; [|split; assumption].
    simpl. unfold recorded_photo_url. rewrite Huri, (truthy_nonempty _ Hne).
    reflexivity.
Qed.

Lemma commit_inserts_one_transaction_witness :
  let item := mkCartItem "unit-1" "equip-1" "CAN-001-AB12" "Canon R6"
                         (Some "file:///cache/photo.jpg") in
  let w := mkWorld (mkScreen checkout photo [] (Some item) false None true)
                   Fixture.store [] in
  let w' := confirmAndSubmit Fixture.online (Some "studio-1") (Some "user-1") w in
  exists row,
    transactions (remote w') = [row]
    /\ Transaction.type row = checkout
    /\ Transaction.approval_status row = Some "pending"
    /\ Transaction.photo_url row
       = Some (Fixture.public_url "transaction-photos"
                                  "studio-1/unit-1/1767948290000.jpg").
Proof.
  cbv zeta.
  destruct (commit_inserts_one_transaction Fixture.online (Some "studio-1") "user-1"
              (mkWorld (mkScreen checkout photo []
                          (Some (mkCartItem "unit-1" "equip-1" "CAN-001-AB12" "Canon R6"
                                            (Some "file:///cache/photo.jpg")))
                          false None true)
                       Fixture.store [])
              (mkCartItem "unit-1" "equip-1" "CAN-001-AB12" "Canon R6"
                          (Some "file:///cache/photo.jpg"))
              (fun _ => eq_refl) eq_refl)
    as (row & Ht & Hty & _ & _ & _ & Hap & _ & _ & Hph).
  exists row. split; [exact Ht|]. split; [exact Hty|]. split; [exact (Hap eq_refl)|].
  destruct (Hph "file:///cache/photo.jpg" eq_refl) as (Hurl & _).
  - discriminate.
  - exact Hurl.
Defined.

(** C10.  When the read of the parent equipment hands back no single row,
    a commit (every request served) skips the update of available_quantity
    without any error: the equipment table is left as it was, although the
    transaction has been inserted and the unit's status rewritten, and the
    screen still reaches the success step with no alert. *)
Theorem commit_skips_quantity_when_equipment_is_not_read (P : Platform)
    (studioId : option string) (uid : string) (w : World) (it : CartItem) :
  all_served P ->
  currentItem (ui w) = Some it ->
  length (filter (fun e => Equipment.id e =? equipmentId it) (equipment (remote w)))
    <> 1%nat ->
  let w' := confirmAndSubmit P studioId (Some uid) w in
  equipment (remote w') = equipment (remote w)
  /\ transactions (remote w')
     = (transactions (remote w)
          ++ [transaction_row studioId (mode (ui w)) it uid
                              (recorded_photo_url P studioId it)])%list
  /\ equipment_items (remote w')
     = map (fun u => if EquipmentItem.id u =? unitId it
                     then set_status (match mode (ui w) with
                                      | checkout => "checked_out"
                                      | checkin => "available"
                                      end) u
                     else u)
           (equipment_items (remote w))
  /\ step (ui w') = success
  /\ alerts w' = alerts w.
Proof.
  intros Hnet Hcur Hrows w'. subst w'.
  unfold confirmAndSubmit. rewrite Hcur.
  destruct (commit_try_served P studioId (mode (ui w)) it uid (remote w) Hnet)
    as (db' & Hrun & Ht & Hi & He & _).
  rewrite Hrun. simpl.
  repeat split; try assumption.
  rewrite He.
  destruct (filter (fun e => Equipment.id e =? equipmentId it) (equipment (remote w)))
    as [|a [|b rows]]; simpl in *; try reflexivity.
  contradiction Hrows; reflexivity.
Qed.

Lemma commit_skips_quantity_when_equipment_is_not_read_witness :
  let item := mkCartItem "unit-1" "equip-gone" "CAN-001-AB12" "Canon R6" None in
  let w := mkWorld (mkScreen checkout confirm [] (Some item) false None true)
                   Fixture.store [] in
  let w' := confirmAndSubmit Fixture.online (Some "studio-1") (Some "user-1") w in
  equipment (remote w') = [Fixture.canon]
  /\ step (ui w') = success
  /\ alerts w' = [].
Proof.
  cbv zeta.
  destruct (commit_skips_quantity_when_equipment_is_not_read Fixture.online
              (Some "studio-1") "user-1"
              (mkWorld (mkScreen checkout confirm []
                          (Some (mkCartItem "unit-1" "equip-gone" "CAN-001-AB12"
                                            "Canon R6" None))
                          false None true)
                       Fixture.store [])
              (mkCartItem "unit-1" "equip-gone" "CAN-001-AB12" "Canon R6" None)
              (fun _ => eq_refl) eq_refl)
    as (He & _ & _ & Hs & Ha).
  - discriminate.
  - repeat split; assumption.
Defined.

(** *** Failing requests *)

Lemma same_records_refl db : same_records db db.
Proof. repeat split. Qed.

(** The upload touches the blob storage only, whatever the network does. *)
Lemma upload_photo_keeps_records P studioId it db :
  same_records (snd (upload_photo P studioId it db)) db.
Proof.
  unfold upload_photo.
  destruct (photoUri it) as [uri|]; [|apply same_records_refl].
  destruct (JS.truthy uri); [|apply same_records_refl].
  unfold bind, fetch_blob, upload, await.
  destruct (network P (FetchFile uri)); simpl; try apply same_records_refl.
  destruct (network P (StorageUpload _)); simpl; try apply same_records_refl.
  destruct (existsb _ _); simpl; repeat split.
Qed.

(** A promise that rejects at the insert aborts the commit: the error is
    alerted, the step is kept, and no record is written. *)
Lemma rejected_insert_aborts P studioId uid w it m :
  currentItem (ui w) = Some it ->
  network P (TableInsert "transactions") = Rejects m ->
  let w' := confirmAndSubmit P studioId (Some uid) w in
  step (ui w') = step (ui w)
  /\ (exists msg, alerts w' = (alerts w ++ [("Error", msg)])%list)
  /\ same_records (remote w') (remote w).
Proof.
  intros Hcur Hnet w'. subst w'.
  unfold confirmAndSubmit. rewrite Hcur.
  unfold commit_try, bind.
  pose proof (upload_photo_keeps_records P studioId it (remote w)) as Hrec.
  destruct (upload_photo P studioId it (remote w)) as [[purl|x] db1]; simpl in *.
  - unfold insert_transaction, await. rewrite Hnet. simpl.
    split; [reflexivity|]. split; [eexists; reflexivity|exact Hrec].
  - split; [reflexivity|]. split; [eexists; reflexivity|exact Hrec].
Qed.

(** As long as no promise rejects, the commit reports success, whichever
    of its requests are refused. *)
Lemma commit_succeeds_unless_a_promise_rejects P studioId uid w it :
  currentItem (ui w) = Some it ->
  (forall uri, network P (FetchFile uri) = Served) ->
  (forall rq m, network P rq <> Rejects m) ->
  let w' := confirmAndSubmit P studioId (Some uid) w in
  step (ui w') = success /\ alerts w' = alerts w.
Proof.
  intros Hcur Hfetch Hno w'. subst w'.
  unfold confirmAndSubmit. rewrite Hcur.
  assert (Hrun : exists db', commit_try P studioId (mode (ui w)) it uid (remote w)
                             = (Return tt, db')).
  { unfold commit_try, bind.
    assert (Hup : exists purl db1,
               upload_photo P studioId it (remote w) = (Return purl, db1)).
    { unfold upload_photo.
      destruct (photoUri it) as [uri|]; [|eexists; eexists; reflexivity].
      destruct (JS.truthy uri); [|eexists; eexists; reflexivity].
      unfold bind, fetch_blob, upload, await. rewrite Hfetch.
      destruct (network P (StorageUpload _)) eqn:Hu; simpl.
      - destruct (existsb _ _); eexists; eexists; reflexivity.
      - eexists; eexists; reflexivity.
      - exfalso. exact (Hno _ _ Hu). }
    destruct Hup as (purl & db1 & ->).
    unfold insert_transaction, update_item_status, select_available_quantity,
      update_available_quantity, await.
    destruct (network P (TableInsert "transactions")) eqn:H1;
      [| |exfalso; exact (Hno _ _ H1)];
    (destruct (network P (TableUpdate "equipment_items")) eqn:H2;
      [| |exfalso; exact (Hno _ _ H2)]);
    (destruct (network P (TableSelect "equipment")) eqn:H3;
      [| |exfalso; exact (Hno _ _ H3)]);
    simpl;
    try (destruct (single _) as [[q|] err]; simpl);
    try (destruct (network P (TableUpdate "equipment")) eqn:H4;
          [| |exfalso; exact (Hno _ _ H4)]);
    simpl; eexists; reflexivity. }
  destruct Hrun as (db' & ->). split; reflexivity.
Qed.

(** C2 (evaluation at the failing input).  The insert of the transaction
    is refused; the commit nevertheless rewrites the unit's status and the
    equipment's available_quantity, raises no alert and reaches the success
    step, with no transaction recorded. *)
Theorem refused_insert_is_reported_as_success :
  let net := fun rq =>
               match rq with
               | TableInsert _ => Refused "new row violates row-level security policy"
               | _ => Served
               end in
  let item := entry (Fixture.unit_ "1" "available") Fixture.canon in
  let w := staged item (mkWorld initial Fixture.store []) in
  let w' := confirmAndSubmit (Fixture.platform net) (Some "studio-1") (Some "user-1") w in
  transactions (remote w') = []
  /\ map EquipmentItem.status (equipment_items (remote w'))
     = ["checked_out"; "checked_out"; "checked_out"; "available"; "available"]
  /\ map Equipment.available_quantity (equipment (remote w')) = [2%Z]
  /\ step (ui w') = success
  /\ alerts w' = [].
Proof. cbv zeta. repeat split; vm_compute; reflexivity. Qed.

(** C9.  With the studioId parameter absent or empty the studio check does
    not run: no scan is turned down with WrongStudio, and a unit of any
    studio that is not in the cart and whose status is legal for the mode
    is staged, and can then be committed, the commit recording a
    transaction and reaching the success step. *)
Theorem no_studio_check_without_studioId (P P' : Platform) (studioId : option string)
    (uid data : string) (w : World) (u : EquipmentItem.t) (e : Equipment.t) :
  studioId = None \/ studioId = Some "" ->
  ready (ui w) ->
  resolves P data (remote w) u e ->
  existsb (fun c => unitId c =? EquipmentItem.id u) (cart (ui w)) = false ->
  Spec.legal (mode (ui w)) (EquipmentItem.status u) ->
  all_served P' ->
  let w1 := handleBarCodeScanned P studioId data w in
  let w2 := confirmAndSubmit P' studioId (Some uid) w1 in
  (forall data' s db,
      fst (scan_try P studioId data' s db) <> Return (Reject WrongStudio))
  /\ w1 = staged (entry u e) w
  /\ transactions (remote w2)
     = (transactions (remote w)
          ++ [transaction_row studioId (mode (ui w)) (entry u e) uid None])%list
  /\ step (ui w2) = success
  /\ alerts w2 = alerts w.
Proof.
  intros Hsid Hready Hres Hcart Hlegal Hnet w1 w2.
  assert (Hfalsy : JS.truthy_opt studioId = false)
    by (destruct Hsid as [-> | ->]; reflexivity).
  assert (Hw1 : w1 = staged (entry u e) w).
  { subst w1. unfold handleBarCodeScanned. rewrite (ready_gate _ Hready).
    rewrite (scan_try_resolved P studioId data (ui w) (remote w) u e Hres).
    unfold validate, bind, ret. rewrite Hfalsy. simpl. rewrite Hcart. simpl.
    destruct (mode (ui w)); simpl in *.
    - rewrite Hlegal. reflexivity.
    - destruct (String.eqb_spec (EquipmentItem.status u) "available");
        [contradiction|reflexivity]. }
  split.
  { intros data' s db. unfold scan_try, bind, select_unit, await.
    destruct (network P _); simpl; try discriminate.
    destruct (single _) as [d err]; simpl.
    destruct err; simpl; [discriminate|].
    destruct d as [x|]; simpl; [|discriminate].
    unfold validate, bind, ret, throw. rewrite Hfalsy. simpl.
    repeat (match goal with |- context [if ?b then _ else _] => destruct b end;
            simpl; try discriminate);
    destruct (unit_equipment x); simpl; discriminate. }
  split; [exact Hw1|].
  subst w2. rewrite Hw1. unfold confirmAndSubmit. simpl.
  destruct (commit_try_served P' studioId (mode (ui w)) (entry u e) uid (remote w) Hnet)
    as (db' & Hrun & Ht & _).
  rewrite Hrun. simpl. repeat split. exact Ht.
Qed.

Lemma no_studio_check_without_studioId_witness :
  let w := mkWorld initial Fixture.store [] in
  let w1 := handleBarCodeScanned Fixture.online None "CAN-001-AB12" w in
  let w2 := confirmAndSubmit Fixture.online None (Some "user-1") w1 in
  w1 = staged (entry (Fixture.unit_ "1" "available") Fixture.canon) w
  /\ step (ui w2) = success.
Proof.
  cbv zeta.
  destruct (no_studio_check_without_studioId Fixture.online Fixture.online None
              "user-1" "CAN-001-AB12" (mkWorld initial Fixture.store [])
              (Fixture.unit_ "1" "available") Fixture.canon)
    as (_ & H1 & _ & H2 & _).
  - left; reflexivity.
  - split; reflexivity.
  - repeat split; reflexivity.
  - reflexivity.
  - reflexivity.
  - intro; reflexivity.
  - split; assumption.
Defined.

End CommitTheorems.

(** ** Properties of the registration screen *)

Section RegistrationTheorems.
Import AddEquipment.

Lemma array_from_length_in_range {A} (q : Z) (mk : nat -> A) db :
  (q <= JS.max_array_length)%Z ->
  array_from_length q mk db = (Return (map mk (seq 0 (Z.to_nat q))), db).
Proof.
  intros Hq. unfold array_from_length.
  destruct (Z.ltb_spec JS.max_array_length q); [lia|reflexivity].
Qed.

Lemma assign_ids_length P rows :
  forall n, length (assign_ids P n rows) = length rows.
Proof.
  induction rows as [|r rows IH]; intros n; simpl; [reflexivity|].
  rewrite IH. reflexivity.
Qed.

Lemma assign_ids_available P x rows :
  Forall (fun r => row_status r = "available" /\ row_equipment_id r = x) rows ->
  forall n,
    Forall (fun u => EquipmentItem.status u = "available"
                     /\ EquipmentItem.equipment_id u = x)
           (assign_ids P n rows).
Proof.
  induction 1 as [|r rows Hr _ IH]; intros n; simpl; constructor.
  - exact Hr.
  - apply IH.
Qed.

(** Units that are available do not count as checked out. *)
Lemma checked_out_units_app_available db x units id :
  Forall (fun u => EquipmentItem.status u = "available"
                   /\ EquipmentItem.equipment_id u = x) units ->
  Spec.checked_out_units
    (with_equipment_items (equipment_items db ++ units) db) id
  = Spec.checked_out_units db id.
Proof.
  intros Hall. unfold Spec.checked_out_units. simpl.
  rewrite filter_app, length_app.
  replace (filter _ units) with (@nil EquipmentItem.t); [simpl; lia|].
  induction Hall as [|u units [Hst _] _ IH]; simpl; [reflexivity|].
  rewrite Hst. rewrite andb_false_r. exact IH.
Qed.

Lemma checked_out_units_only_items db db' id :
  equipment_items db' = equipment_items db ->
  Spec.checked_out_units db' id = Spec.checked_out_units db id.
Proof. intros H. unfold Spec.checked_out_units. rewrite H. reflexivity. Qed.

(** The row [handleSubmit] sends for the new equipment, once the store has
    given it the id [new]. *)
Lemma submit_try_served P studioId f uri db :
  all_served P ->
  existsb (fun o => (bucket o =? "equipment-photos")
                      && (path o =? photo_path P studioId)) (objects db) = false ->
  (JS.parseInt_or_1 (Form.quantity f) <= JS.max_array_length)%Z ->
  exists db' e units,
    submit_try P studioId f uri db = (Return (JS.parseInt_or_1 (Form.quantity f)), db')
    /\ equipment db' = (equipment db ++ [e])%list
    /\ Equipment.id e = new_id P (serial db)
    /\ Equipment.studio_id e = studioId
    /\ Equipment.total_quantity e = JS.parseInt_or_1 (Form.quantity f)
    /\ Equipment.available_quantity e = JS.parseInt_or_1 (Form.quantity f)
    /\ equipment_items db' = (equipment_items db ++ units)%list
    /\ length units = Z.to_nat (JS.parseInt_or_1 (Form.quantity f))
    /\ Forall (fun u => EquipmentItem.status u = "available"
                        /\ EquipmentItem.equipment_id u = new_id P (serial db)) units.
Proof.
  intros Hnet Hfree Hq.
  unfold submit_try, bind, fetch_blob, upload, insert_equipment, insert_items, await.
  rewrite !Hnet. rewrite Hfree. simpl.
  rewrite array_from_length_in_range by assumption.
  rewrite ?Hnet. simpl.
  eexists. eexists. eexists.
  split; [reflexivity|]. simpl.
  repeat split.
  - rewrite assign_ids_length, length_map, length_seq. reflexivity.
  - apply assign_ids_available.
    apply Forall_forall. intros r Hr. apply in_map_iff in Hr.
    destruct Hr as (i & <- & _). split; reflexivity.
Qed.

Lemma merge_try_served P studioId f t db :
  all_served P ->
  (JS.parseInt_or_1 (Form.quantity f) <= JS.max_array_length)%Z ->
  exists db' units,
    merge_try P studioId f t db = (Return (JS.parseInt_or_1 (Form.quantity f)), db')
    /\ equipment db'
       = map (fun e => if Equipment.id e =? SimilarEquipment.id t
                       then set_quantities
                              (SimilarEquipment.total_quantity t
                                 + JS.parseInt_or_1 (Form.quantity f))
                              (SimilarEquipment.available_quantity t
                                 + JS.parseInt_or_1 (Form.quantity f)) e
                       else e)
             (equipment db)
    /\ equipment_items db' = (equipment_items db ++ units)%list
    /\ length units = Z.to_nat (JS.parseInt_or_1 (Form.quantity f))
    /\ Forall (fun u => EquipmentItem.status u = "available"
                        /\ EquipmentItem.equipment_id u = SimilarEquipment.id t) units.
Proof.
  intros Hnet Hq.
  unfold merge_try, bind, insert_items, update_quantities, await.
  rewrite array_from_length_in_range by assumption.
  rewrite ?Hnet. simpl.
  eexists. eexists.
  split; [reflexivity|]. simpl.
  repeat split.
  - rewrite assign_ids_length, length_map, length_seq. reflexivity.
  - apply assign_ids_available.
    apply Forall_forall. intros r Hr. apply in_map_iff in Hr.
    destruct Hr as (i & <- & _). split; reflexivity.
Qed.

Lemma checked_out_units_unchanged db db' x units id :
  equipment_items db' = (equipment_items db ++ units)%list ->
  Forall (fun u => EquipmentItem.status u = "available"
                   /\ EquipmentItem.equipment_id u = x) units ->
  Spec.checked_out_units db' id = Spec.checked_out_units db id.
Proof.
  intros Hitems Hall.
  rewrite <- (checked_out_units_app_available db x units id Hall).
  apply checked_out_units_only_items. exact Hitems.
Qed.

Lemma checked_out_units_unreferenced db id :
  (forall u, In u (equipment_items db) -> EquipmentItem.equipment_id u <> id) ->
  Spec.checked_out_units db id = 0%Z.
Proof.
  intros Hfresh. unfold Spec.checked_out_units.
  replace (filter _ (equipment_items db)) with (@nil EquipmentItem.t); [reflexivity|].
  symmetry. induction (equipment_items db) as [|u l IH]; simpl; [reflexivity|].
  destruct (String.eqb_spec (EquipmentItem.equipment_id u) id) as [Heq|Hne]; simpl.
  - exfalso. apply (Hfresh u); [left; reflexivity|exact Heq].
  - apply IH. intros u' Hin. apply Hfresh. right. exact Hin.
Qed.

(** What the two registration paths do when nothing stands in their way.
    With every request served and a quantity [N] (the parsed form field)
    between 1 and the array limit, and, for a merge, a target that carries
    the quantities of the stored row:
    - creating equipment appends one equipment row with total_quantity
      and available_quantity both [N], and exactly [N] units, all
      available and all of that equipment; the new row satisfies the
      invariant (its checked_out units number total - available, and
      0 <= available <= total) and the invariant of every other row is
      preserved;
    - merging into existing equipment appends exactly [N] available units
      of the target and raises the target's total_quantity and
      available_quantity by [N] each, which preserves the invariant. *)
Lemma registration_keeps_quantities_consistent (P : Platform)
    (studioId : option string) (w : World) :
  all_served P ->
  (0 < JS.parseInt_or_1 (Form.quantity (form (ui w))) <= JS.max_array_length)%Z ->
  (forall uri,
      JS.trim (Form.name (form (ui w))) <> "" ->
      photoUri (ui w) = Some uri ->
      uri <> "" ->
      existsb (fun o => (bucket o =? "equipment-photos")
                          && (path o =? photo_path P studioId))
              (objects (remote w)) = false ->
      (forall u, In u (equipment_items (remote w)) ->
                 EquipmentItem.equipment_id u <> new_id P (serial (remote w))) ->
      let w' := handleSubmit P studioId w in
      exists e units,
        equipment (remote w') = (equipment (remote w) ++ [e])%list
        /\ Equipment.total_quantity e = JS.parseInt_or_1 (Form.quantity (form (ui w)))
        /\ Equipment.available_quantity e = JS.parseInt_or_1 (Form.quantity (form (ui w)))
        /\ equipment_items (remote w') = (equipment_items (remote w) ++ units)%list
        /\ Z.of_nat (length units) = JS.parseInt_or_1 (Form.quantity (form (ui w)))
        /\ Forall (fun u => EquipmentItem.status u = "available"
                            /\ EquipmentItem.equipment_id u = Equipment.id e) units
        /\ Spec.consistent_row (remote w') e
        /\ (Spec.consistent (remote w) -> Spec.consistent (remote w')))
  /\ (forall t,
      selectedMergeTarget (ui w) = Some t ->
      (forall e, In e (equipment (remote w)) -> Equipment.id e = SimilarEquipment.id t ->
                 Equipment.total_quantity e = SimilarEquipment.total_quantity t
                 /\ Equipment.available_quantity e
                    = SimilarEquipment.available_quantity t) ->
      let w' := handleMergeConfirm P studioId w in
      exists units,
        equipment_items (remote w') = (equipment_items (remote w) ++ units)%list
        /\ Z.of_nat (length units) = JS.parseInt_or_1 (Form.quantity (form (ui w)))
        /\ Forall (fun u => EquipmentItem.status u = "available"
                            /\ EquipmentItem.equipment_id u = SimilarEquipment.id t) units
        /\ equipment (remote w')
           = map (fun e =>
                    if Equipment.id e =? SimilarEquipment.id t
                    then set_quantities
                           (Equipment.total_quantity e
                              + JS.parseInt_or_1 (Form.quantity (form (ui w))))
                           (Equipment.available_quantity e
                              + JS.parseInt_or_1 (Form.quantity (form (ui w)))) e
                    else e)
                 (equipment (remote w))
        /\ (Spec.consistent (remote w) -> Spec.consistent (remote w'))).
Proof.
  intros Hnet [Hpos Hmax].
  set (N := JS.parseInt_or_1 (Form.quantity (form (ui w)))) in *.
  split.
  - intros uri Hname Hphoto Huri Hfree Hfresh w'. subst w'.
    unfold handleSubmit.
    rewrite (truthy_nonempty _ Hname), Hphoto, (truthy_nonempty _ Huri). simpl.
    destruct (submit_try_served P studioId (form (ui w)) uri (remote w) Hnet Hfree Hmax)
      as (db' & e & units & Hrun & He & Hid & _ & Ht & Ha & Hitems & Hlen & Hall).
    rewrite Hrun. simpl. fold N in Ht, Ha, Hlen.
    rewrite <- Hid in Hall.
    assert (Hcount : forall x, Spec.checked_out_units db' x
                               = Spec.checked_out_units (remote w) x)
      by (intros x; exact (checked_out_units_unchanged _ _ _ _ x Hitems Hall)).
    exists e, units.
    split; [exact He|]. split; [exact Ht|]. split; [exact Ha|].
    split; [exact Hitems|]. split; [rewrite Hlen; lia|]. split; [exact Hall|].
    assert (Hrow : Spec.consistent_row db' e).
    { split; [|lia].
      rewrite Hcount, Hid, (checked_out_units_unreferenced _ _ Hfresh). lia. }
    split; [exact Hrow|].
    intros Hcons e' Hin. rewrite He in Hin. apply in_app_or in Hin.
    destruct Hin as [Hold | [<- | []]]; [|exact Hrow].
    destruct (Hcons e' Hold) as [Hc Hb]. split; [rewrite Hcount; exact Hc|exact Hb].
  - intros t Htarget Hsnap w'. subst w'.
    unfold handleMergeConfirm. rewrite Htarget.
    destruct (merge_try_served P studioId (form (ui w)) t (remote w) Hnet Hmax)
      as (db' & units & Hrun & He & Hitems & Hlen & Hall).
    rewrite Hrun. simpl. fold N in He, Hlen.
    assert (Hcount : forall x, Spec.checked_out_units db' x
                               = Spec.checked_out_units (remote w) x)
      by (intros x; exact (checked_out_units_unchanged _ _ _ _ x Hitems Hall)).
    exists units.
    split; [exact Hitems|]. split; [rewrite Hlen; lia|]. split; [exact Hall|].
    split.
    + rewrite He. apply map_ext_in. intros e Hin.
      destruct (String.eqb_spec (Equipment.id e) (SimilarEquipment.id t))
        as [Heq|Hne]; [|reflexivity].
      destruct (Hsnap e Hin Heq) as [-> ->]. reflexivity.
    + intros Hcons e' Hin. rewrite He in Hin. apply in_map_iff in Hin.
      destruct Hin as (e0 & <- & Hin0).
      destruct (Hcons e0 Hin0) as [Hc [Hlo Hhi]].
      destruct (String.eqb_spec (Equipment.id e0) (SimilarEquipment.id t)) as [Heq|Hne].
      * destruct (Hsnap e0 Hin0 Heq) as [HT HA].
        unfold Spec.consistent_row. simpl. rewrite Hcount, Hc. lia.
      * split; [rewrite Hcount; exact Hc|split; assumption].
Qed.

Lemma fixture_store_consistent : Spec.consistent Fixture.store.
Proof.
  intros e [<- | []]. split.
  - reflexivity.
  - split; discriminate.
Defined.

Lemma registration_keeps_quantities_consistent_witness :
  let target := SimilarEquipment.mk "equip-1" "Canon R6" "Camera" 5 3 None in
  let w := mkWorld (mkScreen false (Some "file:///cache/sony.jpg") [] false
                             (Some target) (Form.mk "Sony A7" "Camera" "3" "" ""))
                   Fixture.store [] in
  (exists e units,
      equipment (remote (handleSubmit Fixture.online (Some "studio-1") w))
      = [Fixture.canon; e]
      /\ Equipment.total_quantity e = 3%Z
      /\ Equipment.available_quantity e = 3%Z
      /\ equipment_items (remote (handleSubmit Fixture.online (Some "studio-1") w))
         = (equipment_items Fixture.store ++ units)%list
      /\ Z.of_nat (length units) = 3%Z)
  /\ map Equipment.total_quantity
         (equipment (remote (handleMergeConfirm Fixture.online (Some "studio-1") w)))
     = [8%Z]
  /\ map Equipment.available_quantity
         (equipment (remote (handleMergeConfirm Fixture.online (Some "studio-1") w)))
     = [6%Z]
  /\ Spec.consistent (remote (handleMergeConfirm Fixture.online (Some "studio-1") w)).
Proof.
  cbv zeta.
  destruct (registration_keeps_quantities_consistent Fixture.online (Some "studio-1")
              (mkWorld (mkScreen false (Some "file:///cache/sony.jpg") [] false
                          (Some (SimilarEquipment.mk "equip-1" "Canon R6" "Camera" 5 3 None))
                          (Form.mk "Sony A7" "Camera" "3" "" ""))
                       Fixture.store [])
              (fun _ => eq_refl))
    as [Hcreate Hmerge].
  - split; [reflexivity|discriminate].
  - split.
    + destruct (Hcreate "file:///cache/sony.jpg")
        as (e & units & He & Ht & Ha & Hi & Hl & _).
      * discriminate.
      * reflexivity.
      * discriminate.
      * reflexivity.
      * intros u Hin. simpl in Hin.
        repeat (destruct Hin as [<- | Hin]; [discriminate|]). contradiction.
      * exists e, units. repeat split; assumption.
    + destruct (Hmerge (SimilarEquipment.mk "equip-1" "Canon R6" "Camera" 5 3 None))
        as (units & _ & _ & _ & He & Hcons).
      * reflexivity.
      * intros e [<- | []] _. split; reflexivity.
      * split; [rewrite He; reflexivity|].
        split; [rewrite He; reflexivity|].
        apply Hcons. exact fixture_store_consistent.
Defined.

End RegistrationTheorems.

(** ** A merge into equipment that has changed since the search *)

Section StaleMerge.
Import AddEquipment Registration.

(** C8.  [handleMergeConfirm] does not raise the stored quantities by [N]:
    it writes the quantities the suggestion carried when the search
    returned, plus [N], without reading the row again.  Take the store with
    one equipment of five units, two of them out (5 / 3).  The name is
    searched and the suggestion pressed (target 5 / 3); a member then checks
    a third unit out on the scan screen (store 5 / 2, consistent); the merge
    of three units is confirmed and every request is served.  The row ends
    at 8 / 6 instead of 8 / 5 with three units out, Merged Successfully is
    alerted, and the invariant that exactly total_quantity -
    available_quantity units are checked_out no longer holds. *)
Theorem stale_merge_target_breaks_consistency :
  let opened :=
    mkWorld (mkScreen false None [] false None (Form.mk "Canon" "Camera" "3" "" ""))
            Fixture.store [] in
  let searched :=
    handle Fixture.online (Some "studio-1") (fun _ _ => true) SearchFires opened in
  let pressed :=
    handle Fixture.online (Some "studio-1") (fun _ _ => true) (PressSuggestion 0)
           searched in
  let elsewhere :=
    Checkout.remote
      (Checkout.confirmAndSubmit Fixture.online (Some "studio-1") (Some "user-2")
         (staged (entry (Fixture.unit_ "1" "available") Fixture.canon)
                 (Checkout.mkWorld Checkout.initial Fixture.store []))) in
  let w := mkWorld (ui pressed) elsewhere [] in
  let w' := handleMergeConfirm Fixture.online (Some "studio-1") w in
  selectedMergeTarget (ui w)
  = Some (SimilarEquipment.mk "equip-1" "Canon R6" "Camera" 5 3 None)
  /\ map Equipment.total_quantity (equipment (remote w)) = [5%Z]
  /\ map Equipment.available_quantity (equipment (remote w)) = [2%Z]
  /\ Spec.checked_out_units (remote w) "equip-1" = 3%Z
  /\ Spec.consistent (remote w)
  /\ map Equipment.total_quantity (equipment (remote w')) = [8%Z]
  /\ map Equipment.available_quantity (equipment (remote w')) = [6%Z]
  /\ Spec.checked_out_units (remote w') "equip-1" = 3%Z
  /\ length (equipment_items (remote w')) = 8%nat
  /\ map fst (alerts w') = ["Merged Successfully"]
  /\ ~ Spec.consistent (remote w').
Proof.
  cbv zeta.
  split; [reflexivity|]. split; [reflexivity|]. split; [reflexivity|].
  split; [reflexivity|]. split.
  { intros e Hin. vm_compute in Hin. destruct Hin as [<-|[]].
    split; [reflexivity|split; discriminate]. }
  split; [reflexivity|]. split; [reflexivity|]. split; [reflexivity|].
  split; [reflexivity|]. split; [reflexivity|].
  intros Hcons.
  destruct (Hcons (Equipment.mk "equip-1" (Some "studio-1") "Canon R6" "Camera" 8 6
                                None None None)) as [Hcount _].
  - vm_compute. left. reflexivity.
  - vm_compute in Hcount. discriminate Hcount.
Qed.

End StaleMerge.

(** ** Evaluations of the built-ins and of edge inputs *)

Example parseInt_3 : JS.parseInt "3" = Some 3%Z.
Proof. reflexivity. Qed.

Example parseInt_prefix : JS.parseInt " -12px" = Some (-12)%Z.
Proof. reflexivity. Qed.

Example parseInt_nan : JS.parseInt "abc" = None.
Proof. reflexivity. Qed.

Example parseInt_or_1_default :
  JS.parseInt_or_1 "" = 1%Z /\ JS.parseInt_or_1 "0" = 1%Z.
Proof. split; reflexivity. Qed.

Example padStart_7 : JS.padStart0 3 (JS.int_toString 7) = "007".
Proof. reflexivity. Qed.

Example trim_name : JS.trim "  Canon R6  " = "Canon R6".
Proof. reflexivity. Qed.

(** No-break spaces are white space to [trim] and to [parseInt]. *)
Example trim_no_break_spaces :
  JS.trim (String "160" (String "160" EmptyString)) = EmptyString.
Proof. reflexivity. Qed.

Example parseInt_after_no_break_space :
  JS.parseInt (String "160" "-3") = Some (-3)%Z.
Proof. reflexivity. Qed.

Example unit_code_first :
  AddEquipment.unit_code Fixture.online (AddEquipment.code_base
      (AddEquipment.Form.mk "Canon R6" "Camera" "3" "" "") "Canon R6") 1 0
  = "CAN-001-4FZY".
Proof. reflexivity. Qed.

(** A quantity field that parses to a negative number is outside the range
    the registration theorem covers: the equipment row is written with that
    number and no unit is created. *)
Example negative_quantity_creates_no_unit :
  let w := AddEquipment.mkWorld
             (AddEquipment.mkScreen false (Some "file:///cache/sony.jpg") [] false None
                (AddEquipment.Form.mk "Sony A7" "Camera" "-2" "" ""))
             Fixture.store [] in
  let w' := AddEquipment.handleSubmit Fixture.online (Some "studio-1") w in
  map Equipment.total_quantity (equipment (AddEquipment.remote w')) = [5%Z; (-2)%Z]
  /\ equipment_items (AddEquipment.remote w') = equipment_items Fixture.store.
Proof. cbv zeta. split; vm_compute; reflexivity. Qed.

(** ** Further properties of the scan screen *)

Section MoreScanTheorems.
Import Checkout.

Lemma confirmAndSubmit_without_item P studioId user w :
  currentItem (ui w) = None -> confirmAndSubmit P studioId user w = w.
Proof. intros H. unfold confirmAndSubmit. rewrite H. reflexivity. Qed.

Lemma dispatch_keeps_store studioId user P e w :
  commits e = false ->
  remote (dispatch studioId user P e w) = remote w.
Proof.
  intros He. unfold dispatch.
  destruct (enabled e (ui w)); [|reflexivity].
  destruct e as [d|m| |c| | |]; simpl in *; try reflexivity; try discriminate.
  - apply handleBarCodeScanned_keeps_store.
  - destruct c; simpl; try reflexivity.
    destruct (currentItem (ui w)); reflexivity.
Qed.

(** X1.  Only a commit writes: a session in which neither Skip Photo and
    Submit nor Submit is pressed leaves the remote store exactly as it was,
    whatever is scanned, photographed, toggled or cancelled, and however
    the requests fare.  In particular Cancel undoes nothing remotely. *)
Theorem only_a_commit_writes (studioId user : option string)
    (es : list (Platform * event)) (w : World) :
  Forall (fun pe => commits (snd pe) = false) es ->
  remote (run studioId user es w) = remote w.
Proof.
  intros Hes. revert w.
  induction Hes as [|[P e] es He _ IH]; intros w; [reflexivity|].
  change (run studioId user ((P, e) :: es) w)
    with (run studioId user es (dispatch studioId user P e w)).
  rewrite IH. apply dispatch_keeps_store. exact He.
Qed.

Lemma only_a_commit_writes_witness :
  let w0 := mkWorld initial Fixture.store [] in
  remote (run (Some "studio-1") (Some "user-1")
              [(Fixture.online, Scan "CAN-001-AB12");
               (Fixture.online, PressTakePhoto (Captured "file:///cache/p.jpg"));
               (Fixture.online, PressMode checkin);
               (Fixture.online, Scan "CAN-002-AB12")] w0)
  = Fixture.store.
Proof.
  cbv zeta.
  refine (only_a_commit_writes (Some "studio-1") (Some "user-1") _
            (mkWorld initial Fixture.store []) _).
  repeat constructor.
Defined.

(** A scan taken in a ready state either stages a unit or leaves a banner. *)
Lemma scan_outcome P studioId data w :
  ready (ui w) ->
  (exists item, handleBarCodeScanned P studioId data w = staged item w)
  \/ (exists reason, handleBarCodeScanned P studioId data w = turned_down reason w).
Proof.
  intros Hready. unfold handleBarCodeScanned. rewrite (ready_gate _ Hready).
  pose proof (scan_try_keeps_store P studioId data (ui w) (remote w)) as Hdb.
  destruct (scan_try P studioId data (ui w) (remote w)) as [[[reason|item]|x] db];
    simpl in Hdb; subst db.
  - right. exists reason. reflexivity.
  - left. exists item. reflexivity.
  - right. eexists. reflexivity.
Qed.



Lemma settled_initial : settled initial.
Proof.
  unfold settled, captured. simpl. repeat split; intros; discriminate.
Qed.

Lemma dispatch_settled studioId user P e w :
  settled (ui w) -> settled (ui (dispatch studioId user P e w)).
Proof.
  intros Hs. unfold dispatch.
  destruct (enabled e (ui w)) eqn:Hen; [|exact Hs].
  destruct e as [d|m| |c| | |]; simpl.
  - (* Scan *)
    assert (Hscan : is_step scan (ui w) = true /\ scanned (ui w) = false).
    { unfold enabled in Hen. destruct (is_step success (ui w)); [discriminate|].
      apply andb_true_iff in Hen. destruct Hen as [H1 H2].
      split; [exact H1|]. destruct (scanned (ui w)); [discriminate|reflexivity]. }
    destruct Hscan as [Hstep Hnot].
    destruct Hs as (Hp & _ & _ & _).
    destruct (scan_outcome P studioId d w (conj Hnot Hp)) as [[item ->] | [reason ->]].
    + unfold settled, captured. simpl. repeat split; intros; discriminate.
    + unfold settled, captured, turned_down, is_step in *. simpl.
      destruct (step (ui w)); try discriminate.
      repeat split; intros; discriminate.
  - (* PressMode *)
    destruct w as [[m0 st c0 ci pr er sc] db al]. exact Hs.
  - (* DismissError *)
    destruct w as [[m0 st c0 ci pr er sc] db al]. exact Hs.
  - (* PressTakePhoto *)
    destruct w as [[m0 st c0 ci pr er sc] db al].
    destruct c; simpl; try exact Hs.
    destruct ci as [it|]; [|exact Hs].
    unfold settled, captured, enabled, is_step, has_item in *. simpl in *.
    destruct Hs as (Hp & Hsc & Hit & Hph).
    destruct st; simpl in *; try discriminate.
    + repeat split; try assumption; try reflexivity.
      intros _. eexists. eexists. split; reflexivity.
    + repeat split; try assumption; try reflexivity.
      intros _. eexists. eexists. split; reflexivity.
  - (* PressSkipPhoto *)
    unfold skipPhotoAndSubmit, confirmAndSubmit.
    destruct w as [[m0 st c0 ci pr er sc] db al]. simpl in *.
    destruct ci as [it|]; [|exact Hs].
    destruct user as [uid|]; [|exact Hs].
    unfold settled, captured, enabled, is_step, has_item in *. simpl in *.
    destruct Hs as (Hp & Hsc & Hit & Hph).
    destruct st; simpl in *; try discriminate.
    destruct (commit_try P studioId m0 it uid db) as [[[]|x] db']; simpl;
      repeat split; try assumption; try reflexivity; intros; discriminate.
  - (* PressSubmit *)
    unfold confirmAndSubmit.
    destruct w as [[m0 st c0 ci pr er sc] db al]. simpl in *.
    destruct ci as [it|]; [|exact Hs].
    destruct user as [uid|]; [|exact Hs].
    unfold settled, captured, enabled, is_step, has_item in *. simpl in *.
    destruct Hs as (Hp & Hsc & Hit & Hph).
    destruct st; simpl in *; try discriminate.
    destruct (commit_try P studioId m0 it uid db) as [[[]|x] db']; simpl;
      repeat split; try assumption; try reflexivity; intros; try discriminate.
  - (* PressReset *)
    destruct w as [[m0 st c0 ci pr er sc] db al].
    destruct Hs as (Hp & _).
    unfold resetScanner, settled, captured, is_step. simpl in *.
    repeat split; try assumption; try reflexivity; intros; discriminate.
Qed.

(** X3.  As long as every event is taken only once the handler of the one
    before it has run to its end (no press and no camera report while a
    request is awaited), a session that starts from the mounted screen
    keeps the screen in shape, whatever the store, the platform and the
    events: after each event the screen is not processing; the scanner
    accepts a code exactly when the screen is at the scan step; at every
    other step a unit is staged; and at the photo step a photo has been
    captured.  Nothing is said of events that overlap a running handler. *)
Theorem session_keeps_screen_settled (studioId user : option string)
    (es : list (Platform * event)) (db : Store) (al : list Alert) :
  Forall (fun w =>
            processing (ui w) = false
            /\ scanned (ui w) = negb (is_step scan (ui w))
            /\ (is_step scan (ui w) = true -> ready (ui w))
            /\ (is_step scan (ui w) = false -> has_item (ui w) = true)
            /\ (is_step photo (ui w) = true -> captured (ui w)))
         (trace studioId user es (mkWorld initial db al)).
Proof.
  assert (Hinv : forall es w, settled (ui w) ->
            Forall (fun w' => settled (ui w')) (trace studioId user es w)).
  { clear es. induction es as [|[P e] es IH]; intros w Hw; simpl; constructor.
    - apply dispatch_settled. exact Hw.
    - apply IH. apply dispatch_settled. exact Hw. }
  eapply Forall_impl; [|apply (Hinv es (mkWorld initial db al) settled_initial)].
  intros w (Hp & Hsc & Hit & Hph).
  split; [exact Hp|]. split; [exact Hsc|]. split; [|split; assumption].
  intros Hstep. split; [|exact Hp]. rewrite Hsc, Hstep. reflexivity.
Qed.

(** X4.  A unit whose equipment row cannot be joined (its equipment_id
    refers to no stored equipment) is never staged: whatever the mode and
    the studio parameter, its scan ends with a banner, at the same step and
    with the store untouched. *)
Theorem unit_without_equipment_is_never_staged (P : Platform)
    (studioId : option string) (data : string) (w : World) (u : EquipmentItem.t) :
  ready (ui w) ->
  network P (TableSelect "equipment_items") = Served ->
  filter (matches (resolveUnitId P data) data) (equipment_items (remote w)) = [u] ->
  find (fun x => Equipment.id x =? EquipmentItem.equipment_id u) (equipment (remote w))
    = None ->
  exists reason, handleBarCodeScanned P studioId data w = turned_down reason w.
Proof.
  intros Hready Hnet Hrows Hjoin.
  unfold handleBarCodeScanned. rewrite (ready_gate _ Hready).
  unfold scan_try, bind, select_unit. rewrite await_served by assumption. simpl.
  rewrite Hrows. simpl. unfold embed. rewrite Hjoin.
  unfold validate, bind, ret, throw. simpl.
  destruct (JS.truthy_opt studioId); simpl; [eexists; reflexivity|].
  repeat (match goal with |- context [if ?b then _ else _] => destruct b end;
          simpl; try (eexists; reflexivity)).
Qed.

Lemma unit_without_equipment_is_never_staged_witness :
  let orphan := EquipmentItem.mk "unit-7" "equip-gone" (Some "studio-1")
                                 "LENS-001-ZZ99" "qr" "available" in
  let w := mkWorld initial (with_equipment_items [orphan] Fixture.store) [] in
  exists reason,
    handleBarCodeScanned Fixture.online None "LENS-001-ZZ99" w = turned_down reason w.
Proof.
  cbv zeta.
  refine (unit_without_equipment_is_never_staged Fixture.online None "LENS-001-ZZ99"
            (mkWorld initial
               (with_equipment_items
                  [EquipmentItem.mk "unit-7" "equip-gone" (Some "studio-1")
                                    "LENS-001-ZZ99" "qr" "available"] Fixture.store) [])
            (EquipmentItem.mk "unit-7" "equip-gone" (Some "studio-1")
                              "LENS-001-ZZ99" "qr" "available") _ _ _ _).
  - split; reflexivity.
  - reflexivity.
  - reflexivity.
  - reflexivity.
Defined.

End MoreScanTheorems.

(** ** Further properties of the commit *)

Section MoreCommitTheorems.
Import Checkout.

Lemma filter_single_split {A} (p : A -> bool) (l : list A) (u : A) :
  filter p l = [u] ->
  exists l1 l2,
    l = (l1 ++ u :: l2)%list
    /\ p u = true
    /\ (forall x, In x l1 -> p x = false)
    /\ (forall x, In x l2 -> p x = false).
Proof.
  induction l as [|a l IH]; simpl; [discriminate|].
  destruct (p a) eqn:Hpa.
  - intros H. injection H as -> Hrest.
    exists [], l. repeat split; try assumption.
    + intros x [].
    + intros x Hin. destruct (p x) eqn:Hpx; [|reflexivity].
      assert (Hx : In x (filter p l)) by (apply filter_In; split; assumption).
      rewrite Hrest in Hx. destruct Hx.
  - intros H. destruct (IH H) as (l1 & l2 & -> & Hu & H1 & H2).
    exists (a :: l1), l2. repeat split; try assumption.
    intros x [<- | Hin]; [exact Hpa|apply H1; exact Hin].
Qed.

Lemma map_patch_outside {A} (p : A -> bool) (f : A -> A) (l : list A) :
  (forall x, In x l -> p x = false) ->
  map (fun x => if p x then f x else x) l = l.
Proof.
  induction l as [|a l IH]; intros H; simpl; [reflexivity|].
  rewrite (H a (or_introl eq_refl)), IH; [reflexivity|].
  intros x Hin. apply H. right. exact Hin.
Qed.

Lemma map_patch_single {A} (p : A -> bool) (f : A -> A) (l : list A) (u : A) :
  filter p l = [u] ->
  exists l1 l2,
    l = (l1 ++ u :: l2)%list
    /\ map (fun x => if p x then f x else x) l = (l1 ++ f u :: l2)%list.
Proof.
  intros H. destruct (filter_single_split p l u H) as (l1 & l2 & -> & Hu & H1 & H2).
  exists l1, l2. split; [reflexivity|].
  rewrite map_app. simpl. rewrite Hu.
  rewrite (map_patch_outside p f l1 H1), (map_patch_outside p f l2 H2). reflexivity.
Qed.

(** Replacing one unit changes the count of an equipment's checked-out units
    by what that unit contributes. *)
Lemma checked_out_units_replace db db' l1 l2 u v x :
  equipment_items db = (l1 ++ u :: l2)%list ->
  equipment_items db' = (l1 ++ v :: l2)%list ->
  Z.add (Spec.checked_out_units db' x)
        (if (EquipmentItem.equipment_id u =? x) && (EquipmentItem.status u =? "checked_out")
         then 1%Z else 0%Z)
  = Z.add (Spec.checked_out_units db x)
          (if (EquipmentItem.equipment_id v =? x)
              && (EquipmentItem.status v =? "checked_out")
           then 1%Z else 0%Z).
Proof.
  intros H H'. unfold Spec.checked_out_units. rewrite H, H'.
  rewrite !filter_app, !length_app. simpl.
  destruct ((EquipmentItem.equipment_id u =? x) && (EquipmentItem.status u =? "checked_out"));
    destruct ((EquipmentItem.equipment_id v =? x)
              && (EquipmentItem.status v =? "checked_out")); simpl; lia.
Qed.

(** X5.  A commit keeps the data-model invariant.  Let every request be
    served, the staged unit be the only unit with its id and belong to the
    staged equipment, that equipment be the only row with its id, and the
    unit be available (checkout, with at least one unit left available on
    the equipment) or checked_out (checkin).  If, before the commit, every
    equipment row has exactly total - available checked-out units and
    0 <= available <= total, then so it is after the commit. *)
Theorem commit_keeps_quantities_consistent (P : Platform) (studioId : option string)
    (uid : string) (w : World) (it : CartItem) (u : EquipmentItem.t) (e : Equipment.t) :
  all_served P ->
  currentItem (ui w) = Some it ->
  filter (fun x => EquipmentItem.id x =? unitId it) (equipment_items (remote w)) = [u] ->
  EquipmentItem.equipment_id u = equipmentId it ->
  filter (fun x => Equipment.id x =? equipmentId it) (equipment (remote w)) = [e] ->
  match mode (ui w) with
  | checkout =>
      EquipmentItem.status u = "available" /\ (0 < Equipment.available_quantity e)%Z
  | checkin => EquipmentItem.status u = "checked_out"
  end ->
  Spec.consistent (remote w) ->
  Spec.consistent (remote (confirmAndSubmit P studioId (Some uid) w)).
Proof.
  intros Hnet Hcur Hunit Hown Hequip Hmode Hcons.
  unfold confirmAndSubmit. rewrite Hcur.
  destruct (commit_try_served P studioId (mode (ui w)) it uid (remote w) Hnet)
    as (db' & Hrun & _ & Hi & He & _).
  rewrite Hrun. simpl.
  rewrite Hequip in He. simpl in He.
  destruct (map_patch_single _ (set_status (new_status (mode (ui w)))) _ u Hunit)
    as (l1 & l2 & Hsplit & Hpatched).
  rewrite Hpatched in Hi.
  pose proof (fun x => checked_out_units_replace (remote w) db' l1 l2 u
                         (set_status (new_status (mode (ui w))) u) x Hsplit Hi) as Hcount.
  intros e' Hin. rewrite He in Hin. apply in_map_iff in Hin.
  destruct Hin as (e0 & <- & Hin0).
  destruct (Hcons e0 Hin0) as [Hc [Hlo Hhi]].
  specialize (Hcount (Equipment.id e0)). simpl in Hcount. rewrite Hown in Hcount.
  destruct (String.eqb_spec (Equipment.id e0) (equipmentId it)) as [Heq|Hne].
  - assert (He0 : e0 = e).
    { assert (Hf : In e0 (filter (fun x => Equipment.id x =? equipmentId it)
                                 (equipment (remote w)))).
      { apply filter_In. split; [exact Hin0|]. apply String.eqb_eq. exact Heq. }
      rewrite Hequip in Hf. destruct Hf as [<- | []]. reflexivity. }
    subst e0. rewrite Heq in Hcount. rewrite String.eqb_refl in Hcount.
    unfold Spec.consistent_row. simpl. rewrite Heq.
    destruct (mode (ui w)); simpl in *.
    + destruct Hmode as [Hst Hpos]. rewrite Hst in Hcount. simpl in Hcount.
      rewrite Heq in Hc. rewrite Z.add_0_r in Hcount. rewrite Hcount, Hc.
      split; [ring|split; lia].
    + rewrite Hmode in Hcount. simpl in Hcount. rewrite Heq in Hc.
      rewrite Z.add_0_r in Hcount. rewrite Hc in Hcount.
      pose proof (Nat2Z.is_nonneg
                    (length (filter (fun x => (EquipmentItem.equipment_id x =? equipmentId it)
                                               && (EquipmentItem.status x =? "checked_out"))
                                    (equipment_items db')))) as Hnn.
      fold (Spec.checked_out_units db' (equipmentId it)) in Hnn.
      split; [lia|split; lia].
  - assert (Hneq : (equipmentId it =? Equipment.id e0) = false).
    { apply String.eqb_neq. congruence. }
    rewrite Hneq in Hcount. simpl in Hcount.
    split; [lia|split; assumption].
Qed.

Lemma commit_keeps_quantities_consistent_witness :
  let item := entry (Fixture.unit_ "1" "available") Fixture.canon in
  let w := staged item (mkWorld initial Fixture.store []) in
  Spec.consistent
    (remote (confirmAndSubmit Fixture.online (Some "studio-1") (Some "user-1") w)).
Proof.
  cbv zeta.
  refine (commit_keeps_quantities_consistent Fixture.online (Some "studio-1") "user-1"
            (staged (entry (Fixture.unit_ "1" "available") Fixture.canon)
                    (mkWorld initial Fixture.store []))
            (entry (Fixture.unit_ "1" "available") Fixture.canon)
            (Fixture.unit_ "1" "available") Fixture.canon
            (fun _ => eq_refl) eq_refl eq_refl eq_refl eq_refl
            (conj eq_refl eq_refl) fixture_store_consistent).
Defined.

Lemma filter_map_commute {A} (p : A -> bool) (f : A -> A) (l : list A) :
  (forall x, p (f x) = p x) ->
  filter p (map f l) = map f (filter p l).
Proof.
  intros H. induction l as [|a l IH]; simpl; [reflexivity|].
  rewrite H. destruct (p a); simpl; rewrite IH; reflexivity.
Qed.

Lemma find_map_commute {A} (p : A -> bool) (f : A -> A) (l : list A) :
  (forall x, p (f x) = p x) ->
  find p (map f l) = option_map f (find p l).
Proof.
  intros H. induction l as [|a l IH]; simpl; [reflexivity|].
  rewrite H. destruct (p a); simpl; [reflexivity|exact IH].
Qed.

Lemma map_fixed {A} (f : A -> A) (l : list A) :
  (forall x, In x l -> f x = x) -> map f l = l.
Proof.
  intros H. rewrite <- (map_id l) at 2. apply map_ext_in. exact H.
Qed.

Lemma set_available_quantity_same e :
  set_available_quantity (Equipment.available_quantity e) e = e.
Proof. destruct e; reflexivity. Qed.

Lemma set_status_same u : set_status (EquipmentItem.status u) u = u.
Proof. destruct u; reflexivity. Qed.

(** X6.  Checking a unit out and then in again is a round trip on the
    inventory: with every request served, the equipment table and the
    units are, after the two commits, exactly what they were before the
    first (the unit available, available_quantity back at the value read),
    and the transactions have gained the checkout row and then the checkin
    row. *)
Theorem checkout_then_checkin_restores_inventory (P1 P2 : Platform)
    (studioId : option string) (uid1 uid2 : string) (s1 s2 : Screen) (db : Store)
    (al1 al2 : list Alert) (it : CartItem) (q : Z) :
  all_served P1 ->
  all_served P2 ->
  currentItem s1 = Some it -> mode s1 = checkout ->
  currentItem s2 = Some it -> mode s2 = checkin ->
  (forall u, In u (equipment_items db) -> EquipmentItem.id u = unitId it ->
             EquipmentItem.status u = "available") ->
  map Equipment.available_quantity
      (filter (fun e => Equipment.id e =? equipmentId it) (equipment db)) = [q] ->
  let db1 := remote (confirmAndSubmit P1 studioId (Some uid1) (mkWorld s1 db al1)) in
  let db2 := remote (confirmAndSubmit P2 studioId (Some uid2) (mkWorld s2 db1 al2)) in
  equipment db2 = equipment db
  /\ equipment_items db2 = equipment_items db
  /\ transactions db2
     = (transactions db
          ++ [transaction_row studioId checkout it uid1 (recorded_photo_url P1 studioId it);
              transaction_row studioId checkin it uid2 (recorded_photo_url P2 studioId it)]
       )%list.
Proof.
  intros Hn1 Hn2 Hc1 Hm1 Hc2 Hm2 Havail Hread db1 db2.
  subst db2 db1. unfold confirmAndSubmit. simpl. rewrite Hc1, Hc2, Hm1, Hm2.
  destruct (commit_try_served P1 studioId checkout it uid1 db Hn1)
    as (d1 & Hrun1 & Ht1 & Hi1 & He1 & _).
  rewrite Hrun1. simpl.
  destruct (commit_try_served P2 studioId checkin it uid2 d1 Hn2)
    as (d2 & Hrun2 & Ht2 & Hi2 & He2 & _).
  rewrite Hrun2. simpl.
  rewrite Hread in He1. simpl in He1.
  (* the second read sees the decremented value *)
  assert (Hread2 : map Equipment.available_quantity
                       (filter (fun e => Equipment.id e =? equipmentId it) (equipment d1))
                   = [(q - 1)%Z]).
  { rewrite He1. rewrite filter_map_commute.
    2:{ intros x. destruct (Equipment.id x =? equipmentId it) eqn:Hx; simpl; rewrite Hx;
        reflexivity. }
    destruct (filter (fun e => Equipment.id e =? equipmentId it) (equipment db))
      as [|a [|b rest]] eqn:Hf; simpl in Hread; try discriminate.
    assert (Ha : (Equipment.id a =? equipmentId it) = true).
    { assert (Hin : In a (filter (fun e => Equipment.id e =? equipmentId it)
                                 (equipment db))) by (rewrite Hf; left; reflexivity).
      apply filter_In in Hin. exact (proj2 Hin). }
    simpl. rewrite Ha. reflexivity. }
  rewrite Hread2 in He2. simpl in He2.
  split; [|split].
  - rewrite He2, He1, map_map. apply map_fixed. intros x Hin.
    destruct (Equipment.id x =? equipmentId it) eqn:Hx; simpl; rewrite Hx; [|reflexivity].
    assert (Hq : Equipment.available_quantity x = q).
    { assert (Hf : In x (filter (fun e => Equipment.id e =? equipmentId it)
                                (equipment db))) by (apply filter_In; split; assumption).
      apply (in_map Equipment.available_quantity) in Hf. rewrite Hread in Hf.
      destruct Hf as [<- | []]. reflexivity. }
    replace (q - 1 + 1)%Z with (Equipment.available_quantity x) by lia.
    destruct x; reflexivity.
  - rewrite Hi2, Hi1, map_map. apply map_fixed. intros x Hin.
    destruct (EquipmentItem.id x =? unitId it) eqn:Hx; simpl; rewrite Hx; [|reflexivity].
    apply String.eqb_eq in Hx. rewrite <- (Havail x Hin Hx).
    destruct x; reflexivity.
  - rewrite Ht2, Ht1, <- app_assoc. reflexivity.
Qed.

Lemma checkout_then_checkin_restores_inventory_witness :
  let item := entry (Fixture.unit_ "1" "available") Fixture.canon in
  let s1 := mkScreen checkout confirm [] (Some item) false None true in
  let s2 := mkScreen checkin confirm [] (Some item) false None true in
  let db1 := remote (confirmAndSubmit Fixture.online (Some "studio-1") (Some "user-1")
                       (mkWorld s1 Fixture.store [])) in
  let db2 := remote (confirmAndSubmit Fixture.online (Some "studio-1") (Some "user-2")
                       (mkWorld s2 db1 [])) in
  map Equipment.available_quantity (equipment db1) = [2%Z]
  /\ equipment db2 = equipment Fixture.store
  /\ equipment_items db2 = equipment_items Fixture.store.
Proof.
  cbv zeta. split; [reflexivity|].
  destruct (checkout_then_checkin_restores_inventory Fixture.online Fixture.online
              (Some "studio-1") "user-1" "user-2"
              (mkScreen checkout confirm []
                 (Some (entry (Fixture.unit_ "1" "available") Fixture.canon))
                 false None true)
              (mkScreen checkin confirm []
                 (Some (entry (Fixture.unit_ "1" "available") Fixture.canon))
                 false None true)
              Fixture.store [] []
              (entry (Fixture.unit_ "1" "available") Fixture.canon) 3%Z
              (fun _ => eq_refl) (fun _ => eq_refl) eq_refl eq_refl eq_refl eq_refl)
    as (He & Hi & _).
  - intros u Hin Hid. simpl in Hin.
    destruct Hin as [<- | [<- | [<- | [<- | [<- | []]]]]];
      try reflexivity; discriminate Hid.
  - reflexivity.
  - split; assumption.
Defined.

Lemma studio_check_passes studioId e :
  studio_passes studioId e ->
  (if JS.truthy_opt studioId
   then ret (strict_neq (Equipment.studio_id e) studioId)
   else ret false) = ret false.
Proof.
  intros [Hf | Heq]; [rewrite Hf; reflexivity|].
  destruct (JS.truthy_opt studioId) eqn:Ht; [|reflexivity].
  rewrite Heq. destruct studioId as [s|]; [|discriminate].
  simpl. rewrite String.eqb_refl. reflexivity.
Qed.

(** A unit that passes the studio check, is not in the cart and has a legal
    status is staged. *)
Lemma scan_of_passing_unit P studioId data w u e :
  ready (ui w) ->
  resolves P data (remote w) u e ->
  studio_passes studioId e ->
  existsb (fun c => unitId c =? EquipmentItem.id u) (cart (ui w)) = false ->
  Spec.legal (mode (ui w)) (EquipmentItem.status u) ->
  handleBarCodeScanned P studioId data w = staged (entry u e) w.
Proof.
  intros Hready Hres Hpass Hcart Hlegal.
  unfold handleBarCodeScanned. rewrite (ready_gate _ Hready).
  rewrite (scan_try_resolved P studioId data (ui w) (remote w) u e Hres).
  unfold validate. simpl. rewrite (studio_check_passes studioId e Hpass).
  unfold bind, ret. simpl. rewrite Hcart. simpl.
  all: destruct (mode (ui w)); simpl in *.
  all: try (rewrite Hlegal; reflexivity).
  all: destruct (String.eqb_spec (EquipmentItem.status u) "available");
    [contradiction|reflexivity].
Qed.

(** The same, for a unit whose status is not legal for the mode. *)
Lemma scan_of_illegal_status P studioId data w u e :
  ready (ui w) ->
  resolves P data (remote w) u e ->
  studio_passes studioId e ->
  existsb (fun c => unitId c =? EquipmentItem.id u) (cart (ui w)) = false ->
  handleBarCodeScanned P studioId data w
  = match mode (ui w) with
    | checkout =>
        if EquipmentItem.status u =? "available"
        then staged (entry u e) w else turned_down NotAvailable w
    | checkin =>
        if EquipmentItem.status u =? "available"
        then turned_down NotCheckedOut w else staged (entry u e) w
    end.
Proof.
  intros Hready Hres Hpass Hcart.
  unfold handleBarCodeScanned. rewrite (ready_gate _ Hready).
  rewrite (scan_try_resolved P studioId data (ui w) (remote w) u e Hres).
  unfold validate. simpl. rewrite (studio_check_passes studioId e Hpass).
  unfold bind, ret. simpl. rewrite Hcart. simpl.
  all: destruct (mode (ui w)); simpl;
    destruct (EquipmentItem.status u =? "available"); reflexivity.
Qed.

(** After a served commit the lookup of the same payload resolves to the same
    unit, with the status the commit wrote. *)
Lemma resolves_after_commit P P' studioId uid data db u e db' m :
  resolves P data db u e ->
  all_served P' ->
  commit_try P' studioId m (entry u e) uid db = (Return tt, db') ->
  exists e',
    resolves P data db' (set_status (new_status m) u) e'
    /\ Equipment.studio_id e' = Equipment.studio_id e.
Proof.
  intros (Hnet & Hrows & Hjoin) Hserved Hrun.
  destruct (commit_try_served P' studioId m (entry u e) uid db Hserved)
    as (d & Hrun' & _ & Hi & He & _).
  rewrite Hrun in Hrun'. injection Hrun' as <-.
  assert (Hrows' : filter (matches (resolveUnitId P data) data) (equipment_items db')
                   = [set_status (new_status m) u]).
  { rewrite Hi, filter_map_commute.
    - rewrite Hrows. simpl. rewrite String.eqb_refl. reflexivity.
    - intros x. destruct (EquipmentItem.id x =? unitId (entry u e)); reflexivity. }
  assert (Hfind : forall g : Equipment.t -> Equipment.t,
             (forall x, Equipment.id (g x) = Equipment.id x) ->
             find (fun x => Equipment.id x
                            =? EquipmentItem.equipment_id (set_status (new_status m) u))
                  (map g (equipment db)) = Some (g e)).
  { intros g Hg. rewrite find_map_commute.
    - simpl. rewrite Hjoin. reflexivity.
    - intros x. rewrite Hg. reflexivity. }
  destruct (map Equipment.available_quantity
              (filter (fun x => Equipment.id x =? equipmentId (entry u e)) (equipment db)))
    as [|q [|q' qs]].
  - exists e. split; [|reflexivity]. repeat split; try assumption.
    rewrite He. exact Hjoin.
  - eexists. split.
    + repeat split; try assumption. rewrite He. apply Hfind.
      intros x. destruct (Equipment.id x =? equipmentId (entry u e)); reflexivity.
    + simpl. destruct (Equipment.id e =? Equipment.id e); reflexivity.
  - exists e. split; [|reflexivity]. repeat split; try assumption.
    rewrite He. exact Hjoin.
Qed.

(** X7.  Scanned again right after its commit, a unit is turned down.
    After a served commit of a staged unit and Scan Another, with the mode
    left as it was at the commit, a scan of the same payload is turned down
    by the status check: with NotAvailable after a checkout, with
    NotCheckedOut after a checkin.  The check is made when the code is
    scanned, against the mode of that moment; a mode changed between a scan
    and its submit is not what this is about. *)
Theorem committed_unit_is_turned_down_on_rescan (P P' : Platform)
    (studioId : option string) (uid data : string) (w : World)
    (u : EquipmentItem.t) (e : Equipment.t) :
  resolves P data (remote w) u e ->
  studio_passes studioId e ->
  cart (ui w) = [] ->
  all_served P' ->
  let w1 := confirmAndSubmit P' studioId (Some uid) (staged (entry u e) w) in
  let w2 := resetScanner w1 in
  step (ui w1) = success
  /\ ready (ui w2)
  /\ handleBarCodeScanned P studioId data w2
     = turned_down match mode (ui w) with
                   | checkout => NotAvailable
                   | checkin => NotCheckedOut
                   end w2.
Proof.
  intros Hres Hpass Hcart Hserved w1 w2. subst w2 w1.
  unfold confirmAndSubmit. simpl.
  destruct (commit_try_served P' studioId (mode (ui w)) (entry u e) uid (remote w) Hserved)
    as (db' & Hrun & _).
  rewrite Hrun. simpl.
  split; [reflexivity|]. split; [split; reflexivity|].
  destruct (resolves_after_commit P P' studioId uid data (remote w) u e db' (mode (ui w))
              Hres Hserved Hrun) as (e' & Hres' & Hstudio).
  match goal with |- handleBarCodeScanned _ _ _ ?w2 = _ =>
    rewrite (scan_of_illegal_status P studioId data w2
               (set_status (new_status (mode (ui w))) u) e')
  end.
  - simpl. destruct (mode (ui w)); reflexivity.
  - split; reflexivity.
  - exact Hres'.
  - destruct Hpass as [Hf | Heq]; [left; exact Hf|right; congruence].
  - simpl. rewrite Hcart. reflexivity.
Qed.

Lemma committed_unit_is_turned_down_on_rescan_witness :
  let w := mkWorld initial Fixture.store [] in
  let w1 := confirmAndSubmit Fixture.online (Some "studio-1") (Some "user-1")
              (staged (entry (Fixture.unit_ "1" "available") Fixture.canon) w) in
  handleBarCodeScanned Fixture.online (Some "studio-1") "CAN-001-AB12" (resetScanner w1)
  = turned_down NotAvailable (resetScanner w1).
Proof.
  cbv zeta.
  refine (proj2 (proj2 (committed_unit_is_turned_down_on_rescan Fixture.online
                          Fixture.online (Some "studio-1") "user-1" "CAN-001-AB12"
                          (mkWorld initial Fixture.store [])
                          (Fixture.unit_ "1" "available") Fixture.canon _ _ _ _))).
  - repeat split; reflexivity.
  - right. reflexivity.
  - reflexivity.
  - intro; reflexivity.
Defined.

(** X8.  The two ways through the screen, event by event.  From the
    mounted screen (checkout mode), a scan that resolves to an available
    unit passing the studio check, followed by Skip Photo and Submit, ends
    at the success step with one transaction recorded for that unit and no
    photo; the same scan followed by a captured photo and Submit ends at
    the success step with one transaction whose photo_url is the public URL
    of the uploaded photo. *)
Theorem scan_then_submit_sessions (P Pc P' : Platform) (studioId : option string)
    (uid data uri : string) (db : Store) (al : list Alert)
    (u : EquipmentItem.t) (e : Equipment.t) :
  resolves P data db u e ->
  studio_passes studioId e ->
  EquipmentItem.status u = "available" ->
  all_served P' ->
  uri <> "" ->
  let w0 := mkWorld initial db al in
  let item := mkCartItem (EquipmentItem.id u) (Equipment.id e) (EquipmentItem.code u)
                         (Equipment.name e) (Some uri) in
  let quick := run studioId (Some uid) [(P, Scan data); (P', PressSkipPhoto)] w0 in
  let full := run studioId (Some uid)
                  [(P, Scan data); (Pc, PressTakePhoto (Captured uri)); (P', PressSubmit)]
                  w0 in
  (step (ui quick) = success
   /\ alerts quick = al
   /\ transactions (remote quick)
      = (transactions db ++ [transaction_row studioId checkout (entry u e) uid None])%list)
  /\ (step (ui full) = success
      /\ alerts full = al
      /\ transactions (remote full)
         = (transactions db
              ++ [transaction_row studioId checkout item uid
                    (Some (getPublicUrl P' "transaction-photos"
                                        (photo_path P' studioId item)))])%list).
Proof.
  intros Hres Hpass Hst Hserved Huri w0 item quick full.
  assert (Hscan : dispatch studioId (Some uid) P (Scan data) w0 = staged (entry u e) w0).
  { unfold dispatch. simpl.
    apply scan_of_passing_unit; try assumption; try reflexivity.
    split; reflexivity. }
  split.
  - subst quick. unfold run. simpl fold_left. rewrite Hscan.
    unfold dispatch. simpl. unfold skipPhotoAndSubmit, confirmAndSubmit. simpl.
    destruct (commit_try_served P' studioId checkout (entry u e) uid db Hserved)
      as (db' & Hrun & Ht & _).
    rewrite Hrun. simpl. repeat split. exact Ht.
  - subst full. unfold run. simpl fold_left. rewrite Hscan.
    assert (Hphoto : dispatch studioId (Some uid) Pc (PressTakePhoto (Captured uri))
                              (staged (entry u e) w0)
                     = mkWorld (mkScreen checkout photo [] (Some item) false None true)
                               db al) by reflexivity.
    rewrite Hphoto.
    assert (Hen : enabled PressSubmit
                    (mkScreen checkout photo [] (Some item) false None true) = true).
    { unfold enabled, is_step, has_photo. simpl.
      rewrite (truthy_nonempty _ Huri). reflexivity. }
    unfold dispatch. simpl ui. rewrite Hen. simpl handle.
    unfold confirmAndSubmit. simpl.
    destruct (commit_try_served P' studioId checkout item uid db Hserved)
      as (db' & Hrun & Ht & _).
    rewrite Hrun. simpl. repeat split.
    rewrite Ht. unfold recorded_photo_url. simpl. rewrite (truthy_nonempty _ Huri).
    reflexivity.
Qed.

Lemma scan_then_submit_sessions_witness :
  let w0 := mkWorld initial Fixture.store [] in
  let full := run (Some "studio-1") (Some "user-1")
                  [(Fixture.online, Scan "CAN-001-AB12");
                   (Fixture.online, PressTakePhoto (Captured "file:///cache/p.jpg"));
                   (Fixture.online, PressSubmit)] w0 in
  step (ui full) = success
  /\ map Transaction.photo_url (transactions (remote full))
     = [Some (Fixture.public_url "transaction-photos"
                                 "studio-1/unit-1/1767948290000.jpg")].
Proof.
  cbv zeta.
  destruct (scan_then_submit_sessions Fixture.online Fixture.online Fixture.online
              (Some "studio-1") "user-1" "CAN-001-AB12" "file:///cache/p.jpg"
              Fixture.store [] (Fixture.unit_ "1" "available") Fixture.canon)
    as (_ & Hstep & _ & Ht).
  - repeat split; reflexivity.
  - right. reflexivity.
  - reflexivity.
  - intro; reflexivity.
  - discriminate.
  - split; [exact Hstep|]. rewrite Ht. reflexivity.
Defined.

(** X9.  A commit that a rejected promise aborts at the insert can simply
    be submitted again.  The aborted attempt alerts the error, keeps the
    step, the mode and the staged item, and writes no record; a second
    attempt whose requests are served then reaches the success step with
    exactly one transaction recorded. *)
Theorem aborted_commit_can_be_retried (P1 P2 : Platform) (studioId : option string)
    (uid m : string) (w : World) (it : CartItem) :
  currentItem (ui w) = Some it ->
  network P1 (TableInsert "transactions") = Rejects m ->
  all_served P2 ->
  let w1 := confirmAndSubmit P1 studioId (Some uid) w in
  let w2 := confirmAndSubmit P2 studioId (Some uid) w1 in
  (step (ui w1) = step (ui w)
   /\ mode (ui w1) = mode (ui w)
   /\ currentItem (ui w1) = Some it
   /\ processing (ui w1) = false
   /\ (exists msg, alerts w1 = (alerts w ++ [("Error", msg)])%list)
   /\ same_records (remote w1) (remote w))
  /\ (step (ui w2) = success
      /\ alerts w2 = alerts w1
      /\ transactions (remote w2)
         = (transactions (remote w)
              ++ [transaction_row studioId (mode (ui w)) it uid
                                  (recorded_photo_url P2 studioId it)])%list).
Proof.
  intros Hcur Hnet Hserved w1 w2.
  assert (H1 : exists msg db1,
             w1 = mkWorld (setProcessing false (setProcessing true (ui w))) db1
                          (alerts w ++ [("Error", msg)])
             /\ same_records db1 (remote w)).
  { subst w1. unfold confirmAndSubmit. rewrite Hcur.
    unfold commit_try, bind.
    pose proof (upload_photo_keeps_records P1 studioId it (remote w)) as Hrec.
    destruct (upload_photo P1 studioId it (remote w)) as [[purl|x] db1]; simpl in *.
    - unfold insert_transaction, await. rewrite Hnet. simpl.
      eexists. eexists. split; [reflexivity|exact Hrec].
    - eexists. eexists. split; [reflexivity|exact Hrec]. }
  destruct H1 as (msg & db1 & Hw1 & Hrec).
  split.
  - rewrite Hw1. simpl. repeat split; try assumption; try apply Hrec.
    exists msg. reflexivity.
  - subst w2. rewrite Hw1. unfold confirmAndSubmit. simpl. rewrite Hcur.
    destruct (commit_try_served P2 studioId (mode (ui w)) it uid db1 Hserved)
      as (db2 & Hrun & Ht & _).
    rewrite Hrun. simpl. repeat split.
    rewrite Ht. destruct Hrec as (_ & _ & -> & _). reflexivity.
Qed.

Lemma aborted_commit_can_be_retried_witness :
  let down := Fixture.platform (fun rq =>
                match rq with
                | TableInsert _ => Rejects "Network request failed"
                | _ => Served
                end) in
  let w := staged (entry (Fixture.unit_ "1" "available") Fixture.canon)
                  (mkWorld initial Fixture.store []) in
  let w1 := confirmAndSubmit down (Some "studio-1") (Some "user-1") w in
  let w2 := confirmAndSubmit Fixture.online (Some "studio-1") (Some "user-1") w1 in
  step (ui w1) = confirm
  /\ step (ui w2) = success
  /\ length (transactions (remote w2)) = 1%nat.
Proof.
  cbv zeta.
  destruct (aborted_commit_can_be_retried
              (Fixture.platform (fun rq =>
                 match rq with
                 | TableInsert _ => Rejects "Network request failed"
                 | _ => Served
                 end))
              Fixture.online (Some "studio-1") "user-1" "Network request failed"
              (staged (entry (Fixture.unit_ "1" "available") Fixture.canon)
                      (mkWorld initial Fixture.store []))
              (entry (Fixture.unit_ "1" "available") Fixture.canon)
              eq_refl eq_refl (fun _ => eq_refl))
    as ((Hs1 & _) & Hs2 & _ & Ht).
  split; [exact Hs1|]. split; [exact Hs2|]. rewrite Ht. reflexivity.
Defined.

End MoreCommitTheorems.

(** ** Further properties of the registration screen *)

Section MoreRegistrationTheorems.
Import AddEquipment.

Lemma trimStart_blank s : blank s = true -> JS.trimStart s = "".
Proof.
  induction s as [|c s IH]; simpl; [reflexivity|].
  intros H. apply andb_true_iff in H. destruct H as [Hc Hs].
  rewrite Hc. apply IH. exact Hs.
Qed.

Lemma trimStart_head s :
  JS.trimStart s = ""
  \/ exists c rest, JS.trimStart s = String c rest /\ JS.is_space c = false.
Proof.
  induction s as [|c s IH]; simpl; [left; reflexivity|].
  destruct (JS.is_space c) eqn:Hc; [exact IH|].
  right. exists c, s. split; [reflexivity|exact Hc].
Qed.

Lemma trimStart_empty_blank s : JS.trimStart s = "" -> blank s = true.
Proof.
  induction s as [|c s IH]; simpl; [reflexivity|].
  destruct (JS.is_space c); [exact IH|discriminate].
Qed.

Lemma blank_of_list l :
  blank (string_of_list_ascii l) = forallb JS.is_space l.
Proof. induction l as [|c l IH]; simpl; [reflexivity|]. rewrite IH. reflexivity. Qed.

Lemma blank_reverse s : blank (JS.reverse s) = blank s.
Proof.
  unfold JS.reverse. rewrite blank_of_list.
  rewrite <- (string_of_list_ascii_of_string s) at 2. rewrite blank_of_list.
  generalize (list_ascii_of_string s). intros l.
  induction l as [|c l IH]; simpl; [reflexivity|].
  rewrite forallb_app, IH. simpl. rewrite andb_true_r. apply andb_comm.
Qed.

Lemma reverse_empty s : JS.reverse s = "" -> s = "".
Proof.
  unfold JS.reverse. intros H.
  rewrite <- (string_of_list_ascii_of_string s).
  destruct (list_ascii_of_string s) as [|c l]; [reflexivity|].
  simpl in H. destruct (rev l) as [|d r]; simpl in H; discriminate.
Qed.

(** [trim] yields the empty string exactly on blank strings. *)
Lemma trim_empty_iff s : JS.trim s = "" <-> blank s = true.
Proof.
  unfold JS.trim. split.
  - intros H. apply reverse_empty in H. apply trimStart_empty_blank in H.
    rewrite blank_reverse in H.
    destruct (trimStart_head s) as [He | (c & rest & He & Hc)].
    + apply trimStart_empty_blank. exact He.
    + rewrite He in H. simpl in H. rewrite Hc in H. discriminate.
  - intros H. rewrite (trimStart_blank s H). reflexivity.
Qed.

(** X10.  [handleSubmit] validates before it asks for anything.  A name
    that is empty or made of whitespace only is answered with the alert
    asking for a name; a non-blank name without a photo with the alert
    asking for a photo.  In both cases the screen and the store are left
    as they were. *)
Theorem submit_validates_before_any_request (P : Platform) (studioId : option string)
    (w : World) :
  (blank (Form.name (form (ui w))) = true ->
   handleSubmit P studioId w
   = mkWorld (ui w) (remote w)
             (alerts w ++ [("Error", "Please enter equipment name")]))
  /\ (blank (Form.name (form (ui w))) = false ->
      JS.truthy_opt (photoUri (ui w)) = false ->
      handleSubmit P studioId w
      = mkWorld (ui w) (remote w) (alerts w ++ [("Error", "Please add a photo")])).
Proof.
  split.
  - intros Hblank. unfold handleSubmit.
    rewrite (proj2 (trim_empty_iff _) Hblank). reflexivity.
  - intros Hname Hphoto. unfold handleSubmit.
    assert (Ht : JS.truthy (JS.trim (Form.name (form (ui w)))) = true).
    { apply truthy_nonempty. intros He. apply trim_empty_iff in He.
      rewrite He in Hname. discriminate. }
    rewrite Ht. simpl.
    destruct (photoUri (ui w)) as [uri|]; [|reflexivity].
    simpl in Hphoto. rewrite Hphoto. reflexivity.
Qed.

(** What [submit_try] can have written, however its requests fare. *)
Lemma submit_try_effect P studioId f uri db :
  (equipment (snd (submit_try P studioId f uri db)) = equipment db
   \/ exists e,
        equipment (snd (submit_try P studioId f uri db)) = (equipment db ++ [e])%list
        /\ Equipment.id e = new_id P (serial db)
        /\ Equipment.total_quantity e = JS.parseInt_or_1 (Form.quantity f)
        /\ Equipment.available_quantity e = JS.parseInt_or_1 (Form.quantity f))
  /\ (equipment_items (snd (submit_try P studioId f uri db)) = equipment_items db
      \/ exists units,
           equipment_items (snd (submit_try P studioId f uri db))
           = (equipment_items db ++ units)%list
           /\ Forall (fun u => EquipmentItem.status u = "available"
                               /\ EquipmentItem.equipment_id u = new_id P (serial db))
                     units).
Proof.
  unfold submit_try, bind, fetch_blob, upload, insert_equipment, insert_items,
    array_from_length, await, throw, ret.
  destruct (network P (FetchFile uri)); simpl; try (split; left; reflexivity).
  destruct (network P (StorageUpload "equipment-photos")); simpl;
    try (split; left; reflexivity).
  destruct (existsb _ (objects db)); simpl; try (split; left; reflexivity).
  destruct (network P (TableInsert "equipment")); simpl;
    try (split; left; reflexivity).
  destruct (JS.max_array_length <? JS.parseInt_or_1 (Form.quantity f))%Z; simpl.
  - split; [right; eexists; repeat split|left; reflexivity].
  - destruct (network P (TableInsert "equipment_items")); simpl.
    + split; [right; eexists; repeat split|].
      right. eexists. split; [reflexivity|].
      apply assign_ids_available.
      apply Forall_forall. intros r Hr. apply in_map_iff in Hr.
      destruct Hr as (i & <- & _). split; reflexivity.
    + split; [right; eexists; repeat split|left; reflexivity].
    + split; [right; eexists; repeat split|left; reflexivity].
Qed.

(** X11.  Creating equipment keeps the data-model invariant however the
    requests fare (served, refused or rejected, each on its own): if the
    quantity field parses to a positive number, no unit refers to the id
    the store is about to assign, and every equipment row is consistent
    before [handleSubmit], then every row is consistent after it. *)
Theorem submit_keeps_consistency_under_failures (P : Platform)
    (studioId : option string) (w : World) :
  (0 < JS.parseInt_or_1 (Form.quantity (form (ui w))))%Z ->
  (forall u, In u (equipment_items (remote w)) ->
             EquipmentItem.equipment_id u <> new_id P (serial (remote w))) ->
  Spec.consistent (remote w) ->
  Spec.consistent (remote (handleSubmit P studioId w)).
Proof.
  intros Hpos Hfresh Hcons. unfold handleSubmit.
  destruct (negb (JS.truthy (JS.trim (Form.name (form (ui w)))))); [exact Hcons|].
  destruct (photoUri (ui w)) as [uri|]; [|exact Hcons].
  destruct (JS.truthy uri); [|exact Hcons].
  pose proof (submit_try_effect P studioId (form (ui w)) uri (remote w)) as [He Hi].
  destruct (submit_try P studioId (form (ui w)) uri (remote w)) as [r db'].
  simpl in He, Hi.
  assert (Hdb : remote (match r with
                        | Return q =>
                            mkWorld (setLoading false (setLoading true (ui w))) db'
                              (alerts w ++ [("Success",
                                 "Created " ++ Form.name (form (ui w)) ++ " with "
                                   ++ JS.int_toString q ++ " trackable unit"
                                   ++ plural q ++ "!")])
                        | Throw e =>
                            mkWorld (setLoading false (setLoading true (ui w))) db'
                                    (alerts w ++ [("Error", message_of e)])
                        end) = db') by (destruct r; reflexivity).
  rewrite Hdb.
  assert (Hcount : forall x, Spec.checked_out_units db' x
                             = Spec.checked_out_units (remote w) x).
  { intros x. destruct Hi as [Hi | (units & Hi & Hall)].
    - apply checked_out_units_only_items. exact Hi.
    - exact (checked_out_units_unchanged _ _ _ _ x Hi Hall). }
  intros e' Hin.
  destruct He as [He | (e & He & Hid & Ht & Ha)]; rewrite He in Hin.
  - destruct (Hcons e' Hin) as [Hc Hb]. split; [rewrite Hcount; exact Hc|exact Hb].
  - apply in_app_or in Hin. destruct Hin as [Hold | [<- | []]].
    + destruct (Hcons e' Hold) as [Hc Hb]. split; [rewrite Hcount; exact Hc|exact Hb].
    + split; [|lia].
      rewrite Hcount, Hid, (checked_out_units_unreferenced _ _ Hfresh). lia.
Qed.

Lemma submit_validates_before_any_request_witness :
  let w := mkWorld (mkScreen false (Some "file:///cache/sony.jpg") [] false None
                             (Form.mk (String "160" (String "009" " ")) "Camera" "3" "" ""))
                   Fixture.store [] in
  remote (handleSubmit Fixture.online (Some "studio-1") w) = Fixture.store
  /\ alerts (handleSubmit Fixture.online (Some "studio-1") w)
     = [("Error", "Please enter equipment name")].
Proof.
  cbv zeta.
  rewrite (proj1 (submit_validates_before_any_request Fixture.online (Some "studio-1")
                    (mkWorld (mkScreen false (Some "file:///cache/sony.jpg") [] false None
                                       (Form.mk (String "160" (String "009" " ")) "Camera" "3" "" ""))
                             Fixture.store [])) eq_refl).
  split; reflexivity.
Defined.

Lemma fixture_units_not_fresh :
  forall u, In u (equipment_items Fixture.store) ->
            EquipmentItem.equipment_id u <> "id-6".
Proof.
  intros u Hin. simpl in Hin.
  repeat (destruct Hin as [<- | Hin]; [discriminate|]). contradiction.
Defined.

Lemma submit_keeps_consistency_under_failures_witness :
  let flaky := Fixture.platform (fun rq =>
                 match rq with
                 | TableInsert t =>
                     if t =? "equipment_items"
                     then Refused "permission denied" else Served
                 | _ => Served
                 end) in
  let w := mkWorld (mkScreen false (Some "file:///cache/sony.jpg") [] false None
                             (Form.mk "Sony A7" "Camera" "3" "" ""))
                   Fixture.store [] in
  Spec.consistent (remote (handleSubmit flaky (Some "studio-1") w)).
Proof.
  cbv zeta.
  refine (submit_keeps_consistency_under_failures _ (Some "studio-1")
            (mkWorld (mkScreen false (Some "file:///cache/sony.jpg") [] false None
                               (Form.mk "Sony A7" "Camera" "3" "" ""))
                     Fixture.store []) _ _ fixture_store_consistent).
  - reflexivity.
  - exact fixture_units_not_fresh.
Defined.

(** What [merge_try] can have written, however its requests fare. *)
Lemma merge_try_effect P studioId f t db :
  (equipment (snd (merge_try P studioId f t db)) = equipment db
   \/ equipment (snd (merge_try P studioId f t db))
      = map (fun e => if Equipment.id e =? SimilarEquipment.id t
                      then set_quantities
                             (SimilarEquipment.total_quantity t
                                + JS.parseInt_or_1 (Form.quantity f))
                             (SimilarEquipment.available_quantity t
                                + JS.parseInt_or_1 (Form.quantity f)) e
                      else e)
            (equipment db))
  /\ (equipment_items (snd (merge_try P studioId f t db)) = equipment_items db
      \/ exists units,
           equipment_items (snd (merge_try P studioId f t db))
           = (equipment_items db ++ units)%list
           /\ Forall (fun u => EquipmentItem.status u = "available"
                               /\ EquipmentItem.equipment_id u = SimilarEquipment.id t)
                     units).
Proof.
  unfold merge_try, bind, insert_items, update_quantities, array_from_length, await,
    throw, ret.
  destruct (JS.max_array_length <? JS.parseInt_or_1 (Form.quantity f))%Z; simpl;
    [split; left; reflexivity|].
  assert (Hunits :
            Forall (fun u => EquipmentItem.status u = "available"
                             /\ EquipmentItem.equipment_id u = SimilarEquipment.id t)
                   (assign_ids P (serial db)
                      (map (fun i =>
                              mkNewItem (SimilarEquipment.id t) studioId
                                (unit_code P (code_base f (SimilarEquipment.name t))
                                   (SimilarEquipment.total_quantity t + Z.of_nat i + 1) i)
                                "qr" "available")
                           (seq 0 (Z.to_nat (JS.parseInt_or_1 (Form.quantity f))))))).
  { apply assign_ids_available.
    apply Forall_forall. intros r Hr. apply in_map_iff in Hr.
    destruct Hr as (i & <- & _). split; reflexivity. }
  destruct (network P (TableInsert "equipment_items")); simpl;
    destruct (network P (TableUpdate "equipment")); simpl.
  all: split; [first [left; reflexivity | right; reflexivity]|].
  all: first [left; reflexivity | right; eexists; split; [reflexivity|exact Hunits]].
Qed.

(** X12.  Merging units into existing equipment keeps the data-model
    invariant however the requests fare: if the quantity field parses to a
    positive number, the selected target carries the quantities of the
    stored row, and every equipment row is consistent before
    [handleMergeConfirm], then every row is consistent after it. *)
Theorem merge_keeps_consistency_under_failures (P : Platform)
    (studioId : option string) (w : World) (t : SimilarEquipment.t) :
  selectedMergeTarget (ui w) = Some t ->
  (0 < JS.parseInt_or_1 (Form.quantity (form (ui w))))%Z ->
  (forall e, In e (equipment (remote w)) -> Equipment.id e = SimilarEquipment.id t ->
             Equipment.total_quantity e = SimilarEquipment.total_quantity t
             /\ Equipment.available_quantity e = SimilarEquipment.available_quantity t) ->
  Spec.consistent (remote w) ->
  Spec.consistent (remote (handleMergeConfirm P studioId w)).
Proof.
  intros Htarget Hpos Hsnap Hcons. unfold handleMergeConfirm. rewrite Htarget.
  pose proof (merge_try_effect P studioId (form (ui w)) t (remote w)) as [He Hi].
  destruct (merge_try P studioId (form (ui w)) t (remote w)) as [r db'].
  simpl in He, Hi.
  destruct r as [q|x]; simpl.
  all: assert (Hcount : forall x, Spec.checked_out_units db' x
                                  = Spec.checked_out_units (remote w) x)
    by (intros y; destruct Hi as [Hi | (units & Hi & Hall)];
        [apply checked_out_units_only_items; exact Hi
        |exact (checked_out_units_unchanged _ _ _ _ y Hi Hall)]).
  all: intros e' Hin.
  all: destruct He as [He | He]; rewrite He in Hin.
  all: try (destruct (Hcons e' Hin) as [Hc Hb];
            split; [rewrite Hcount; exact Hc|exact Hb]).
  all: apply in_map_iff in Hin; destruct Hin as (e0 & <- & Hin0).
  all: destruct (Hcons e0 Hin0) as [Hc [Hlo Hhi]].
  all: destruct (String.eqb_spec (Equipment.id e0) (SimilarEquipment.id t)) as [Heq|Hne];
    [destruct (Hsnap e0 Hin0 Heq) as [HT HA];
     unfold Spec.consistent_row; simpl; rewrite Hcount, Hc; lia
    |split; [rewrite Hcount; exact Hc|split; assumption]].
Qed.

Lemma merge_keeps_consistency_under_failures_witness :
  let flaky := Fixture.platform (fun rq =>
                 match rq with
                 | TableInsert _ => Refused "permission denied"
                 | _ => Served
                 end) in
  let target := SimilarEquipment.mk "equip-1" "Canon R6" "Camera" 5 3 None in
  let w := mkWorld (mkScreen false None [target] true (Some target)
                             (Form.mk "Canon" "Camera" "2" "" ""))
                   Fixture.store [] in
  Spec.consistent (remote (handleMergeConfirm flaky (Some "studio-1") w)).
Proof.
  cbv zeta.
  refine (merge_keeps_consistency_under_failures _ (Some "studio-1")
            (mkWorld (mkScreen false None
                        [SimilarEquipment.mk "equip-1" "Canon R6" "Camera" 5 3 None] true
                        (Some (SimilarEquipment.mk "equip-1" "Canon R6" "Camera" 5 3 None))
                        (Form.mk "Canon" "Camera" "2" "" ""))
                     Fixture.store [])
            (SimilarEquipment.mk "equip-1" "Canon R6" "Camera" 5 3 None)
            eq_refl _ _ fixture_store_consistent).
  - reflexivity.
  - intros e [<- | []] _. split; reflexivity.
Defined.

(** *** The codes of the units of one batch *)

Lemma int_toString_pos p :
  JS.int_toString (Zpos p) = NilEmpty.string_of_uint (Pos.to_uint p).
Proof.
  unfold JS.int_toString. simpl. unfold NilZero.string_of_uint.
  pose proof (DecimalPos.Unsigned.to_uint_nonnil p) as Hnil.
  destruct (Pos.to_uint p); [contradiction|reflexivity..].
Qed.

Lemma uint_of_string_zeros k s :
  NilEmpty.uint_of_string (JS.repeat0 k ++ s)
  = option_map (Nat.iter k Decimal.D0) (NilEmpty.uint_of_string s).
Proof.
  induction k as [|k IH]; simpl.
  - destruct (NilEmpty.uint_of_string s); reflexivity.
  - rewrite IH. destruct (NilEmpty.uint_of_string s); reflexivity.
Qed.

Lemma of_uint_zeros k d : Pos.of_uint (Nat.iter k Decimal.D0 d) = Pos.of_uint d.
Proof. induction k as [|k IH]; simpl; [reflexivity|exact IH]. Qed.

(** Reading back the padded decimal rendering of a positive number. *)
Lemma padded_number_reads_back w p :
  option_map Pos.of_uint
             (NilEmpty.uint_of_string (JS.padStart0 w (JS.int_toString (Zpos p))))
  = Some (Npos p).
Proof.
  unfold JS.padStart0. rewrite uint_of_string_zeros, int_toString_pos, NilEmpty.usu.
  simpl. rewrite of_uint_zeros, DecimalPos.Unsigned.of_to. reflexivity.
Qed.

Lemma uint_of_string_tail c s :
  NilEmpty.uint_of_string (String c s) <> None -> NilEmpty.uint_of_string s <> None.
Proof.
  simpl. destruct (NilEmpty.uint_of_string s); [discriminate|].
  intros H _. apply H. reflexivity.
Qed.

(** Two digit strings followed by a dash: the digits are determined. *)
Lemma digits_before_dash a :
  forall b ra rb,
    NilEmpty.uint_of_string a <> None ->
    NilEmpty.uint_of_string b <> None ->
    a ++ String "-" ra = b ++ String "-" rb ->
    a = b.
Proof.
  induction a as [|c a IH]; intros [|c' b] ra rb Ha Hb Heq; simpl in Heq.
  - reflexivity.
  - injection Heq as Hc _. subst c'. exfalso. apply Hb.
    simpl. destruct (NilEmpty.uint_of_string b); reflexivity.
  - injection Heq as Hc _. subst c. exfalso. apply Ha.
    simpl. destruct (NilEmpty.uint_of_string a); reflexivity.
  - injection Heq as Hc Hrest. subst c'. f_equal.
    apply (IH b ra rb); [eapply uint_of_string_tail; exact Ha
                        |eapply uint_of_string_tail; exact Hb|exact Hrest].
Qed.

Lemma append_cancel_l (a x y : string) : a ++ x = a ++ y -> x = y.
Proof.
  induction a as [|c a IH]; simpl; intros H; [exact H|].
  injection H as H. apply IH. exact H.
Qed.

(** Codes built on the same base with different positive numbers differ,
    whatever the random suffixes. *)
Lemma unit_code_number P base (a b : Z) (i j : nat) :
  (0 < a)%Z -> (0 < b)%Z ->
  unit_code P base a i = unit_code P base b j -> a = b.
Proof.
  intros Ha Hb Heq. unfold unit_code in Heq.
  apply append_cancel_l in Heq. simpl in Heq. injection Heq as Heq.
  destruct a as [|pa|pa]; try lia. destruct b as [|pb|pb]; try lia.
  pose proof (padded_number_reads_back 3 pa) as Ra.
  pose proof (padded_number_reads_back 3 pb) as Rb.
  assert (Hpad : JS.padStart0 3 (JS.int_toString (Zpos pa))
                 = JS.padStart0 3 (JS.int_toString (Zpos pb))).
  { eapply digits_before_dash; [| |exact Heq].
    - intros Hn. rewrite Hn in Ra. discriminate.
    - intros Hn. rewrite Hn in Rb. discriminate. }
  rewrite Hpad in Ra. rewrite Ra in Rb. injection Rb as ->. reflexivity.
Qed.

Lemma NoDup_map_injective {A B} (f : A -> B) (l : list A) :
  (forall x y, In x l -> In y l -> f x = f y -> x = y) ->
  NoDup l -> NoDup (map f l).
Proof.
  intros Hinj Hnd. induction Hnd as [|a l Hnotin Hnd IH]; simpl; constructor.
  - intros Hin. apply in_map_iff in Hin. destruct Hin as (y & Hy & Hiny).
    apply Hnotin. rewrite (Hinj a y); [exact Hiny|left; reflexivity|right; exact Hiny|].
    symmetry. exact Hy.
  - apply IH. intros x y Hx Hy. apply Hinj; right; assumption.
Qed.

Lemma batch_codes_distinct P base (start : Z) (n : nat) :
  (0 <= start)%Z ->
  NoDup (map (fun i => unit_code P base (start + Z.of_nat i + 1) i) (seq 0 n)).
Proof.
  intros Hstart. apply NoDup_map_injective; [|apply seq_NoDup].
  intros x y _ _ Heq. apply unit_code_number in Heq; lia.
Qed.

Lemma assign_ids_codes P rows :
  forall n, map EquipmentItem.code (assign_ids P n rows) = map row_code rows.
Proof.
  induction rows as [|r rows IH]; intros n; simpl; [reflexivity|].
  rewrite IH. reflexivity.
Qed.

(** X13.  The units of one batch get pairwise distinct codes, whatever the
    random suffixes are and whatever the name or SKU: with every request
    served, the units [handleSubmit] creates for a name that [trim] does not
    empty, and the units [handleMergeConfirm] adds to a target whose
    total_quantity is not negative and stays, with the quantity added,
    within the integers a Number holds exactly, number as many as the
    quantity field says and carry codes that differ from one another. *)
Theorem new_units_have_distinct_codes (P : Platform) (studioId : option string)
    (w : World) :
  all_served P ->
  (JS.parseInt_or_1 (Form.quantity (form (ui w))) <= JS.max_array_length)%Z ->
  (forall uri,
      blank (Form.name (form (ui w))) = false ->
      photoUri (ui w) = Some uri ->
      uri <> "" ->
      existsb (fun o => (bucket o =? "equipment-photos")
                          && (path o =? photo_path P studioId))
              (objects (remote w)) = false ->
      exists units,
        equipment_items (remote (handleSubmit P studioId w))
        = (equipment_items (remote w) ++ units)%list
        /\ length units = Z.to_nat (JS.parseInt_or_1 (Form.quantity (form (ui w))))
        /\ NoDup (map EquipmentItem.code units))
  /\ (forall t,
      selectedMergeTarget (ui w) = Some t ->
      (0 <= SimilarEquipment.total_quantity t)%Z ->
      (SimilarEquipment.total_quantity t
         + JS.parseInt_or_1 (Form.quantity (form (ui w))) <= JS.max_safe_integer)%Z ->
      exists units,
        equipment_items (remote (handleMergeConfirm P studioId w))
        = (equipment_items (remote w) ++ units)%list
        /\ length units = Z.to_nat (JS.parseInt_or_1 (Form.quantity (form (ui w))))
        /\ NoDup (map EquipmentItem.code units)).
Proof.
  intros Hnet Hmax. split.
  - intros uri Hname Hphoto Huri Hfree.
    unfold handleSubmit.
    assert (Ht : JS.truthy (JS.trim (Form.name (form (ui w)))) = true).
    { apply truthy_nonempty. intros He. apply trim_empty_iff in He.
      rewrite He in Hname. discriminate. }
    rewrite Ht, Hphoto, (truthy_nonempty _ Huri). simpl.
    unfold submit_try, bind, fetch_blob, upload, insert_equipment, insert_items, await.
    rewrite !Hnet. rewrite Hfree. simpl.
    rewrite array_from_length_in_range by assumption.
    rewrite ?Hnet. simpl.
    eexists. split; [reflexivity|]. split.
    + rewrite assign_ids_length, length_map, length_seq. reflexivity.
    + rewrite assign_ids_codes, map_map. simpl.
      exact (batch_codes_distinct P _ 0 _ (Z.le_refl 0)).
  - intros t Htarget Htotal _.
    unfold handleMergeConfirm. rewrite Htarget.
    unfold merge_try, bind, insert_items, update_quantities, await.
    rewrite array_from_length_in_range by assumption.
    rewrite ?Hnet. simpl.
    eexists. split; [reflexivity|]. split.
    + rewrite assign_ids_length, length_map, length_seq. reflexivity.
    + rewrite assign_ids_codes, map_map. simpl.
      exact (batch_codes_distinct P _ _ _ Htotal).
Qed.

Lemma new_units_have_distinct_codes_witness :
  let target := SimilarEquipment.mk "equip-1" "Canon R6" "Camera" 5 3 None in
  let w := mkWorld (mkScreen false (Some "file:///cache/sony.jpg") [] true (Some target)
                             (Form.mk "Sony A7" "Camera" "3" "" ""))
                   Fixture.store [] in
  (exists units,
      equipment_items (remote (handleSubmit Fixture.online (Some "studio-1") w))
      = (equipment_items Fixture.store ++ units)%list
      /\ length units = 3%nat
      /\ NoDup (map EquipmentItem.code units))
  /\ (exists units,
        equipment_items (remote (handleMergeConfirm Fixture.online (Some "studio-1") w))
        = (equipment_items Fixture.store ++ units)%list
        /\ length units = 3%nat
        /\ NoDup (map EquipmentItem.code units)).
Proof.
  cbv zeta.
  destruct (new_units_have_distinct_codes Fixture.online (Some "studio-1")
              (mkWorld (mkScreen false (Some "file:///cache/sony.jpg") [] true
                          (Some (SimilarEquipment.mk "equip-1" "Canon R6" "Camera" 5 3 None))
                          (Form.mk "Sony A7" "Camera" "3" "" ""))
                       Fixture.store [])
              (fun _ => eq_refl)) as [Hcreate Hmerge].
  - discriminate.
  - split.
    + destruct (Hcreate "file:///cache/sony.jpg") as (units & Hi & Hl & Hnd).
      * reflexivity.
      * reflexivity.
      * discriminate.
      * reflexivity.
      * exists units. split; [exact Hi|]. split; [exact Hl|exact Hnd].
    + destruct (Hmerge (SimilarEquipment.mk "equip-1" "Canon R6" "Camera" 5 3 None))
        as (units & Hi & Hl & Hnd).
      * reflexivity.
      * discriminate.
      * discriminate.
      * exists units. split; [exact Hi|]. split; [exact Hl|exact Hnd].
Defined.

(** X14.  Neither registration handler reads the result of the insert of
    the units.  When that insert is refused and every other request is
    served, [handleSubmit] still stores the equipment row with both
    quantities at the number asked for and alerts Success, and
    [handleMergeConfirm] still raises the target's quantities and alerts
    Merged Successfully, while no unit has been created. *)
Theorem refused_unit_insert_goes_unnoticed (P : Platform) (studioId : option string)
    (w : World) (m : string) :
  network P (TableInsert "equipment_items") = Refused m ->
  (forall rq, rq <> TableInsert "equipment_items" -> network P rq = Served) ->
  (JS.parseInt_or_1 (Form.quantity (form (ui w))) <= JS.max_array_length)%Z ->
  (forall uri,
      blank (Form.name (form (ui w))) = false ->
      photoUri (ui w) = Some uri ->
      uri <> "" ->
      existsb (fun o => (bucket o =? "equipment-photos")
                          && (path o =? photo_path P studioId))
              (objects (remote w)) = false ->
      let w' := handleSubmit P studioId w in
      equipment_items (remote w') = equipment_items (remote w)
      /\ (exists e,
             equipment (remote w') = (equipment (remote w) ++ [e])%list
             /\ Equipment.total_quantity e = JS.parseInt_or_1 (Form.quantity (form (ui w)))
             /\ Equipment.available_quantity e
                = JS.parseInt_or_1 (Form.quantity (form (ui w))))
      /\ (exists text, alerts w' = (alerts w ++ [("Success", text)])%list))
  /\ (forall t,
      selectedMergeTarget (ui w) = Some t ->
      let w' := handleMergeConfirm P studioId w in
      equipment_items (remote w') = equipment_items (remote w)
      /\ equipment (remote w')
         = map (fun e =>
                  if Equipment.id e =? SimilarEquipment.id t
                  then set_quantities
                         (SimilarEquipment.total_quantity t
                            + JS.parseInt_or_1 (Form.quantity (form (ui w))))
                         (SimilarEquipment.available_quantity t
                            + JS.parseInt_or_1 (Form.quantity (form (ui w)))) e
                  else e)
               (equipment (remote w))
      /\ (exists text,
             alerts w' = (alerts w ++ [("Merged Successfully", text)])%list)).
Proof.
  intros Hrefused Hothers Hmax. split.
  - intros uri Hname Hphoto Huri Hfree w'. subst w'.
    unfold handleSubmit.
    assert (Ht : JS.truthy (JS.trim (Form.name (form (ui w)))) = true).
    { apply truthy_nonempty. intros He. apply trim_empty_iff in He.
      rewrite He in Hname. discriminate. }
    rewrite Ht, Hphoto, (truthy_nonempty _ Huri). simpl.
    unfold submit_try, bind, fetch_blob, upload, insert_equipment, insert_items, await.
    rewrite (Hothers (FetchFile uri)) by discriminate.
    rewrite (Hothers (StorageUpload "equipment-photos")) by discriminate.
    rewrite Hfree. simpl.
    rewrite (Hothers (TableInsert "equipment")) by discriminate. simpl.
    rewrite array_from_length_in_range by assumption.
    rewrite Hrefused. simpl.
    split; [reflexivity|]. split; eexists; repeat split.
  - intros t Htarget w'. subst w'.
    unfold handleMergeConfirm. rewrite Htarget.
    unfold merge_try, bind, insert_items, update_quantities, await.
    rewrite array_from_length_in_range by assumption.
    rewrite Hrefused. simpl.
    rewrite (Hothers (TableUpdate "equipment")) by discriminate. simpl.
    split; [reflexivity|]. split; [reflexivity|]. eexists. reflexivity.
Qed.

Lemma refused_unit_insert_goes_unnoticed_witness :
  let flaky := Fixture.platform (fun rq =>
                 match rq with
                 | TableInsert t =>
                     if t =? "equipment_items"
                     then Refused "permission denied" else Served
                 | _ => Served
                 end) in
  let w := mkWorld (mkScreen false (Some "file:///cache/sony.jpg") [] false None
                             (Form.mk "Sony A7" "Camera" "3" "" ""))
                   Fixture.store [] in
  equipment_items (remote (handleSubmit flaky (Some "studio-1") w))
  = equipment_items Fixture.store
  /\ exists text,
       alerts (handleSubmit flaky (Some "studio-1") w) = [("Success", text)].
Proof.
  cbv zeta.
  destruct (refused_unit_insert_goes_unnoticed
              (Fixture.platform (fun rq =>
                 match rq with
                 | TableInsert t =>
                     if t =? "equipment_items"
                     then Refused "permission denied" else Served
                 | _ => Served
                 end))
              (Some "studio-1")
              (mkWorld (mkScreen false (Some "file:///cache/sony.jpg") [] false None
                                 (Form.mk "Sony A7" "Camera" "3" "" ""))
                       Fixture.store [])
              "permission denied" eq_refl) as [Hcreate _].
  - intros rq Hrq. destruct rq as [u|b|t|t|t]; try reflexivity.
    simpl. destruct (String.eqb_spec t "equipment_items") as [->|Hne];
      [contradiction Hrq; reflexivity|reflexivity].
  - discriminate.
  - destruct (Hcreate "file:///cache/sony.jpg") as (Hi & _ & Ha);
      [reflexivity|reflexivity|discriminate|reflexivity|].
    split; assumption.
Defined.

End MoreRegistrationTheorems.

(** ** Sessions on the registration screen *)

Section MoreSearchTheorems.
Import AddEquipment Registration.

Lemma firstn_Forall {A} (Q : A -> Prop) n (l : list A) :
  Forall Q l -> Forall Q (firstn n l).
Proof.
  intros H. revert n. induction H as [|a l Ha _ IH]; intros [|n]; simpl;
    constructor; auto.
Qed.

(** What a search does to the screen and to the store. *)
Lemma search_effect P studioId ilike name w :
  remote (searchSimilarEquipment P studioId ilike name w) = remote w
  /\ alerts (searchSimilarEquipment P studioId ilike name w) = alerts w
  /\ form (ui (searchSimilarEquipment P studioId ilike name w)) = form (ui w)
  /\ selectedMergeTarget (ui (searchSimilarEquipment P studioId ilike name w))
     = selectedMergeTarget (ui w)
  /\ (similarEquipment (ui (searchSimilarEquipment P studioId ilike name w))
      = similarEquipment (ui w)
      \/ Forall (fun t => exists e,
                     In e (equipment (remote w)) /\ t = snapshot e
                     /\ in_studio studioId e = true
                     /\ ilike ("%" ++ JS.trim name ++ "%") (Equipment.name e) = true)
                (similarEquipment (ui (searchSimilarEquipment P studioId ilike name w)))).
Proof.
  unfold searchSimilarEquipment, select_similar, await.
  destruct (Nat.ltb _ 3); cbn -[firstn].
  - repeat (split; [reflexivity|]). right. constructor.
  - destruct (network P (TableSelect "equipment")); cbn -[firstn].
    + repeat (split; [reflexivity|]). right.
      apply firstn_Forall. apply Forall_forall. intros t Hin.
      apply in_map_iff in Hin. destruct Hin as (e & <- & Hin).
      apply filter_In in Hin. destruct Hin as [Hin Hf].
      apply andb_true_iff in Hf. destruct Hf as [Hs Hl].
      exists e. repeat split; assumption.
    + repeat (split; [reflexivity|]). right. constructor.
    + repeat (split; [reflexivity|]). left. reflexivity.
Qed.

(** X15.  The search for similar equipment only reads.  It leaves the store
    and the alerts as they were; a name of fewer than three characters once
    trimmed clears the suggestions, and so does a refused request; a
    request that rejects leaves the screen as it was; a served request
    suggests at most five entries, each the copy of a stored equipment row
    of the studio whose name the server matched against the trimmed name
    between two percent signs. *)
Theorem search_suggests_stored_rows (P : Platform) (studioId : option string)
    (ilike : string -> string -> bool) (name : string) (w : World) :
  let w' := searchSimilarEquipment P studioId ilike name w in
  remote w' = remote w
  /\ alerts w' = alerts w
  /\ ((String.length (JS.trim name) < 3)%nat -> similarEquipment (ui w') = [])
  /\ ((3 <= String.length (JS.trim name))%nat ->
      match network P (TableSelect "equipment") with
      | Refused _ => similarEquipment (ui w') = []
      | Rejects _ => ui w' = ui w
      | Served =>
          (length (similarEquipment (ui w')) <= 5)%nat
          /\ Forall (fun t => exists e,
                         In e (equipment (remote w)) /\ t = snapshot e
                         /\ in_studio studioId e = true
                         /\ ilike ("%" ++ JS.trim name ++ "%") (Equipment.name e) = true)
                    (similarEquipment (ui w'))
      end).
Proof.
  cbv zeta.
  destruct (search_effect P studioId ilike name w) as (Hr & Ha & _).
  split; [exact Hr|]. split; [exact Ha|]. clear Hr Ha.
  unfold searchSimilarEquipment, select_similar, await. split.
  - intros Hlen. apply Nat.ltb_lt in Hlen. rewrite Hlen. reflexivity.
  - intros Hlen. apply Nat.ltb_ge in Hlen. rewrite Hlen.
    destruct (network P (TableSelect "equipment")); cbn -[firstn]; try reflexivity.
    split; [apply firstn_le_length|].
    apply firstn_Forall. apply Forall_forall. intros t Hin.
    apply in_map_iff in Hin. destruct Hin as (e & <- & Hin).
    apply filter_In in Hin. destruct Hin as [Hin Hf].
    apply andb_true_iff in Hf. destruct Hf as [Hs Hl].
    exists e. repeat split; assumption.
Qed.

Lemma search_suggests_stored_rows_witness :
  let w := mkWorld (mkScreen false None [] false None
                             (Form.mk "  Canon " "Camera" "1" "" ""))
                   Fixture.store [] in
  let w' := searchSimilarEquipment Fixture.online (Some "studio-1")
              (fun _ _ => true) "  Canon " w in
  remote w' = Fixture.store
  /\ (length (similarEquipment (ui w')) <= 5)%nat.
Proof.
  cbv zeta.
  destruct (search_suggests_stored_rows Fixture.online (Some "studio-1")
              (fun _ _ => true) "  Canon "
              (mkWorld (mkScreen false None [] false None
                                 (Form.mk "  Canon " "Camera" "1" "" ""))
                       Fixture.store []))
    as (Hr & _ & _ & Hserved).
  split; [exact Hr|].
  exact (proj1 (Hserved ltac:(vm_compute; lia))).
Defined.











End MoreSearchTheorems.

(** ** From the detail screen to the scan screen *)

Section MoreCodeTheorems.
Import Checkout.

Lemma append_assoc (a b c : string) : ((a ++ b) ++ c = a ++ (b ++ c))%string.
Proof. induction a as [|x a IH]; simpl; [reflexivity|]. rewrite IH. reflexivity. Qed.

(** Each character is read back from what [JSON.stringify] writes for it. *)
Lemma string_chars_quote_char c t :
  Detail.string_chars (Detail.quote_char c ++ t)
  = Detail.prepend c (Detail.string_chars t).
Proof.
  destruct c as [b0 b1 b2 b3 b4 b5 b6 b7].
  destruct b0, b1, b2, b3, b4, b5, b6, b7; reflexivity.
Qed.

Lemma string_chars_quote_body s rest :
  Detail.string_chars (Detail.quote_body s ++ Detail.dq ++ rest) = Some (s, rest).
Proof.
  induction s as [|c s IH]; [reflexivity|].
  cbn [Detail.quote_body]. rewrite append_assoc, string_chars_quote_char, IH.
  reflexivity.
Qed.

Lemma read_string_quote s rest :
  Detail.read_string (Detail.quote s ++ rest) = Some (s, rest).
Proof.
  unfold Detail.quote. rewrite !append_assoc.
  change (Detail.read_string (Detail.dq ++ Detail.quote_body s ++ Detail.dq ++ rest))
    with (Detail.string_chars (Detail.quote_body s ++ Detail.dq ++ rest)).
  apply string_chars_quote_body.
Qed.

Lemma read_member_quote k v rest :
  Detail.read_member (Detail.quote k ++ ":" ++ Detail.quote v ++ rest)
  = Some ((k, JS.JString v), rest).
Proof.
  unfold Detail.read_member. rewrite read_string_quote.
  change (":" ++ Detail.quote v ++ rest)%string
    with (String ":" (Detail.quote v ++ rest)).
  cbv beta iota. rewrite read_string_quote. reflexivity.
Qed.

Lemma quote_length s rest :
  exists n, String.length (Detail.quote s ++ rest) = S (S n).
Proof.
  unfold Detail.quote. rewrite !append_assoc. simpl.
  destruct (Detail.quote_body s) as [|c q]; simpl; eexists; reflexivity.
Qed.

(** The payload of a unit, read back, is the object that was written. *)
Lemma parse_flat_qr_value shown unit_id :
  Detail.parse_flat (Detail.qr_value shown unit_id)
  = Some (Detail.qr_object shown unit_id).
Proof.
  unfold Detail.qr_value, Detail.qr_object. destruct shown as [sid|].
  - rewrite !append_assoc.
    change ("{" ++ Detail.quote "studio" ++ ":" ++ Detail.quote sid ++ ","
              ++ Detail.quote "item" ++ ":" ++ Detail.quote unit_id ++ "}")%string
      with (String "{" (Detail.quote "studio" ++ ":" ++ Detail.quote sid ++ ","
              ++ Detail.quote "item" ++ ":" ++ Detail.quote unit_id ++ "}")).
    set (rest := (Detail.quote "studio" ++ ":" ++ Detail.quote sid ++ ","
              ++ Detail.quote "item" ++ ":" ++ Detail.quote unit_id ++ "}")%string).
    assert (Hshape : Detail.parse_flat (String "{" rest)
                     = match Detail.read_members (String.length rest) rest with
                       | Some ms => Some (JS.JObject ms)
                       | None => None
                       end) by reflexivity.
    rewrite Hshape. clear Hshape.
    destruct (quote_length "studio"
                (":" ++ Detail.quote sid ++ "," ++ Detail.quote "item" ++ ":"
                   ++ Detail.quote unit_id ++ "}")) as [n Hn].
    fold rest in Hn. rewrite Hn. subst rest.
    cbn [Detail.read_members]. rewrite read_member_quote.
    change ("," ++ Detail.quote "item" ++ ":" ++ Detail.quote unit_id ++ "}")%string
      with (String "," (Detail.quote "item" ++ ":" ++ Detail.quote unit_id ++ "}")).
    cbn iota. rewrite read_member_quote. reflexivity.
  - change ("{" ++ "" ++ Detail.quote "item" ++ ":" ++ Detail.quote unit_id ++ "}")%string
      with (String "{" (Detail.quote "item" ++ ":" ++ Detail.quote unit_id ++ "}")).
    set (rest := (Detail.quote "item" ++ ":" ++ Detail.quote unit_id ++ "}")%string).
    assert (Hshape : Detail.parse_flat (String "{" rest)
                     = match Detail.read_members (String.length rest) rest with
                       | Some ms => Some (JS.JObject ms)
                       | None => None
                       end) by reflexivity.
    rewrite Hshape. clear Hshape.
    destruct (quote_length "item" (":" ++ Detail.quote unit_id ++ "}")) as [n Hn].
    fold rest in Hn. rewrite Hn. subst rest.
    cbn [Detail.read_members]. rewrite read_member_quote. reflexivity.
Qed.

(** X17.  The code the detail screen shows for a unit is read back by the
    scan screen.  The text [JSON.stringify] makes of the studio and the
    unit's id, with every quote, backslash and control character of the two
    escaped, is read back by a [JSON.parse] that reads flat objects of
    strings as the object it was made from; so, for a unit whose id is not
    empty, [resolveUnitId] applied to the payload is the unit's id, whatever
    studio the payload names and whether it names one or not.  If moreover
    the lookup is served, the unit is the only one with that id or with the
    payload as its code, its equipment passes the studio check, it is not
    in the cart and its status is legal for the mode, the scan stages that
    unit. *)
Theorem shown_code_scans_to_its_unit (P : Platform) (studioId shown : option string)
    (w : World) (u : EquipmentItem.t) (e : Equipment.t) :
  let data := Detail.qr_value shown (EquipmentItem.id u) in
  reads_flat_objects P ->
  EquipmentItem.id u <> "" ->
  JSON_parse P data = Some (Detail.qr_object shown (EquipmentItem.id u))
  /\ resolveUnitId P data = EquipmentItem.id u
  /\ (network P (TableSelect "equipment_items") = Served ->
      filter (fun x => (EquipmentItem.id x =? EquipmentItem.id u)
                         || (EquipmentItem.code x =? data))
             (equipment_items (remote w)) = [u] ->
      find (fun x => Equipment.id x =? EquipmentItem.equipment_id u)
           (equipment (remote w)) = Some e ->
      ready (ui w) ->
      studio_passes studioId e ->
      existsb (fun c => unitId c =? EquipmentItem.id u) (cart (ui w)) = false ->
      Spec.legal (mode (ui w)) (EquipmentItem.status u) ->
      handleBarCodeScanned P studioId data w = staged (entry u e) w).
Proof.
  intros data Hreads Hid.
  assert (Hparse : JSON_parse P data
                   = Some (Detail.qr_object shown (EquipmentItem.id u)))
    by (apply Hreads; apply parse_flat_qr_value).
  assert (Hres : resolveUnitId P data = EquipmentItem.id u).
  { unfold resolveUnitId. rewrite Hparse.
    unfold Detail.qr_object. destruct shown as [s|]; simpl.
    all: rewrite (truthy_nonempty _ Hid); reflexivity. }
  split; [exact Hparse|]. split; [exact Hres|].
  intros Hnet Hone Hfind Hready Hpass Hcart Hlegal.
  apply scan_of_passing_unit; try assumption.
  split; [exact Hnet|]. split; [|exact Hfind].
  rewrite Hres. exact Hone.
Qed.

Lemma shown_code_scans_to_its_unit_witness :
  let reader :=
    mkPlatform Detail.parse_flat (fun _ => "0") Fixture.public_url 1767948290000
               (fun _ => "0.4fzyo82mvyr")
               (fun n => "id-" ++ JS.int_toString (Z.of_nat n)) (fun _ => Served) in
  Detail.qr_value (Some "studio-1") "unit-1" = Fixture.qr_payload
  /\ Detail.parse_flat Fixture.qr_payload = Fixture.decode Fixture.qr_payload
  /\ handleBarCodeScanned reader (Some "studio-1") Fixture.qr_payload
       (mkWorld initial Fixture.store [])
     = staged (entry (Fixture.unit_ "1" "available") Fixture.canon)
              (mkWorld initial Fixture.store []).
Proof.
  cbv zeta. split; [reflexivity|]. split; [reflexivity|].
  refine (proj2 (proj2 (shown_code_scans_to_its_unit
                   (mkPlatform Detail.parse_flat (fun _ => "0") Fixture.public_url
                      1767948290000 (fun _ => "0.4fzyo82mvyr")
                      (fun n => "id-" ++ JS.int_toString (Z.of_nat n)) (fun _ => Served))
                   (Some "studio-1") (Some "studio-1")
                   (mkWorld initial Fixture.store [])
                   (Fixture.unit_ "1" "available") Fixture.canon _ _))
                _ _ _ _ _ _ _).
  - intros data v H. exact H.
  - discriminate.
  - reflexivity.
  - reflexivity.
  - reflexivity.
  - split; reflexivity.
  - right. reflexivity.
  - reflexivity.
  - reflexivity.
Defined.

(** Characters that need escaping come back as well. *)
Example escaped_id_reads_back :
  let unit_id := String "034" (String "092" (String "010" "a/b")) in
  Detail.parse_flat (Detail.qr_value None unit_id)
  = Some (JS.JObject [("item", JS.JString unit_id)]).
Proof. reflexivity. Qed.

End MoreCodeTheorems.
